(** * CareerCompassAI: resume analyzers

    A shallow embedding of the three resume analyzers of the repository
    ([services/resume_analyzer.py], [services/advanced_resume_analyzer.py],
    [services/realtime_resume_analyzer.py]) and the properties of their
    extraction, skill matching, experience classification, recommendation
    and scoring stages.

    Conventions of the embedding:
    - a Python [str] is a list of Unicode code points ([pystr]);
    - a Python [dict] whose iteration order is observable is an association
      list in insertion order;
    - code that can raise is written in the exception monad [M]; a
      [try: ... except Exception] block is [try_except];
    - the PDF libraries (PyMuPDF, pdfplumber, PyPDF2) are oracles: what they
      return for the given bytes is an argument of the model;
    - the Unicode tables of the interpreter (case mapping, character classes)
      are the class [Unicode]; the instance [AsciiUnicode] evaluates the model
      on ASCII text, where it coincides with CPython. *)

From Stdlib Require Import ZArith NArith List String Ascii Bool Lia Arith.
From Stdlib Require Import QArith Qminmax Lqa Floats.
From Stdlib Require Import Sorting.Permutation Sorting.Sorted.
Import ListNotations.

Local Open Scope string_scope.
Local Open Scope list_scope.
Local Open Scope nat_scope.

(* ================================================================= *)
(** * Python strings *)
(* ================================================================= *)

Module Py.

(** A character is its Unicode code point. *)
Definition pychar := N.
Bind Scope N_scope with pychar.
Definition pystr := list pychar.

(** [py "abc"] is the str literal ['abc']. *)
Definition py (s : string) : pystr :=
  map N_of_ascii (list_ascii_of_string s).

(** [ch "a"] is the code point of a one-character literal. *)
Definition ch (s : string) : pychar :=
  match s with
  | String a _ => N_of_ascii a
  | EmptyString => 0%N
  end.

Definition LF : pychar := 10%N.
Definition CR : pychar := 13%N.
Definition TAB : pychar := 9%N.
Definition SP : pychar := 32%N.

Definition chr_eqb (a b : pychar) : bool := N.eqb a b.

Fixpoint str_eqb (a b : pystr) : bool :=
  match a, b with
  | [], [] => true
  | x :: a', y :: b' => chr_eqb x y && str_eqb a' b'
  | _, _ => false
  end.

Definition in_range (lo hi c : pychar) : bool :=
  (N.leb lo c && N.leb c hi)%bool.

(** [str.isspace] on one character (also what [strip], [split] and the
    regular expression class [\s] use). *)
Definition chr_isspace (c : pychar) : bool :=
  in_range 9 13 c || in_range 28 32 c || chr_eqb c 133 || chr_eqb c 160
  || chr_eqb c 5760%N || in_range 8192%N 8202%N c || chr_eqb c 8232%N
  || chr_eqb c 8233%N || chr_eqb c 8239%N || chr_eqb c 8287%N || chr_eqb c 12288%N.

Fixpoint lstrip (s : pystr) : pystr :=
  match s with
  | c :: t => if chr_isspace c then lstrip t else s
  | [] => []
  end.

Definition rstrip (s : pystr) : pystr := rev (lstrip (rev s)).

(** [s.strip()] *)
Definition strip (s : pystr) : pystr := rstrip (lstrip s).

(** [s.split()]: the maximal runs of non-whitespace characters. *)
Fixpoint split_ws_aux (s : pystr) (cur : pystr) : list pystr :=
  match s with
  | [] => match cur with [] => [] | _ => [rev cur] end
  | c :: t =>
      if chr_isspace c
      then match cur with
           | [] => split_ws_aux t []
           | _ => rev cur :: split_ws_aux t []
           end
      else split_ws_aux t (c :: cur)
  end.

Definition split_ws (s : pystr) : list pystr := split_ws_aux s [].

(** [needle in s] when [needle] starts [s]. *)
Fixpoint startswith (needle s : pystr) : bool :=
  match needle, s with
  | [], _ => true
  | x :: n', y :: s' => chr_eqb x y && startswith n' s'
  | _ :: _, [] => false
  end.

(** [needle in s] *)
Fixpoint contains (needle s : pystr) : bool :=
  startswith needle s ||
  match s with
  | [] => false
  | _ :: t => contains needle t
  end.

(** [x in l] for a list of strings. *)
Definition str_in (x : pystr) (l : list pystr) : bool :=
  existsb (str_eqb x) l.

(** [s[a:b]] for [0 <= a]. *)
Definition slice {A} (s : list A) (a b : nat) : list A :=
  firstn (b - a) (skipn a s).

(** [s.replace(old, new)] for a one-character [old]. *)
Definition replace_chr (old : pychar) (new : pystr) (s : pystr) : pystr :=
  flat_map (fun c => if chr_eqb c old then new else [c]) s.

(** ASCII case tests and mappings. *)
Definition is_ascii_upper (c : pychar) : bool := in_range 65 90 c.
Definition is_ascii_lower (c : pychar) : bool := in_range 97 122 c.
Definition is_ascii_alpha (c : pychar) : bool :=
  is_ascii_upper c || is_ascii_lower c.
Definition is_ascii_digit (c : pychar) : bool := in_range 48 57 c.
Definition ascii_lower (c : pychar) : pychar :=
  if is_ascii_upper c then (c + 32)%N else c.
Definition ascii_upper (c : pychar) : pychar :=
  if is_ascii_lower c then (c - 32)%N else c.

(** [s.title()] on ASCII text: a letter that follows a letter is lowered,
    any other letter is capitalised.  It is applied to the keywords of the
    skill tables only, which are ASCII. *)
Fixpoint title_aux (prev_cased : bool) (s : pystr) : pystr :=
  match s with
  | [] => []
  | c :: t =>
      if is_ascii_alpha c
      then (if prev_cased then ascii_lower c else ascii_upper c)
             :: title_aux true t
      else c :: title_aux false t
  end.

Definition title (s : pystr) : pystr := title_aux false s.

(** The decimal representation of a natural number, [str(n)]. *)
Fixpoint digits_aux (fuel n : nat) (acc : pystr) : pystr :=
  match fuel with
  | O => acc
  | S f =>
      let d := (48 + N.of_nat (n mod 10))%N in
      if n <? 10 then d :: acc else digits_aux f (n / 10) (d :: acc)
  end.

Definition str_of_nat (n : nat) : pystr := digits_aux (S n) n [].

(** The interpreter's Unicode tables. *)
Class Unicode := {
  (** [str.lower] *)
  str_lower : pystr -> pystr;
  (** [str.isalnum] on one character; [\w] is this or an underscore *)
  chr_isalnum : pychar -> bool;
  (** [str.isalpha] on one character *)
  chr_isalpha : pychar -> bool;
  (** the value of a decimal digit; [\d] matches where it is defined *)
  chr_decimal : pychar -> option Z;
  (** equality of characters under [re.IGNORECASE] *)
  chr_ieq : pychar -> pychar -> bool
}.

(** The tables on ASCII; characters outside ASCII are left alone. *)
#[export] Instance AsciiUnicode : Unicode := {|
  str_lower := map ascii_lower;
  chr_isalnum := fun c => is_ascii_alpha c || is_ascii_digit c;
  chr_isalpha := is_ascii_alpha;
  chr_decimal := fun c =>
    if is_ascii_digit c then Some (Z.of_N c - 48)%Z else None;
  chr_ieq := fun a b => chr_eqb (ascii_lower a) (ascii_lower b)
|}.

Section WithUnicode.
Context {U : Unicode}.

(** [word.isalpha()] *)
Definition isalpha (s : pystr) : bool :=
  match s with
  | [] => false
  | _ => forallb chr_isalpha s
  end.

(** [int(s)] for a string of decimal digits; [None] is [ValueError]. *)
Fixpoint int_digits (acc : Z) (s : pystr) : option Z :=
  match s with
  | [] => Some acc
  | c :: t =>
      match chr_decimal c with
      | Some d => int_digits (acc * 10 + d)%Z t
      | None => None
      end
  end.

Definition int_of_str (s : pystr) : option Z :=
  match s with
  | [] => None
  | _ => int_digits 0%Z s
  end.

End WithUnicode.

End Py.
Export Py.

(* ================================================================= *)
(** * Regular expressions ([re]) *)
(* ================================================================= *)

(** The part of Python's [re] the analyzers use: literals, classes, [.],
    [\b], groups, alternation and greedy or lazy repetition, matched by
    backtracking with Python's priorities (left alternative first, greedy
    repetition longest first, lazy repetition shortest first). *)

Module Re.

Inductive citem :=
| IChar (c : pychar)
| IRange (lo hi : pychar)
| IDigit
| ISpace
| IWord.

Inductive regex :=
| REps
| RFail
| RChr (c : pychar)
| RSet (neg : bool) (items : list citem)
| RAny
| RBound
| RSeq (a b : regex)
| RAlt (a b : regex)
| RStar (greedy : bool) (a : regex)
| RGroup (i : nat) (a : regex).

(** The position in the subject: the character before, what is left, and
    the index. *)
Record cursor := Cursor {
  cur_prev : option pychar;
  cur_rest : pystr;
  cur_pos : nat
}.

Definition cursor_start (s : pystr) : cursor := Cursor None s 0.

Definition advance (c : cursor) : cursor :=
  match cur_rest c with
  | [] => c
  | x :: t => Cursor (Some x) t (S (cur_pos c))
  end.

Fixpoint advance_to (fuel : nat) (c : cursor) (pos : nat) : cursor :=
  match fuel with
  | O => c
  | S f => if cur_pos c <? pos then advance_to f (advance c) pos else c
  end.

(** Captured groups: group number to span. *)
Definition caps := list (nat * (nat * nat)).

Definition cap_get (g : caps) (i : nat) : option (nat * nat) :=
  match find (fun e => fst e =? i) g with
  | Some e => Some (snd e)
  | None => None
  end.

Fixpoint repeat_re (n : nat) (a : regex) : regex :=
  match n with
  | O => REps
  | S m => RSeq a (repeat_re m a)
  end.

Definition RPlus (greedy : bool) (a : regex) : regex := RSeq a (RStar greedy a).
Definition ROpt (greedy : bool) (a : regex) : regex :=
  if greedy then RAlt a REps else RAlt REps a.

Fixpoint RLit (s : pystr) : regex :=
  match s with
  | [] => REps
  | c :: t => RSeq (RChr c) (RLit t)
  end.

Section Matcher.
Context {U : Unicode}.

(** [\w] *)
Definition chr_isword (c : pychar) : bool :=
  chr_isalnum c || chr_eqb c (ch "_").

(** [\d] *)
Definition chr_isdigit (c : pychar) : bool :=
  match chr_decimal c with Some _ => true | None => false end.

Definition lit_eq (ic : bool) (a b : pychar) : bool :=
  if ic then chr_ieq a b else chr_eqb a b.

Definition item_mem (ic : bool) (c : pychar) (i : citem) : bool :=
  match i with
  | IChar x => lit_eq ic x c
  | IRange lo hi => in_range lo hi c
  | IDigit => chr_isdigit c
  | ISpace => chr_isspace c
  | IWord => chr_isword c
  end.

Definition opt_isword (o : option pychar) : bool :=
  match o with Some c => chr_isword c | None => false end.

(** [\b]: exactly one side is a word character. *)
Definition at_boundary (c : cursor) : bool :=
  xorb (opt_isword (cur_prev c)) (opt_isword (hd_error (cur_rest c))).

Definition orelse {R} (a b : option R) : option R :=
  match a with Some x => Some x | None => b end.

(** [rmatch ic r c g k]: match [r] at [c] with captures [g], then continue
    with [k]; the first success in priority order is the result. [ic] is
    [re.IGNORECASE]. *)
Fixpoint rmatch {R} (ic : bool) (r : regex) (c : cursor) (g : caps)
    (k : cursor -> caps -> option R) {struct r} : option R :=
  match r with
  | REps => k c g
  | RFail => None
  | RChr x =>
      match cur_rest c with
      | y :: _ => if lit_eq ic x y then k (advance c) g else None
      | [] => None
      end
  | RSet neg items =>
      match cur_rest c with
      | y :: _ =>
          if xorb neg (existsb (item_mem ic y) items)
          then k (advance c) g else None
      | [] => None
      end
  | RAny =>
      match cur_rest c with
      | y :: _ => if chr_eqb y LF then None else k (advance c) g
      | [] => None
      end
  | RBound => if at_boundary c then k c g else None
  | RSeq a b => rmatch ic a c g (fun c' g' => rmatch ic b c' g' k)
  | RAlt a b => orelse (rmatch ic a c g k) (rmatch ic b c g k)
  | RGroup i a =>
      rmatch ic a c g
        (fun c' g' => k c' ((i, (cur_pos c, cur_pos c')) :: g'))
  | RStar greedy a =>
      (fix loop (fuel : nat) (c : cursor) (g : caps) {struct fuel} : option R :=
         match fuel with
         | O => k c g
         | S f =>
             let more :=
               rmatch ic a c g
                 (fun c' g' =>
                    if cur_pos c' =? cur_pos c then None else loop f c' g') in
             if greedy then orelse more (k c g) else orelse (k c g) more
         end) (S (List.length (cur_rest c))) c g
  end.

(** A match of [r] starting exactly at [c]: its end and its groups. *)
Definition match_here (ic : bool) (r : regex) (c : cursor)
  : option (nat * caps) :=
  rmatch ic r c [] (fun c' g => Some (cur_pos c', g)).

(** The matches of [r] from [c] on, left to right, not overlapping. *)
Fixpoint scan (fuel : nat) (ic : bool) (r : regex) (c : cursor)
  : list (nat * nat * caps) :=
  match fuel with
  | O => []
  | S f =>
      match match_here ic r c with
      | Some (e, g) =>
          (cur_pos c, e, g) ::
          (if e =? cur_pos c
           then match cur_rest c with
                | [] => []
                | _ => scan f ic r (advance c)
                end
           else scan f ic r (advance_to (S (List.length (cur_rest c))) c e))
      | None =>
          match cur_rest c with
          | [] => []
          | _ => scan f ic r (advance c)
          end
      end
  end.

(** [re.finditer(r, s)]: the spans and groups of the matches. *)
Definition finditer (ic : bool) (r : regex) (s : pystr)
  : list (nat * nat * caps) :=
  scan (S (List.length s)) ic r (cursor_start s).

(** [re.search(r, s)] as a truth value. *)
Definition search (ic : bool) (r : regex) (s : pystr) : bool :=
  match finditer ic r s with
  | [] => false
  | _ => true
  end.

(** [re.findall(r, s)] for a pattern with one group: the text of group 1
    of each match (the empty string if the group took no part). *)
Definition findall (ic : bool) (r : regex) (s : pystr) : list pystr :=
  map (fun m : nat * nat * caps =>
         match cap_get (snd m) 1 with
         | Some (a, b) => slice s a b
         | None => []
         end)
      (finditer ic r s).

(** [re.sub(r, repl, s)] for a replacement without group references. *)
Fixpoint sub_spans (ms : list (nat * nat * caps)) (repl : pystr)
    (s : pystr) (pos : nat) : pystr :=
  match ms with
  | [] => skipn pos s
  | (a, b, _) :: ms' => slice s pos a ++ repl ++ sub_spans ms' repl s b
  end.

Definition sub (ic : bool) (r : regex) (repl s : pystr) : pystr :=
  sub_spans (finditer ic r s) repl s 0.

End Matcher.

(** ** Pattern syntax

    [compile "..."] reads a pattern written as in the source. *)

Definition hexval (c : pychar) : option N :=
  if in_range 48 57 c then Some (c - 48)%N
  else if in_range 65 70 c then Some (c - 55)%N
  else if in_range 97 102 c then Some (c - 87)%N
  else None.

(** The meaning of [\c] as a member of a set. *)
Definition esc_item (c : pychar) : citem :=
  if chr_eqb c (ch "d") then IDigit
  else if chr_eqb c (ch "s") then ISpace
  else if chr_eqb c (ch "w") then IWord
  else if chr_eqb c (ch "n") then IChar LF
  else if chr_eqb c (ch "r") then IChar CR
  else if chr_eqb c (ch "t") then IChar TAB
  else IChar c.

(** One member of a set, without ranges: the item and the rest. *)
Definition p_item1 (s : pystr) : option (citem * pystr) :=
  match s with
  | [] => None
  | c :: t =>
      if chr_eqb c (ch "\") then
        match t with
        | x :: h1 :: h2 :: t' =>
            if chr_eqb x (ch "x") then
              match hexval h1, hexval h2 with
              | Some a, Some b => Some (IChar (16 * a + b)%N, t')
              | _, _ => None
              end
            else Some (esc_item x, h1 :: h2 :: t')
        | x :: t' => Some (esc_item x, t')
        | [] => None
        end
      else Some (IChar c, t)
  end.

(** The members of a set up to the closing bracket. *)
Fixpoint p_items (fuel : nat) (s : pystr) : option (list citem * pystr) :=
  match fuel with
  | O => None
  | S f =>
      match s with
      | [] => None
      | c :: t =>
          if chr_eqb c (ch "]") then Some ([], t)
          else
            match p_item1 s with
            | Some (IChar lo, d :: s1) =>
                if chr_eqb d (ch "-") && negb (startswith (py "]") s1) then
                  match p_item1 s1 with
                  | Some (IChar hi, s2) =>
                      match p_items f s2 with
                      | Some (l, s3) => Some (IRange lo hi :: l, s3)
                      | None => None
                      end
                  | _ => None
                  end
                else
                  match p_items f (d :: s1) with
                  | Some (l, s3) => Some (IChar lo :: l, s3)
                  | None => None
                  end
            | Some (i, s1) =>
                match p_items f s1 with
                | Some (l, s3) => Some (i :: l, s3)
                | None => None
                end
            | None => None
            end
      end
  end.

Fixpoint p_number (s : pystr) (acc : nat) : nat * pystr :=
  match s with
  | c :: t =>
      if is_ascii_digit c
      then p_number t (acc * 10 + N.to_nat (c - 48))
      else (acc, s)
  | [] => (acc, s)
  end.

(** A quantifier after the atom [a], if there is one. *)
Definition p_quant (a : regex) (s : pystr) : option (regex * pystr) :=
  let lazy_suffix (mk : bool -> regex) (t : pystr) :=
    match t with
    | q :: t' => if chr_eqb q (ch "?") then (mk false, t') else (mk true, t)
    | [] => (mk true, t)
    end in
  match s with
  | c :: t =>
      if chr_eqb c (ch "*") then Some (lazy_suffix (fun g => RStar g a) t)
      else if chr_eqb c (ch "+") then Some (lazy_suffix (fun g => RPlus g a) t)
      else if chr_eqb c (ch "?") then Some (lazy_suffix (fun g => ROpt g a) t)
      else if chr_eqb c (ch "{") then
        match p_number t 0 with
        | (n, d :: t') =>
            if chr_eqb d (ch "}") then Some (repeat_re n a, t') else None
        | _ => None
        end
      else Some (a, s)
  | [] => Some (a, s)
  end.

(** Alternations, sequences and atoms; the number carried along is the
    number of capturing groups opened so far. *)
Fixpoint p_alt (fuel : nat) (s : pystr) (n : nat)
  : option (regex * pystr * nat) :=
  match fuel with
  | O => None
  | S f =>
      match p_seq f s n with
      | Some (r, s1, n1) =>
          match s1 with
          | c :: t =>
              if chr_eqb c (ch "|") then
                match p_alt f t n1 with
                | Some (r2, s2, n2) => Some (RAlt r r2, s2, n2)
                | None => None
                end
              else Some (r, s1, n1)
          | [] => Some (r, s1, n1)
          end
      | None => None
      end
  end
with p_seq (fuel : nat) (s : pystr) (n : nat)
  : option (regex * pystr * nat) :=
  match fuel with
  | O => None
  | S f =>
      match s with
      | [] => Some (REps, s, n)
      | c :: _ =>
          if chr_eqb c (ch "|") || chr_eqb c (ch ")") then Some (REps, s, n)
          else
            match p_atom f s n with
            | Some (a, s1, n1) =>
                match p_quant a s1 with
                | Some (a', s2) =>
                    match p_seq f s2 n1 with
                    | Some (REps, s3, n3) => Some (a', s3, n3)
                    | Some (r, s3, n3) => Some (RSeq a' r, s3, n3)
                    | None => None
                    end
                | None => None
                end
            | None => None
            end
      end
  end
with p_atom (fuel : nat) (s : pystr) (n : nat)
  : option (regex * pystr * nat) :=
  match fuel with
  | O => None
  | S f =>
      match s with
      | [] => None
      | c :: t =>
          if chr_eqb c (ch "(") then
            if startswith (py "?:") t then
              match p_alt f (skipn 2 t) n with
              | Some (r, d :: t', n') =>
                  if chr_eqb d (ch ")") then Some (r, t', n') else None
              | _ => None
              end
            else
              match p_alt f t (S n) with
              | Some (r, d :: t', n') =>
                  if chr_eqb d (ch ")")
                  then Some (RGroup (S n) r, t', n') else None
              | _ => None
              end
          else if chr_eqb c (ch "[") then
            let '(neg, t1) :=
              match t with
              | x :: t' => if chr_eqb x (ch "^") then (true, t') else (false, t)
              | [] => (false, t)
              end in
            match p_items (S (List.length t1)) t1 with
            | Some (items, t2) => Some (RSet neg items, t2, n)
            | None => None
            end
          else if chr_eqb c (ch "\") then
            match t with
            | x :: t' =>
                if chr_eqb x (ch "b") then Some (RBound, t', n)
                else
                  match esc_item x with
                  | IChar y => Some (RChr y, t', n)
                  | i => Some (RSet false [i], t', n)
                  end
            | [] => None
            end
          else if chr_eqb c (ch ".") then Some (RAny, t, n)
          else Some (RChr c, t, n)
      end
  end.

(** [re.compile(pattern)]; a pattern outside the supported syntax compiles
    to [RFail] (the pattern tables of the analyzers are inside it, see
    [patterns_compile] below). *)
Definition compile_str (s : pystr) : regex :=
  match p_alt (4 * List.length s + 8) s 0 with
  | Some (r, [], _) => r
  | _ => RFail
  end.

Definition compile (s : string) : regex := compile_str (py s).

(** [re.escape(s)]: a backslash before every special character. *)
Definition is_special (c : pychar) : bool :=
  existsb (chr_eqb c) (py "()[]{}?*+-|^$\.&~# ") || in_range 9 13 c.

Definition escape (s : pystr) : pystr :=
  flat_map (fun c => if is_special c then [ch "\"; c] else [c]) s.

(** Whether a pattern was inside the supported syntax. *)
Definition compiled (r : regex) : bool :=
  match r with RFail => false | _ => true end.

End Re.

(* ================================================================= *)
(** * Exceptions and effects *)
(* ================================================================= *)

Module Eff.

(** A raised exception: its class and [str(e)].  Every exception of the
    model is an instance of [Exception]. *)
Record exn := Exn { exn_class : string; exn_str : pystr }.

Inductive result (A : Type) :=
| Ok (a : A)
| Raised (e : exn).
Arguments Ok {A} a.
Arguments Raised {A} e.

(** A computation over a mutable state [S] that returns or raises; the
    state it has built survives the exception, as the assignments of a
    Python [try] block do. *)
Definition M (S A : Type) : Type := S -> result A * S.

Definition ret {S A} (a : A) : M S A := fun s => (Ok a, s).

Definition bind {S A B} (c : M S A) (f : A -> M S B) : M S B :=
  fun s =>
    match c s with
    | (Ok a, s') => f a s'
    | (Raised e, s') => (Raised e, s')
    end.

Definition raise {S A} (e : exn) : M S A := fun s => (Raised e, s).

Definition get {S} : M S S := fun s => (Ok s, s).

Definition modify {S} (f : S -> S) : M S unit := fun s => (Ok tt, f s).

(** The outcome of a call into a library. *)
Definition call {S A} (r : result A) : M S A := fun s => (r, s).

(** [try: c except Exception as e: h e] *)
Definition try_except {S A} (c : M S A) (h : exn -> M S A) : M S A :=
  fun s =>
    match c s with
    | (Ok a, s') => (Ok a, s')
    | (Raised e, s') => h e s'
    end.

(** [for x in l: f x] *)
Fixpoint for_each {S A} (l : list A) (f : A -> M S unit) : M S unit :=
  match l with
  | [] => ret tt
  | x :: t => bind (f x) (fun _ => for_each t f)
  end.

(** [enumerate(l)] *)
Definition enumerate {A} (l : list A) : list (nat * A) :=
  combine (seq 0 (List.length l)) l.

Declare Scope eff_scope.
Delimit Scope eff_scope with eff.
Notation "x <- c ;; k" := (bind c (fun x => k))
  (at level 61, c at next level, right associativity) : eff_scope.
Notation "c ;; k" := (bind c (fun _ => k))
  (at level 61, right associativity) : eff_scope.

End Eff.
Export Eff.

(* ================================================================= *)
(** * The PDF libraries and byte decoding *)
(* ================================================================= *)

Module Pdf.

Definition bytes := list Byte.byte.

(** [b"..."] *)
Definition bytes_of (s : string) : bytes :=
  map byte_of_ascii (list_ascii_of_string s).

(** A PyMuPDF document: what [load_page(n).get_text()] does for each page,
    and what [close()] does. *)
Record fitz_document := {
  fitz_pages : list (result pystr);
  fitz_close : result unit
}.

(** A pdfplumber table: rows of cells; a row or a cell can be [None]. *)
Definition plumber_table := list (option (list (option pystr))).

(** A pdfplumber page: what [extract_text()] and [extract_tables()] do. *)
Record plumber_page := {
  plumber_extract_text : result (option pystr);
  plumber_extract_tables : result (list plumber_table)
}.

(** What the three libraries do with the bytes they are given. *)
Class PdfLibs := {
  (** [fitz.open(stream=pdf_bytes, filetype="pdf")] *)
  fitz_open : bytes -> result fitz_document;
  (** [pdfplumber.open(BytesIO(pdf_bytes))] and its [pages] *)
  pdfplumber_open : bytes -> result (list plumber_page);
  (** [PyPDF2.PdfReader(BytesIO(pdf_bytes))] and, for each of its [pages],
      what [extract_text()] does *)
  PdfReader : bytes -> result (list (result pystr))
}.

(** Libraries that reject the bytes, as they do for bytes that are not a
    PDF document. *)
Definition rejecting_libs : PdfLibs := {|
  fitz_open := fun _ =>
    Raised (Exn "FileDataError" (py "Failed to open stream"));
  pdfplumber_open := fun _ =>
    Raised (Exn "PDFSyntaxError" (py "No /Root object! - Is this really a PDF?"));
  PdfReader := fun _ =>
    Raised (Exn "PdfReadError" (py "EOF marker not found"))
|}.

(** ** [bytes.decode('utf-8', errors='ignore')] *)

Definition is_cont (b : N) : bool := in_range 128 191 b.

Fixpoint utf8_decode (fuel : nat) (bs : list N) : pystr :=
  match fuel with
  | O => []
  | S f =>
      match bs with
      | [] => []
      | b0 :: t =>
          if (b0 <? 128)%N then b0 :: utf8_decode f t
          else if (b0 <? 194)%N then utf8_decode f t
          else if (b0 <? 224)%N then
            match t with
            | [] => []
            | b1 :: t1 =>
                if is_cont b1
                then ((b0 - 192) * 64 + (b1 - 128))%N :: utf8_decode f t1
                else utf8_decode f t
            end
          else if (b0 <? 240)%N then
            match t with
            | [] => []
            | b1 :: t1 =>
                if negb (is_cont b1)
                   || (if (b1 <? 160)%N then (b0 =? 224)%N else (b0 =? 237)%N)
                then utf8_decode f t
                else
                  match t1 with
                  | [] => []
                  | b2 :: t2 =>
                      if is_cont b2
                      then ((b0 - 224) * 4096 + (b1 - 128) * 64
                            + (b2 - 128))%N :: utf8_decode f t2
                      else utf8_decode f t1
                  end
            end
          else if (b0 <? 245)%N then
            match t with
            | [] => []
            | b1 :: t1 =>
                if negb (is_cont b1)
                   || (if (b1 <? 144)%N then (b0 =? 240)%N else (b0 =? 244)%N)
                then utf8_decode f t
                else
                  match t1 with
                  | [] => []
                  | b2 :: t2 =>
                      if negb (is_cont b2) then utf8_decode f t1
                      else
                        match t2 with
                        | [] => []
                        | b3 :: t3 =>
                            if is_cont b3
                            then ((b0 - 240) * 262144 + (b1 - 128) * 4096
                                  + (b2 - 128) * 64 + (b3 - 128))%N
                                 :: utf8_decode f t3
                            else utf8_decode f t2
                        end
                  end
            end
          else utf8_decode f t
      end
  end.

(** [pdf_bytes.decode('utf-8', errors='ignore')] *)
Definition decode_utf8_ignore (b : bytes) : pystr :=
  utf8_decode (List.length b) (map Byte.to_N b).

(** [sep.join(l)] *)
Fixpoint join (sep : pystr) (l : list pystr) : pystr :=
  match l with
  | [] => []
  | [x] => x
  | x :: t => x ++ sep ++ join sep t
  end.

(** ** When a strategy fails *)

(** The exception a call raises, when it raises. *)
Definition result_error {A} (r : result A) : option exn :=
  match r with Ok _ => None | Raised e => Some e end.

(** The first exception among the calls made for the elements of [l], in
    order. *)
Fixpoint find_error {A} (err : A -> option exn) (l : list A) : option exn :=
  match l with
  | [] => None
  | x :: t =>
      match err x with
      | Some e => Some e
      | None => find_error err t
      end
  end.

(** How a loop ends whose first exception is [o]. *)
Definition outcome (o : option exn) : result unit :=
  match o with None => Ok tt | Some e => Raised e end.

(** The line a strategy's handler writes for the exception [o]. *)
Definition failure_message (prefix : string) (o : option exn) : list pystr :=
  match o with Some e => [py prefix ++ exn_str e] | None => [] end.

(** The text a loop has added when it ends: every element adds its text
    and may then raise, which ends the loop. *)
Fixpoint appended {A} (step : A -> pystr * option exn) (l : list A) : pystr :=
  match l with
  | [] => []
  | x :: t =>
      match snd (step x) with
      | Some _ => fst (step x)
      | None => fst (step x) ++ appended step t
      end
  end.

(** Whether a strategy returns: it has not failed, and its stripped text is
    longer than its threshold. *)
Definition accepts (fail : option exn) (threshold : nat) (text : pystr)
  : bool :=
  match fail with
  | Some _ => false
  | None => threshold <? List.length (strip text)
  end.

Section Failures.
Context {L : PdfLibs}.

(** The exception that ends a PyMuPDF strategy: from opening the document,
    from reading its pages in order, or from closing it. *)
Definition pymupdf_failure (pdf_bytes : bytes) : option exn :=
  match fitz_open pdf_bytes with
  | Raised e => Some e
  | Ok pdf_document =>
      match find_error result_error (fitz_pages pdf_document) with
      | Some e => Some e
      | None => result_error (fitz_close pdf_document)
      end
  end.

(** The exception a pdfplumber strategy meets on a page: from the text, or,
    if the strategy reads tables, from the tables. *)
Definition plumber_page_error (tables : bool) (page : plumber_page)
  : option exn :=
  match plumber_extract_text page with
  | Raised e => Some e
  | Ok _ => if tables then result_error (plumber_extract_tables page) else None
  end.

Definition pdfplumber_failure (tables : bool) (pdf_bytes : bytes)
  : option exn :=
  match pdfplumber_open pdf_bytes with
  | Raised e => Some e
  | Ok pages => find_error (plumber_page_error tables) pages
  end.

(** The exception that ends a PyPDF2 strategy. *)
Definition pypdf2_failure (pdf_bytes : bytes) : option exn :=
  match PdfReader pdf_bytes with
  | Raised e => Some e
  | Ok pages => find_error result_error pages
  end.

End Failures.

(** Libraries that find one page with the text [t]. *)
Definition one_page_libs (t : pystr) : PdfLibs := {|
  fitz_open := fun _ => Ok {| fitz_pages := [Ok t]; fitz_close := Ok tt |};
  pdfplumber_open := fun _ =>
    Ok [ {| plumber_extract_text := Ok (Some t);
            plumber_extract_tables := Ok [] |} ];
  PdfReader := fun _ => Ok [Ok t]
|}.

(** Libraries of which only PyPDF2 reads the bytes, and finds no page. *)
Definition no_page_libs : PdfLibs := {|
  fitz_open := fun _ =>
    Raised (Exn "FileDataError" (py "Failed to open stream"));
  pdfplumber_open := fun _ =>
    Raised (Exn "PDFSyntaxError" (py "No /Root object! - Is this really a PDF?"));
  PdfReader := fun _ => Ok []
|}.

End Pdf.
Export Pdf.

(* ================================================================= *)
(** * Dictionaries with string keys, in insertion order *)
(* ================================================================= *)

Module Dict.

Definition dict (V : Type) := list (pystr * V).

(** [d.get(k)] *)
Fixpoint dict_get {V} (d : dict V) (k : pystr) : option V :=
  match d with
  | [] => None
  | (k', v) :: t => if str_eqb k k' then Some v else dict_get t k
  end.

(** [d[k] = v]: a new key goes last, an old key keeps its place. *)
Fixpoint dict_set {V} (d : dict V) (k : pystr) (v : V) : dict V :=
  match d with
  | [] => [(k, v)]
  | (k', v') :: t =>
      if str_eqb k k' then (k', v) :: t else (k', v') :: dict_set t k v
  end.

Definition dict_keys {V} (d : dict V) : list pystr := map fst d.
Definition dict_values {V} (d : dict V) : list V := map snd d.

(** A dictionary whose keys are the identifiers of the source. *)
Definition sdict (V : Type) := list (string * V).

Fixpoint sdict_get {V} (d : sdict V) (k : string) : option V :=
  match d with
  | [] => None
  | (k', v) :: t => if String.eqb k k' then Some v else sdict_get t k
  end.

End Dict.
Export Dict.

(* ================================================================= *)
(** * Sorting *)
(* ================================================================= *)

Module PySort.

Section Sort.
Variables (A K : Type).
(** [a < b] on keys *)
Variable ltb : K -> K -> bool.
Variable key : A -> K.

(** [l.sort(key=key, reverse=True)] and [sorted(l, key=key, reverse=True)]:
    the stable sort in descending order of the key.  [insert_desc] puts an
    element before the first one whose key is not greater, so elements with
    equal keys keep the order they had. *)
Fixpoint insert_desc (x : A) (l : list A) : list A :=
  match l with
  | [] => [x]
  | y :: t =>
      if ltb (key x) (key y) then y :: insert_desc x t else x :: y :: t
  end.

Definition sort_desc (l : list A) : list A :=
  fold_right insert_desc [] l.

End Sort.
Arguments insert_desc {A K} ltb key x l.
Arguments sort_desc {A K} ltb key l.

(** [a < b] on rationals. *)
Definition Qltb (a b : Q) : bool := negb (Qle_bool b a).

End PySort.
Export PySort.

(* ================================================================= *)
(** * Names and calls of a function body *)
(* ================================================================= *)

(** The analysis entry points are sequences of statements
    [x, y = self.stage(a, b)].  A statement resolves the names it uses,
    makes its call and binds its targets.  A name that the function assigns
    somewhere is local to it; any other name is looked up in the module and
    then in the builtins, and the lookup of a name found in neither raises
    [NameError]. *)

Module Scope.

Local Open Scope eff_scope.

(** The names of Python's [builtins] module. *)
Definition builtins : list string :=
  [ "ArithmeticError"; "AssertionError"; "AttributeError"; "BaseException";
    "BaseExceptionGroup"; "BlockingIOError"; "BrokenPipeError"; "BufferError";
    "BytesWarning"; "ChildProcessError"; "ConnectionAbortedError";
    "ConnectionError"; "ConnectionRefusedError"; "ConnectionResetError";
    "DeprecationWarning"; "EOFError"; "Ellipsis"; "EncodingWarning";
    "EnvironmentError"; "Exception"; "ExceptionGroup"; "False";
    "FileExistsError"; "FileNotFoundError"; "FloatingPointError";
    "FutureWarning"; "GeneratorExit"; "IOError"; "ImportError";
    "ImportWarning"; "IndentationError"; "IndexError"; "InterruptedError";
    "IsADirectoryError"; "KeyError"; "KeyboardInterrupt"; "LookupError";
    "MemoryError"; "ModuleNotFoundError"; "NameError"; "None";
    "NotADirectoryError"; "NotImplemented"; "NotImplementedError"; "OSError";
    "OverflowError"; "PendingDeprecationWarning"; "PermissionError";
    "ProcessLookupError"; "RecursionError"; "ReferenceError";
    "ResourceWarning"; "RuntimeError"; "RuntimeWarning"; "StopAsyncIteration";
    "StopIteration"; "SyntaxError"; "SyntaxWarning"; "SystemError";
    "SystemExit"; "TabError"; "TimeoutError"; "True"; "TypeError";
    "UnboundLocalError"; "UnicodeDecodeError"; "UnicodeEncodeError";
    "UnicodeError"; "UnicodeTranslateError"; "UnicodeWarning"; "UserWarning";
    "ValueError"; "Warning"; "ZeroDivisionError"; "__build_class__";
    "__debug__"; "__doc__"; "__import__"; "__loader__"; "__name__";
    "__package__"; "__spec__"; "abs"; "aiter"; "all"; "anext"; "any"; "ascii";
    "bin"; "bool"; "breakpoint"; "bytearray"; "bytes"; "callable"; "chr";
    "classmethod"; "compile"; "complex"; "copyright"; "credits"; "delattr";
    "dict"; "dir"; "divmod"; "enumerate"; "eval"; "exec"; "exit"; "filter";
    "float"; "format"; "frozenset"; "getattr"; "globals"; "hasattr"; "hash";
    "help"; "hex"; "id"; "input"; "int"; "isinstance"; "issubclass"; "iter";
    "len"; "license"; "list"; "locals"; "map"; "max"; "memoryview"; "min";
    "next"; "object"; "oct"; "open"; "ord"; "pow"; "print"; "property";
    "quit"; "range"; "repr"; "reversed"; "round"; "set"; "setattr"; "slice";
    "sorted"; "staticmethod"; "str"; "sum"; "super"; "tuple"; "type"; "vars";
    "zip" ].

(** What is fixed when a function is compiled: the names it assigns
    (parameters included) and the names bound in its module. *)
Record code := {
  co_locals : list string;
  co_globals : list string
}.

(** A running call: the local names bound so far and the methods called. *)
Record frame := {
  bound : list string;
  calls : list string
}.

Definition mem (x : string) (l : list string) : bool :=
  existsb (String.eqb x) l.

(** Reading the name [x]. *)
Definition load (c : code) (x : string) : M frame unit :=
  fun fr =>
    if mem x (co_locals c) then
      if mem x (bound fr) then (Ok tt, fr)
      else (Raised (Exn "UnboundLocalError"
                      (py "cannot access local variable '" ++ py x
                       ++ py "' where it is not associated with a value")), fr)
    else if mem x (co_globals c) || mem x builtins then (Ok tt, fr)
    else (Raised (Exn "NameError"
                    (py "name '" ++ py x ++ py "' is not defined")), fr).

(** Binding the local name [x]. *)
Definition store (x : string) : M frame unit :=
  modify (fun fr => {| bound := bound fr ++ [x]; calls := calls fr |}).

(** Entering the method [f]. *)
Definition invoke (f : string) : M frame unit :=
  modify (fun fr => {| bound := bound fr; calls := calls fr ++ [f] |}).

(** [targets = self.f(uses)], where [rhs] is what the call does. *)
Definition call_stmt {A} (c : code) (targets : list string) (f : string)
    (uses : list string) (rhs : result A) : M frame A :=
  for_each uses (load c) ;;
  invoke f ;;
  v <- call rhs ;;
  for_each targets store ;;
  ret v.

(** [targets = e], where [e] uses the names [uses] and has the value [v]. *)
Definition assign_stmt {A} (c : code) (targets : list string)
    (uses : list string) (v : A) : M frame A :=
  for_each uses (load c) ;;
  for_each targets store ;;
  ret v.

(** The frame at the entry of a call with the given parameters. *)
Definition enter (params : list string) : frame :=
  {| bound := params; calls := [] |}.

End Scope.
Export Scope.

(* ================================================================= *)
(** * The advanced analyzer ([advanced_resume_analyzer.py]) *)
(* ================================================================= *)

Module Advanced.

Local Open Scope eff_scope.

(** ** Text extraction *)

(** [extraction_metadata] *)
Record extraction_metadata := {
  methods_tried : list string;
  successful_method : option string;
  page_count : nat;
  extraction_quality : string;
  errors : list pystr
}.

(** The variables the strategies share: [text] and [extraction_metadata]. *)
Record xstate := { x_text : pystr; x_meta : extraction_metadata }.

Definition xstate_init : xstate :=
  {| x_text := [];
     x_meta := {| methods_tried := []; successful_method := None;
                  page_count := 0; extraction_quality := "unknown";
                  errors := [] |} |}.

Definition set_meta (f : extraction_metadata -> extraction_metadata)
  : M xstate unit :=
  modify (fun s => {| x_text := x_text s; x_meta := f (x_meta s) |}).

(** [extraction_metadata['methods_tried'].append(m)] *)
Definition try_method (m : string) : M xstate unit :=
  set_meta (fun d =>
    {| methods_tried := methods_tried d ++ [m];
       successful_method := successful_method d;
       page_count := page_count d;
       extraction_quality := extraction_quality d;
       errors := errors d |}).

(** [extraction_metadata['page_count'] = n] *)
Definition set_page_count (n : nat) : M xstate unit :=
  set_meta (fun d =>
    {| methods_tried := methods_tried d;
       successful_method := successful_method d;
       page_count := n;
       extraction_quality := extraction_quality d;
       errors := errors d |}).

(** [extraction_metadata['successful_method'] = m] and
    [extraction_metadata['extraction_quality'] = q] *)
Definition set_success (m q : string) : M xstate unit :=
  set_meta (fun d =>
    {| methods_tried := methods_tried d;
       successful_method := Some m;
       page_count := page_count d;
       extraction_quality := q;
       errors := errors d |}).

(** [extraction_metadata['extraction_quality'] = q] *)
Definition set_quality (q : string) : M xstate unit :=
  set_meta (fun d =>
    {| methods_tried := methods_tried d;
       successful_method := successful_method d;
       page_count := page_count d;
       extraction_quality := q;
       errors := errors d |}).

(** [extraction_metadata['errors'].append(msg)] *)
Definition append_error (msg : pystr) : M xstate unit :=
  set_meta (fun d =>
    {| methods_tried := methods_tried d;
       successful_method := successful_method d;
       page_count := page_count d;
       extraction_quality := extraction_quality d;
       errors := errors d ++ [msg] |}).

(** [text += s] *)
Definition append_text (s : pystr) : M xstate unit :=
  modify (fun st => {| x_text := x_text st ++ s; x_meta := x_meta st |}).

(** [text = s] *)
Definition set_text (s : pystr) : M xstate unit :=
  modify (fun st => {| x_text := s; x_meta := x_meta st |}).

Definition get_text : M xstate pystr :=
  s <- get ;; ret (x_text s).

(** [f"\n--- Page {page_num + 1} ---\n{page_text}"] *)
Definition page_block (page_num : nat) (page_text : pystr) : pystr :=
  [LF] ++ py "--- Page " ++ str_of_nat (page_num + 1) ++ py " ---"
       ++ [LF] ++ page_text.

(** [f"\n--- Table {table_num + 1} on Page {page_num + 1} ---\n"] *)
Definition table_header (table_num page_num : nat) : pystr :=
  [LF] ++ py "--- Table " ++ str_of_nat (table_num + 1) ++ py " on Page "
       ++ str_of_nat (page_num + 1) ++ py " ---" ++ [LF].

(** [" | ".join([cell or "" for cell in row]) + "\n"] *)
Definition table_row (row : list (option pystr)) : pystr :=
  join (py " | ")
       (map (fun cell => match cell with Some c => c | None => [] end) row)
  ++ [LF].

Section Extraction.
Context {U : Unicode} {L : PdfLibs}.

(** The acceptance thresholds of the three library strategies. *)
Definition pymupdf_threshold : nat := 200.
Definition pdfplumber_threshold : nat := 200.
Definition pypdf2_threshold : nat := 100.
(** The raw strategy counts readable words instead. *)
Definition raw_word_threshold : nat := 50.

(** The body of a strategy's [try] block returns [true] when it executes
    [return text, extraction_metadata]. *)

(** Method 1: PyMuPDF *)
Definition pymupdf_block (pdf_bytes : bytes) : M xstate bool :=
  try_method "pymupdf" ;;
  pdf_document <- call (fitz_open pdf_bytes) ;;
  set_page_count (List.length (fitz_pages pdf_document)) ;;
  for_each (enumerate (fitz_pages pdf_document))
    (fun '(page_num, page) =>
       page_text <- call page ;;
       match strip page_text with
       | [] => ret tt
       | _ => append_text (page_block page_num page_text)
       end) ;;
  call (fitz_close pdf_document) ;;
  text <- get_text ;;
  if pymupdf_threshold <? List.length (strip text)
  then set_success "pymupdf" "excellent" ;; ret true
  else ret false.

(** Method 2: pdfplumber *)
Definition pdfplumber_block (pdf_bytes : bytes) : M xstate bool :=
  try_method "pdfplumber" ;;
  pages <- call (pdfplumber_open pdf_bytes) ;;
  set_page_count (List.length pages) ;;
  for_each (enumerate pages)
    (fun '(page_num, page) =>
       page_text <- call (plumber_extract_text page) ;;
       match page_text with
       | Some (c :: t) => append_text (page_block page_num (c :: t))
       | _ => ret tt
       end ;;
       tables <- call (plumber_extract_tables page) ;;
       for_each (enumerate tables)
         (fun '(table_num, table) =>
            append_text (table_header table_num page_num) ;;
            for_each table
              (fun row =>
                 match row with
                 | Some (c :: r) => append_text (table_row (c :: r))
                 | _ => ret tt
                 end))) ;;
  text <- get_text ;;
  if pdfplumber_threshold <? List.length (strip text)
  then set_success "pdfplumber" "good" ;; ret true
  else ret false.

(** Method 3: PyPDF2 *)
Definition pypdf2_block (pdf_bytes : bytes) : M xstate bool :=
  try_method "pypdf2" ;;
  pages <- call (PdfReader pdf_bytes) ;;
  set_page_count (List.length pages) ;;
  for_each (enumerate pages)
    (fun '(page_num, page) =>
       page_text <- call page ;;
       match page_text with
       | [] => ret tt
       | _ => append_text (page_block page_num page_text)
       end) ;;
  text <- get_text ;;
  if pypdf2_threshold <? List.length (strip text)
  then set_success "pypdf2" "basic" ;; ret true
  else ret false.

(** The raw strategy's view of the bytes: the cleaned text and its
    readable words. *)
Definition raw_cleaned_text (pdf_bytes : bytes) : pystr :=
  let raw_text := decode_utf8_ignore pdf_bytes in
  let cleaned_text :=
    Re.sub false (Re.compile "[^\x20-\x7E\n\r\t]") (py " ") raw_text in
  Re.sub false (Re.compile "\s+") (py " ") cleaned_text.

Definition readable_words (cleaned_text : pystr) : list pystr :=
  filter (fun word => (2 <? List.length word) && isalpha word)
         (split_ws cleaned_text).

(** Method 4: raw bytes *)
Definition raw_bytes_block (pdf_bytes : bytes) : M xstate bool :=
  try_method "raw_bytes" ;;
  let cleaned_text := raw_cleaned_text pdf_bytes in
  if raw_word_threshold <? List.length (readable_words cleaned_text)
  then set_text cleaned_text ;;
       set_success "raw_bytes" "poor" ;; ret true
  else ret false.

(** [except Exception as e:] of a strategy: record the message, go on. *)
Definition record_failure (prefix : string) (e : exn) : M xstate bool :=
  append_error (py prefix ++ exn_str e) ;; ret false.

(** The strategies in the order of the source; each is a [try] block. *)
Definition strategies (pdf_bytes : bytes) : list (M xstate bool) :=
  [ try_except (pymupdf_block pdf_bytes)
      (record_failure "PyMuPDF extraction failed: ");
    try_except (pdfplumber_block pdf_bytes)
      (record_failure "pdfplumber extraction failed: ");
    try_except (pypdf2_block pdf_bytes)
      (record_failure "PyPDF2 extraction failed: ");
    try_except (raw_bytes_block pdf_bytes)
      (record_failure "Raw extraction failed: ") ].

(** Run the blocks in order; the first that returns ends the function with
    the text it has; when none does, the quality is ['failed'] and the text
    is empty. *)
Fixpoint run_strategies (l : list (M xstate bool)) : M xstate pystr :=
  match l with
  | [] => set_quality "failed" ;; ret []
  | blk :: rest =>
      returned <- blk ;;
      if returned then get_text else run_strategies rest
  end.

(** [extract_text_from_pdf(pdf_bytes)] *)
Definition extract_text_from_pdf (pdf_bytes : bytes)
  : result (pystr * extraction_metadata) :=
  match run_strategies (strategies pdf_bytes) xstate_init with
  | (Ok text, s) => Ok (text, x_meta s)
  | (Raised e, _) => Raised e
  end.

End Extraction.

(** ** Skill matching *)

(** [self.skill_database] *)
Definition skill_database : sdict (sdict (list string)) :=
  [ ("programming_languages",
     [ ("python", ["python"; "py"; "django"; "flask"; "fastapi"; "pandas"; "numpy"]);
       ("javascript", ["javascript"; "js"; "node.js"; "nodejs"; "react"; "vue"; "angular"]);
       ("java", ["java"; "spring"; "hibernate"; "maven"; "gradle"]);
       ("c++", ["c++"; "cpp"; "c plus plus"]);
       ("c#", ["c#"; "csharp"; "c sharp"; ".net"; "asp.net"]);
       ("php", ["php"; "laravel"; "symfony"; "codeigniter"]);
       ("ruby", ["ruby"; "rails"; "ruby on rails"]);
       ("go", ["golang"; "go lang"]);
       ("rust", ["rust"; "cargo"]);
       ("swift", ["swift"; "ios"]);
       ("kotlin", ["kotlin"; "android"]);
       ("scala", ["scala"; "akka"]);
       ("typescript", ["typescript"; "ts"]);
       ("r", ["r programming"; "r language"]);
       ("matlab", ["matlab"; "simulink"]);
       ("perl", ["perl"]);
       ("shell", ["bash"; "shell scripting"; "powershell"]);
       ("sql", ["sql"; "mysql"; "postgresql"; "sqlite"; "oracle"; "sql server"]) ]);
    ("web_technologies",
     [ ("frontend", ["html"; "css"; "sass"; "less"; "bootstrap"; "tailwind"; "material-ui"; "chakra-ui"]);
       ("backend", ["express"; "koa"; "fastify"; "spring boot"; "django rest"; "flask api"]);
       ("frameworks", ["react"; "angular"; "vue"; "svelte"; "ember"; "backbone"]);
       ("mobile", ["react native"; "flutter"; "ionic"; "xamarin"; "cordova"]);
       ("cms", ["wordpress"; "drupal"; "joomla"; "contentful"; "strapi"]) ]);
    ("databases",
     [ ("relational", ["mysql"; "postgresql"; "sqlite"; "oracle"; "sql server"; "mariadb"]);
       ("nosql", ["mongodb"; "cassandra"; "couchdb"; "neo4j"; "dynamodb"]);
       ("cache", ["redis"; "memcached"; "elasticsearch"]);
       ("data_warehouse", ["snowflake"; "bigquery"; "redshift"; "databricks"]) ]);
    ("cloud_platforms",
     [ ("aws", ["aws"; "amazon web services"; "ec2"; "s3"; "lambda"; "rds"; "cloudformation"]);
       ("azure", ["azure"; "microsoft azure"; "azure functions"; "azure sql"]);
       ("gcp", ["gcp"; "google cloud"; "google cloud platform"; "app engine"; "cloud functions"]);
       ("others", ["heroku"; "digitalocean"; "linode"; "vultr"; "vercel"; "netlify"]) ]);
    ("devops_tools",
     [ ("containerization", ["docker"; "kubernetes"; "podman"; "containerd"]);
       ("ci_cd", ["jenkins"; "github actions"; "gitlab ci"; "travis ci"; "circleci"; "azure devops"]);
       ("infrastructure", ["terraform"; "ansible"; "puppet"; "chef"; "cloudformation"]);
       ("monitoring", ["prometheus"; "grafana"; "elk stack"; "splunk"; "datadog"; "new relic"]);
       ("version_control", ["git"; "github"; "gitlab"; "bitbucket"; "svn"]) ]);
    ("data_science",
     [ ("libraries", ["pandas"; "numpy"; "scikit-learn"; "tensorflow"; "pytorch"; "keras"]);
       ("visualization", ["matplotlib"; "seaborn"; "plotly"; "bokeh"; "d3.js"]);
       ("big_data", ["spark"; "hadoop"; "kafka"; "airflow"; "dask"]);
       ("ml_ops", ["mlflow"; "kubeflow"; "sagemaker"; "azure ml"]) ]);
    ("security",
     [ ("tools", ["nmap"; "wireshark"; "metasploit"; "burp suite"; "owasp"]);
       ("concepts", ["penetration testing"; "vulnerability assessment"; "encryption"; "ssl/tls"]) ]);
    ("testing",
     [ ("frameworks", ["jest"; "mocha"; "pytest"; "junit"; "selenium"; "cypress"]);
       ("types", ["unit testing"; "integration testing"; "e2e testing"; "performance testing"]) ]) ].

(** [self.soft_skills] *)
Definition soft_skills_list : list string :=
  [ "leadership"; "communication"; "teamwork"; "problem solving"; "critical thinking";
    "project management"; "time management"; "adaptability"; "creativity"; "collaboration";
    "analytical skills"; "decision making"; "conflict resolution"; "mentoring"; "coaching";
    "public speaking"; "presentation skills"; "negotiation"; "customer service";
    "strategic thinking"; "innovation"; "emotional intelligence"; "stress management" ].

(** [self.certifications] *)
Definition certifications_list : list string :=
  [ "aws certified"; "azure certified"; "google cloud certified"; "cissp"; "cism"; "cisa";
    "pmp"; "scrum master"; "agile"; "itil"; "comptia"; "cisco certified"; "microsoft certified";
    "oracle certified"; "salesforce certified"; "kubernetes certified" ].

(** [skills_analysis] *)
Record skills_analysis := {
  technical_skills : sdict (sdict (list pystr));
  soft_skills : list pystr;
  certifications : list pystr;
  tools_and_technologies : list pystr;
  programming_languages : list pystr;
  frameworks_and_libraries : list pystr;
  databases : list pystr;
  cloud_platforms : list pystr;
  skill_confidence_scores : dict Z;
  skill_context : dict (list pystr);
  years_of_experience : dict Z
}.

(** The lists of the slots of [technical_skills], in order:
    [for category in d.values() for subcategory in category.values()]. *)
Definition slots (ts : sdict (sdict (list pystr))) : list (list pystr) :=
  flat_map (fun c => map snd (snd c)) ts.

(** [get_skills_by_category(skills_analysis, category)] *)
Definition get_skills_by_category (ts : sdict (sdict (list pystr)))
    (category : string) : list pystr :=
  match sdict_get ts category with
  | Some subs => List.concat (map snd subs)
  | None => []
  end.

(** [min(len(matches) * 10 + 50, 95)] *)
Definition match_confidence (n_matches : nat) : Z :=
  Z.min (Z.of_nat n_matches * 10 + 50) 95.

Section Skills.
Context {U : Unicode}.

(** [format_skill_name(skill)] *)
Definition special_cases : dict pystr :=
  map (fun p : string * string => (py (fst p), py (snd p)))
  [ ("javascript", "JavaScript"); ("typescript", "TypeScript");
    ("nodejs", "Node.js"); ("reactjs", "React.js"); ("vuejs", "Vue.js");
    ("angularjs", "Angular.js"); ("mysql", "MySQL");
    ("postgresql", "PostgreSQL"); ("mongodb", "MongoDB"); ("aws", "AWS");
    ("gcp", "Google Cloud Platform"); ("html", "HTML"); ("css", "CSS");
    ("sql", "SQL"); ("api", "API"); ("rest", "REST"); ("graphql", "GraphQL");
    ("docker", "Docker"); ("kubernetes", "Kubernetes");
    ("jenkins", "Jenkins"); ("git", "Git"); ("github", "GitHub");
    ("gitlab", "GitLab"); ("jira", "JIRA"); ("ci/cd", "CI/CD");
    ("devops", "DevOps"); ("mlops", "MLOps"); ("tensorflow", "TensorFlow");
    ("pytorch", "PyTorch"); ("scikit-learn", "Scikit-learn");
    ("pandas", "Pandas"); ("numpy", "NumPy") ].

Definition format_skill_name (skill : pystr) : pystr :=
  match dict_get special_cases (str_lower skill) with
  | Some name => name
  | None => title skill
  end.

(** [rf'\b{re.escape(s)}\b'] *)
Definition word_pattern (s : pystr) : Re.regex :=
  Re.compile_str (py "\b" ++ Re.escape s ++ py "\b").

(** The four search patterns of a skill keyword. *)
Definition skill_patterns (skill : pystr) : list Re.regex :=
  [ word_pattern skill;
    word_pattern (replace_chr SP [] skill);
    word_pattern (replace_chr (ch "-") (py " ") skill);
    word_pattern (replace_chr (ch ".") [] skill) ].

(** The matches of the first pattern that has any:
    [for pattern in patterns: matches = ...; if matches: ...; break]. *)
Fixpoint first_matches (patterns : list Re.regex) (text_lower : pystr)
  : option (list (nat * nat * Re.caps)) :=
  match patterns with
  | [] => None
  | p :: rest =>
      match Re.finditer false p text_lower with
      | [] => first_matches rest text_lower
      | ms => Some ms
      end
  end.

(** [extract_skill_experience(text, skill)] *)
Definition experience_patterns (skill : pystr) : list Re.regex :=
  [ Re.compile_str (Re.escape skill ++ py ".*?(\d+)\+?\s*years?");
    Re.compile_str (py "(\d+)\+?\s*years?.*?" ++ Re.escape skill);
    Re.compile_str (Re.escape skill ++ py ".*?(\d+)\+?\s*yrs?");
    Re.compile_str (py "(\d+)\+?\s*yrs?.*?" ++ Re.escape skill) ].

Fixpoint first_years (patterns : list Re.regex) (text_lower : pystr)
  : option Z :=
  match patterns with
  | [] => None
  | p :: rest =>
      match Re.findall false p text_lower with
      | [] => first_years rest text_lower
      | m :: _ =>
          match int_of_str m with
          | Some n => Some n
          | None => first_years rest text_lower
          end
      end
  end.

Definition extract_skill_experience (text skill : pystr) : option Z :=
  first_years (experience_patterns skill) (str_lower text).

(** The context of a match: [text[max(0, start - 50):min(len(text), end + 50)].strip()] *)
Definition match_context (text : pystr) (m : nat * nat * Re.caps) : pystr :=
  let '(start, stop, _) := m in
  strip (slice text (start - 50) (Nat.min (List.length text) (stop + 50))).

(** What the loop over the keywords updates. *)
Record skill_state := {
  found_skills : list pystr;
  st_confidence : dict Z;
  st_context : dict (list pystr);
  st_years : dict Z
}.

(** The body of [for skill in skills]. *)
Definition scan_skill (text text_lower : pystr) (st : skill_state)
    (skill : string) : skill_state :=
  match first_matches (skill_patterns (py skill)) text_lower with
  | None => st
  | Some matches =>
      let formatted_skill := format_skill_name (py skill) in
      if str_in formatted_skill (found_skills st) then st
      else
        let confidence := match_confidence (List.length matches) in
        let contexts := map (match_context text) (firstn 3 matches) in
        let years := extract_skill_experience text (py skill) in
        {| found_skills := found_skills st ++ [formatted_skill];
           st_confidence := dict_set (st_confidence st) formatted_skill confidence;
           st_context := dict_set (st_context st) formatted_skill contexts;
           st_years :=
             match years with
             | Some y => if (y =? 0)%Z then st_years st
                         else dict_set (st_years st) formatted_skill y
             | None => st_years st
             end |}
  end.

(** The body of [for subcategory, skills in subcategories.items()]:
    [found_skills] starts empty, the three dictionaries are carried over;
    the subcategory is recorded when something was found. *)
Definition scan_subcategory (text text_lower : pystr)
    (acc : sdict (list pystr) * skill_state)
    (sub : string * list string) : sdict (list pystr) * skill_state :=
  let '(category_dict, st) := acc in
  let st0 := {| found_skills := [];
                st_confidence := st_confidence st;
                st_context := st_context st;
                st_years := st_years st |} in
  let st' := fold_left (scan_skill text text_lower) (snd sub) st0 in
  match found_skills st' with
  | [] => (category_dict, st')
  | found => (category_dict ++ [(fst sub, found)], st')
  end.

(** The body of [for category, subcategories in self.skill_database.items()]. *)
Definition scan_category (text text_lower : pystr)
    (acc : sdict (sdict (list pystr)) * skill_state)
    (cat : string * sdict (list string))
  : sdict (sdict (list pystr)) * skill_state :=
  let '(technical, st) := acc in
  let '(category_dict, st') :=
    fold_left (scan_subcategory text text_lower) (snd cat) ([], st) in
  (technical ++ [(fst cat, category_dict)], st').

Definition empty_skill_state : skill_state :=
  {| found_skills := []; st_confidence := []; st_context := [];
     st_years := [] |}.

(** The technical part of [extract_comprehensive_skills] over a table. *)
Definition scan_database (db : sdict (sdict (list string)))
    (text : pystr) : sdict (sdict (list pystr)) * skill_state :=
  fold_left (scan_category text (str_lower text)) db ([], empty_skill_state).

(** [[f(k) for k in l if re.search(rf'\b{re.escape(k)}\b', text_lower)]] *)
Definition scan_flat (l : list string) (text_lower : pystr) : list pystr :=
  map (fun k => title (py k))
      (filter (fun k => Re.search false (word_pattern (py k)) text_lower) l).

(** [extract_comprehensive_skills(text)] *)
Definition extract_comprehensive_skills (text : pystr) : skills_analysis :=
  let text_lower := str_lower text in
  let '(technical, st) := scan_database skill_database text in
  {| technical_skills := technical;
     soft_skills := scan_flat soft_skills_list text_lower;
     certifications := scan_flat certifications_list text_lower;
     tools_and_technologies := get_skills_by_category technical "devops_tools";
     programming_languages := get_skills_by_category technical "programming_languages";
     frameworks_and_libraries := get_skills_by_category technical "web_technologies";
     databases := get_skills_by_category technical "databases";
     cloud_platforms := get_skills_by_category technical "cloud_platforms";
     skill_confidence_scores := st_confidence st;
     skill_context := st_context st;
     years_of_experience := st_years st |}.

End Skills.

(** ** Experience classification *)

Inductive level := junior | mid | senior.

Definition level_eqb (a b : level) : bool :=
  match a, b with
  | junior, junior | mid, mid | senior, senior => true
  | _, _ => false
  end.

(** [experience_analysis] *)
Record experience_analysis := {
  exp_level : level;
  confidence : Z;
  indicators : list pystr;
  years_found : list Z;
  leadership_indicators : list pystr;
  technical_depth : nat;
  breadth_score : nat
}.

(** [str(n)] for an integer. *)
Definition str_of_Z (n : Z) : pystr :=
  if (n <? 0)%Z then ch "-" :: str_of_nat (Z.to_nat (- n))
  else str_of_nat (Z.to_nat n).

(** [max(l) if l else 0] *)
Definition max_or_zero (l : list Z) : Z :=
  match l with
  | [] => 0%Z
  | x :: t => fold_left Z.max t x
  end.

(** [sum(l)] *)
Definition sum_Z (l : list Z) : Z := fold_left Z.add l 0%Z.

Definition year_patterns : list string :=
  [ "(\d+)\+?\s*years?\s*(?:of\s*)?(?:experience|exp)";
    "(\d+)\+?\s*yrs?\s*(?:of\s*)?(?:experience|exp)";
    "experience.*?(\d+)\+?\s*years?";
    "(\d+)\+?\s*years?\s*in\s*(?:software|development|programming)";
    "over\s*(\d+)\s*years?";
    "more\s*than\s*(\d+)\s*years?" ].

Definition senior_keywords : list string :=
  [ "senior"; "lead"; "principal"; "architect"; "manager"; "director";
    "head of"; "vp"; "cto"; "chief"; "team lead"; "technical lead";
    "staff engineer"; "distinguished engineer" ].

Definition mid_keywords : list string :=
  [ "mid-level"; "intermediate"; "software engineer ii"; "engineer ii";
    "associate"; "specialist" ].

Definition leadership_patterns : list string :=
  [ "led\s+(?:a\s+)?team\s+of\s+(\d+)";
    "managed\s+(\d+)\s+(?:developers|engineers|people)";
    "mentored\s+(\d+)";
    "supervised\s+(\d+)";
    "coordinated\s+with\s+(\d+)" ].

(** [sum(len(category) for category_dict in technical_skills.values()
         for category in category_dict.values())] *)
Definition total_technical_skills (ts : sdict (sdict (list pystr))) : nat :=
  list_sum (map (@List.length pystr) (slots ts)).

(** [sum(1 for category_dict in technical_skills.values()
         if any(category for category in category_dict.values()))] *)
Definition categories_with_skills (ts : sdict (sdict (list pystr))) : nat :=
  List.length
    (filter (fun c : string * sdict (list pystr) =>
               existsb (fun s : string * list pystr =>
                          match snd s with [] => false | _ => true end)
                       (snd c))
            ts).

Section Experience.
Context {U : Unicode}.

(** The integers that the groups of the patterns capture:
    [for pattern in ps: for match in re.findall(pattern, text_lower):
       try: l.append(int(match)) except ValueError: continue] *)
Definition captured_ints (ps : list string) (text_lower : pystr) : list Z :=
  flat_map
    (fun p =>
       flat_map (fun m => match int_of_str m with
                          | Some n => [n]
                          | None => []
                          end)
                (Re.findall false (Re.compile p) text_lower))
    ps.

(** [any(keyword in text_lower for keyword in keywords)] *)
Definition any_keyword (keywords : list string) (text_lower : pystr) : bool :=
  existsb (fun keyword => contains (py keyword) text_lower) keywords.

(** [determine_experience_level(text, skills_analysis)].  The lists
    [confidence_factors] and [indicators] are what the source appends, in
    the order of its statements. *)
Definition determine_experience_level (text : pystr) (sa : skills_analysis)
  : experience_analysis :=
  let text_lower := str_lower text in
  let years_found := captured_ints year_patterns text_lower in
  let leadership_indicators :=
    map (fun team_size => py "Led team of " ++ str_of_Z team_size)
        (captured_ints leadership_patterns text_lower) in
  let total_skills := total_technical_skills (technical_skills sa) in
  let categories := categories_with_skills (technical_skills sa) in
  let max_years := max_or_zero years_found in
  let years_or (s : string) : pystr :=
    if (max_years =? 0)%Z then py s else py "Years: " ++ str_of_Z max_years in
  (* the branch of the [if]/[elif]/[else] on the level *)
  let is_senior :=
    (8 <=? max_years)%Z || any_keyword senior_keywords text_lower in
  let is_mid :=
    (3 <=? max_years)%Z || any_keyword mid_keywords text_lower in
  let has_leadership :=
    match leadership_indicators with [] => false | _ => true end in
  (* [confidence_factors]: what the statements append, in their order *)
  let confidence_factors : list Z :=
    (if is_senior then [70%Z] else if is_mid then [60%Z] else [50%Z])
    ++ (if 15 <? total_skills then [20%Z]
        else if 8 <? total_skills then [10%Z] else [])
    ++ (if has_leadership then [15%Z] else [])
    ++ (if 4 <=? categories then [10%Z] else []) in
  {| exp_level :=
       if is_senior then senior else if is_mid then mid else junior;
     confidence := Z.min (sum_Z confidence_factors) 95;
     indicators :=
       (if is_senior then [years_or "Senior keywords found"]
        else if is_mid then [years_or "Mid-level keywords found"]
        else [py "Limited experience indicators"])
       ++ (if 15 <? total_skills
           then [py "High technical skill count: " ++ str_of_nat total_skills]
           else [])
       ++ (if has_leadership then leadership_indicators else [])
       ++ (if 4 <=? categories
           then [py "Broad technical expertise: " ++ str_of_nat categories
                 ++ py " categories"]
           else []);
     years_found := years_found;
     leadership_indicators := leadership_indicators;
     technical_depth := total_skills;
     breadth_score := categories |}.

End Experience.

(** ** Job recommendations *)

(** A recommendation, as the dictionaries the role generators build. *)
Record role := {
  category : string;
  remote_friendly : bool;
  growth_potential : string;
  market_demand : string;
  role_title : string;
  match_percentage : Q;
  salary_range : string;
  company_types : list string;
  required_skills : list string;
  preferred_skills : list pystr;
  job_description : string;
  career_path : string
}.

(** [get_salary_range(role_type, experience_level)] *)
Definition get_salary_range (role_type : string) (experience_level : level)
  : string :=
  let pick (j m s : string) :=
    match experience_level with junior => j | mid => m | senior => s end in
  if String.eqb role_type "frontend"
  then pick "$55,000 - $80,000" "$80,000 - $115,000" "$115,000 - $160,000"
  else if String.eqb role_type "backend"
  then pick "$60,000 - $85,000" "$85,000 - $125,000" "$125,000 - $170,000"
  else if String.eqb role_type "fullstack"
  then pick "$65,000 - $90,000" "$90,000 - $130,000" "$130,000 - $180,000"
  else if String.eqb role_type "mobile"
  then pick "$60,000 - $85,000" "$85,000 - $120,000" "$120,000 - $165,000"
  else if String.eqb role_type "security"
  then pick "$65,000 - $90,000" "$90,000 - $130,000" "$130,000 - $180,000"
  else "$60,000 - $120,000".

(** [f'{"Senior " if experience_level == "senior" else ""}...'] *)
Definition senior_prefix (experience_level : level) (t : string) : string :=
  match experience_level with
  | senior => String.append "Senior " t
  | _ => t
  end.

Section Recommendations.
Context {U : Unicode}.

(** The user's skills, lowered: technical, soft, certifications. *)
Definition all_user_skills (sa : skills_analysis) : list pystr :=
  map str_lower (List.concat (slots (technical_skills sa)))
  ++ map str_lower (soft_skills sa)
  ++ map str_lower (certifications sa).

(** The number of required skills found in some skill of the user. *)
Definition matched_required (sa : skills_analysis)
    (required : list string) : nat :=
  List.length
    (filter (fun required_skill =>
               existsb (contains (str_lower (py required_skill)))
                       (all_user_skills sa))
            required).

(** [calculate_match_percentage(skills_analysis, required_skills)]; the
    quotient is a Python float, here an exact rational (for the lists of
    two or three required skills that the generators pass, the floats are
    the exact values, see [float_match_percentage] below). *)
Definition calculate_match_percentage (sa : skills_analysis)
    (required : list string) : Q :=
  let matches := matched_required sa required in
  let base_percentage := 65%Q in
  let match_bonus :=
    match required with
    | [] => 0%Q
    | _ => ((inject_Z (Z.of_nat matches)
             / inject_Z (Z.of_nat (List.length required))) * 30)%Q
    end in
  Qmin (base_percentage + match_bonus)%Q 95%Q.

(** The same arithmetic in IEEE 754 binary64, as Python computes it:
    [min(65 + (matches / n) * 30, 95)]. *)
Definition float_of_nat (n : nat) : float :=
  PrimFloat.of_uint63 (Uint63.of_Z (Z.of_nat n)).

Definition float_match_percentage (matches n : nat) : float :=
  let match_bonus := (float_of_nat matches / float_of_nat n * 30)%float in
  let total := (65 + match_bonus)%float in
  if (95 <? total)%float then 95%float else total.

(** [determine_primary_stack(skills_analysis)] *)
Definition stack_score (sa : skills_analysis) (stack_skills : list string)
  : nat :=
  List.length
    (filter (fun skill =>
               existsb (fun s => contains (str_lower (py skill)) (str_lower s))
                       (List.concat (slots (technical_skills sa))))
            stack_skills).

(** [max(d, key=d.get)]: the first key with the greatest value. *)
Fixpoint first_max (best : string * nat) (l : list (string * nat)) : string :=
  match l with
  | [] => fst best
  | x :: t => if snd best <? snd x then first_max x t else first_max best t
  end.

Definition determine_primary_stack (sa : skills_analysis) : string :=
  first_max
    ("web_fullstack",
     stack_score sa ["javascript"; "react"; "angular"; "vue"; "node.js"; "html"; "css"])
    [ ("data_science",
       stack_score sa ["python"; "pandas"; "numpy"; "scikit-learn"; "tensorflow"; "pytorch"; "r"]);
      ("mobile",
       stack_score sa ["react native"; "flutter"; "swift"; "kotlin"; "ios"; "android"]);
      ("devops",
       stack_score sa ["docker"; "kubernetes"; "jenkins"; "terraform"; "ansible"; "aws"; "azure"]);
      ("security", 0) ].

(** [any(k in skill.lower() for k in keywords)] *)
Definition mentions (keywords : list string) (skill : pystr) : bool :=
  existsb (fun k => contains (py k) (str_lower skill)) keywords.

(** The required skills each generator passes to
    [calculate_match_percentage]. *)
Definition software_engineer_required (experience_level : level)
  : list string :=
  match experience_level with
  | junior => ["programming"; "version control"]
  | mid => ["programming"; "system design"; "databases"]
  | senior => ["architecture"; "leadership"; "mentoring"]
  end.

Definition generate_software_engineer_roles (sa : skills_analysis)
    (experience_level : level) (primary_stack : string) : list role :=
  let base (t : string) (sal : string) (comp req : list string)
      (pref : list pystr) (descr path : string) :=
    {| category := "Software Engineering"; remote_friendly := true;
       growth_potential := "High"; market_demand := "Very High";
       role_title := t;
       match_percentage :=
         calculate_match_percentage sa
           (software_engineer_required experience_level);
       salary_range := sal; company_types := comp; required_skills := req;
       preferred_skills := pref; job_description := descr;
       career_path := path |} in
  match experience_level with
  | junior =>
      [ base "Junior Software Developer" "$60,000 - $90,000"
          ["Startups"; "Mid-size Companies"; "Agencies"]
          ["Programming fundamentals"; "Version control (Git)"; "Problem solving"]
          (firstn 3 (programming_languages sa))
          "Entry-level position focusing on learning and contributing to software development projects."
          "Junior → Mid-level → Senior → Lead/Principal" ]
  | mid =>
      [ base "Software Engineer" "$90,000 - $130,000"
          ["Tech Companies"; "Enterprise"; "Scale-ups"]
          ["Multiple programming languages"; "System design"; "Database knowledge"]
          (programming_languages sa ++ firstn 2 (databases sa))
          "Develop and maintain software systems with increasing responsibility and complexity."
          "Mid-level → Senior → Staff/Principal → Engineering Manager" ]
  | senior =>
      [ base "Senior Software Engineer" "$130,000 - $180,000"
          ["Large Tech"; "Enterprise"; "High-growth Startups"]
          ["Software architecture"; "Technical leadership"; "Mentoring"]
          (programming_languages sa ++ [py "System Design"; py "Leadership"])
          "Lead technical initiatives, mentor junior developers, and drive architectural decisions."
          "Senior → Staff/Principal → Distinguished Engineer → CTO" ]
  end.

Definition generate_data_scientist_roles (sa : skills_analysis)
    (experience_level : level) (primary_stack : string) : list role :=
  let ds_skills :=
    programming_languages sa
    ++ get_skills_by_category (technical_skills sa) "data_science" in
  if negb (existsb (mentions ["python"; "r"]) ds_skills) then []
  else
    match experience_level with
    | junior =>
        [ {| category := "Data Science"; remote_friendly := true;
             growth_potential := "Very High"; market_demand := "High";
             role_title := "Junior Data Scientist";
             match_percentage :=
               calculate_match_percentage sa ["python"; "statistics"; "sql"];
             salary_range := "$70,000 - $100,000";
             company_types := ["Tech Companies"; "Consulting"; "Research"];
             required_skills := ["Python/R"; "Statistics"; "SQL"; "Data visualization"];
             preferred_skills := [py "Pandas"; py "NumPy"; py "Matplotlib"; py "Jupyter"];
             job_description := "Analyze data, build basic models, and create visualizations under supervision.";
             career_path := "Junior → Mid-level → Senior → Principal Data Scientist" |} ]
    | _ => []
    end.

Definition generate_devops_roles (sa : skills_analysis)
    (experience_level : level) (primary_stack : string) : list role :=
  let devops_skills :=
    get_skills_by_category (technical_skills sa) "devops_tools"
    ++ get_skills_by_category (technical_skills sa) "cloud_platforms" in
  match devops_skills with
  | [] => []
  | _ =>
      match experience_level with
      | junior => []
      | _ =>
          [ {| category := "DevOps/Infrastructure"; remote_friendly := true;
               growth_potential := "High"; market_demand := "Very High";
               role_title := senior_prefix experience_level "DevOps Engineer";
               match_percentage :=
                 calculate_match_percentage sa ["docker"; "kubernetes"; "cloud"];
               salary_range :=
                 match experience_level with
                 | mid => "$95,000 - $135,000"
                 | _ => "$135,000 - $185,000"
                 end;
               company_types := ["Tech Companies"; "Enterprise"; "Cloud Providers"];
               required_skills := ["Containerization"; "CI/CD"; "Cloud platforms"; "Infrastructure as Code"];
               preferred_skills := firstn 5 devops_skills;
               job_description := "Design and maintain scalable infrastructure, automate deployments, and ensure system reliability.";
               career_path := "DevOps → Senior DevOps → Platform Engineer → Infrastructure Architect" |} ]
      end
  end.

(** The lists of the subcategories of ['web_technologies']. *)
Definition web_technologies (sa : skills_analysis) : list pystr :=
  get_skills_by_category (technical_skills sa) "web_technologies".

Definition generate_frontend_roles (sa : skills_analysis)
    (experience_level : level) (primary_stack : string) : list role :=
  let frontend_skills := web_technologies sa in
  if negb (existsb (mentions ["react"; "angular"; "vue"]) frontend_skills)
  then []
  else
    [ {| category := "Frontend Development"; remote_friendly := true;
         growth_potential := "High"; market_demand := "High";
         role_title := senior_prefix experience_level "Frontend Developer";
         match_percentage :=
           calculate_match_percentage sa ["javascript"; "react"; "css"];
         salary_range := get_salary_range "frontend" experience_level;
         company_types := ["Tech Companies"; "Agencies"; "E-commerce"];
         required_skills := ["JavaScript"; "Modern frameworks"; "CSS/SCSS"; "Responsive design"];
         preferred_skills := firstn 5 frontend_skills;
         job_description := "Build user interfaces and enhance user experience with modern web technologies.";
         career_path := "Frontend → Senior Frontend → Frontend Architect → Engineering Manager" |} ].

Definition generate_backend_roles (sa : skills_analysis)
    (experience_level : level) (primary_stack : string) : list role :=
  let backend_skills := programming_languages sa ++ databases sa in
  match backend_skills with
  | [] => []
  | _ =>
      [ {| category := "Backend Development"; remote_friendly := true;
           growth_potential := "High"; market_demand := "Very High";
           role_title := senior_prefix experience_level "Backend Developer";
           match_percentage :=
             calculate_match_percentage sa ["programming"; "databases"; "api"];
           salary_range := get_salary_range "backend" experience_level;
           company_types := ["Tech Companies"; "Enterprise"; "Fintech"];
           required_skills := ["Server-side programming"; "Database design"; "API development"; "System architecture"];
           preferred_skills := firstn 5 backend_skills;
           job_description := "Design and implement server-side logic, databases, and APIs for web applications.";
           career_path := "Backend → Senior Backend → Backend Architect → Principal Engineer" |} ]
  end.

Definition generate_fullstack_roles (sa : skills_analysis)
    (experience_level : level) (primary_stack : string) : list role :=
  let has_frontend :=
    existsb (mentions ["react"; "angular"; "vue"]) (web_technologies sa) in
  let has_backend :=
    match programming_languages sa, databases sa with
    | _ :: _, _ :: _ => true
    | _, _ => false
    end in
  if negb (has_frontend && has_backend) then []
  else
    [ {| category := "Full-Stack Development"; remote_friendly := true;
         growth_potential := "Very High"; market_demand := "Very High";
         role_title := senior_prefix experience_level "Full-Stack Developer";
         match_percentage :=
           calculate_match_percentage sa ["frontend"; "backend"; "databases"];
         salary_range := get_salary_range "fullstack" experience_level;
         company_types := ["Startups"; "Tech Companies"; "Agencies"];
         required_skills := ["Frontend frameworks"; "Backend development"; "Database design"; "Version control"];
         preferred_skills :=
           firstn 6
             (programming_languages sa
              ++ match sdict_get (technical_skills sa) "web_technologies" with
                 | Some subs =>
                     match sdict_get subs "frameworks" with
                     | Some l => l
                     | None => []
                     end
                 | None => []
                 end);
         job_description := "Develop both client and server-side applications with end-to-end responsibility.";
         career_path := "Full-Stack → Senior Full-Stack → Tech Lead → Engineering Manager" |} ].

Definition mobile_keywords : list string :=
  ["react native"; "flutter"; "swift"; "kotlin"; "ios"; "android"].

Definition generate_mobile_roles (sa : skills_analysis)
    (experience_level : level) (primary_stack : string) : list role :=
  let mobile_skills := web_technologies sa in
  if negb (existsb (mentions mobile_keywords) mobile_skills) then []
  else
    [ {| category := "Mobile Development"; remote_friendly := true;
         growth_potential := "High"; market_demand := "High";
         role_title := senior_prefix experience_level "Mobile Developer";
         match_percentage :=
           calculate_match_percentage sa ["mobile"; "programming"];
         salary_range := get_salary_range "mobile" experience_level;
         company_types := ["Mobile-first Companies"; "Agencies"; "Enterprise"];
         required_skills := ["Mobile frameworks"; "Platform-specific development"; "UI/UX principles"];
         preferred_skills := firstn 4 (filter (mentions mobile_keywords) mobile_skills);
         job_description := "Develop mobile applications for iOS and/or Android platforms.";
         career_path := "Mobile → Senior Mobile → Mobile Architect → Engineering Manager" |} ].

Definition generate_security_roles (sa : skills_analysis)
    (experience_level : level) (primary_stack : string) : list role :=
  let security_skills := get_skills_by_category (technical_skills sa) "security" in
  let security_certs :=
    filter (mentions ["security"; "cissp"; "cism"; "cisa"]) (certifications sa) in
  match security_skills ++ security_certs with
  | [] => []
  | _ =>
      match experience_level with
      | junior => []
      | _ =>
          [ {| category := "Cybersecurity"; remote_friendly := true;
               growth_potential := "Very High"; market_demand := "Very High";
               role_title := senior_prefix experience_level "Security Engineer";
               match_percentage :=
                 calculate_match_percentage sa ["security"; "networking"];
               salary_range := get_salary_range "security" experience_level;
               company_types := ["Enterprise"; "Financial Services"; "Government"];
               required_skills := ["Security frameworks"; "Risk assessment"; "Incident response"; "Compliance"];
               preferred_skills := security_skills ++ security_certs;
               job_description := "Protect organizational assets through security architecture and threat mitigation.";
               career_path := "Security → Senior Security → Security Architect → CISO" |} ]
      end
  end.

(** The lists of required skills the generators pass to
    [calculate_match_percentage]. *)
Definition call_sites : list (list string) :=
  [ ["programming"; "version control"];
    ["programming"; "system design"; "databases"];
    ["architecture"; "leadership"; "mentoring"];
    ["python"; "statistics"; "sql"];
    ["docker"; "kubernetes"; "cloud"];
    ["javascript"; "react"; "css"];
    ["programming"; "databases"; "api"];
    ["frontend"; "backend"; "databases"];
    ["mobile"; "programming"];
    ["security"; "networking"] ].

(** [role_generators], in the order of the dictionary. *)
Definition role_generators
  : list (skills_analysis -> level -> string -> list role) :=
  [ generate_software_engineer_roles; generate_data_scientist_roles;
    generate_devops_roles; generate_frontend_roles; generate_backend_roles;
    generate_fullstack_roles; generate_mobile_roles; generate_security_roles ].

(** The recommendations in the order they are generated. *)
Definition generated_roles (sa : skills_analysis) (ea : experience_analysis)
  : list role :=
  let experience_level := exp_level ea in
  let primary_stack := determine_primary_stack sa in
  flat_map (fun generator => generator sa experience_level primary_stack)
           role_generators.

(** [generate_detailed_job_recommendations(skills_analysis, experience_analysis)] *)
Definition generate_detailed_job_recommendations (sa : skills_analysis)
    (ea : experience_analysis) : list role :=
  firstn 8 (sort_desc Qltb match_percentage (generated_roles sa ea)).

End Recommendations.

(** ** Scoring *)

(** [structure] of [analyze_resume_structure] *)
Record structure := {
  has_contact_info : bool;
  has_summary : bool;
  has_experience : bool;
  has_education : bool;
  has_skills_section : bool;
  section_count : Z;
  estimated_length : string
}.

Definition achievement_patterns : list string :=
  [ "\d+%"; "increased.*?\d+"; "improved.*?\d+"; "reduced.*?\d+";
    "saved.*?\$\d+"; "generated.*?\$\d+"; "managed.*?\$\d+";
    "led.*?team.*?\d+"; "supervised.*?\d+" ].

Definition link_patterns : list string :=
  [ "github\.com"; "gitlab\.com"; "portfolio"; "project.*?link";
    "demo.*?link"; "live.*?site" ].

Module Score.

(** [score_breakdown] *)
Record score_breakdown := {
  technical_skills : Z;
  experience_quality : Z;
  content_structure : Z;
  achievements : Z;
  completeness : Z;
  extraction_quality : Z;
  total_score : Z;
  grade : string;
  strengths : list string;
  areas_for_improvement : list string
}.

End Score.

(** The grade of a total: the [if]/[elif] ladder of
    [calculate_overall_score]. *)
Definition assign_grade (total_score : Z) : string :=
  if (90 <=? total_score)%Z then "A+"
  else if (85 <=? total_score)%Z then "A"
  else if (80 <=? total_score)%Z then "A-"
  else if (75 <=? total_score)%Z then "B+"
  else if (70 <=? total_score)%Z then "B"
  else if (65 <=? total_score)%Z then "B-"
  else if (60 <=? total_score)%Z then "C+"
  else if (55 <=? total_score)%Z then "C"
  else "C-".

Section Scoring.
Context {U : Unicode}.

(** [any(re.search(pattern, text) for pattern in patterns)], as the loops
    of [has_quantifiable_achievements] and [has_portfolio_links] compute. *)
Definition search_any (patterns : list string) (text : pystr) : bool :=
  existsb (fun p => Re.search false (Re.compile p) text) patterns.

(** [analyze_resume_structure(text)] *)
Definition analyze_resume_structure (text : pystr) : structure :=
  let text_lower := str_lower text in
  let found (p : string) := Re.search false (Re.compile p) text_lower in
  let has_contact_info := found "(email|phone|linkedin|github)" in
  let has_summary := found "(summary|objective|profile|about)" in
  let has_experience := found "(experience|employment|work history)" in
  let has_education := found "(education|degree|university|college)" in
  let has_skills_section := found "(skills|technologies|competencies)" in
  let word_count := List.length (split_ws text) in
  {| has_contact_info := has_contact_info;
     has_summary := has_summary;
     has_experience := has_experience;
     has_education := has_education;
     has_skills_section := has_skills_section;
     section_count :=
       Z.b2z has_contact_info + Z.b2z has_summary + Z.b2z has_experience
       + Z.b2z has_education + Z.b2z has_skills_section;
     estimated_length :=
       if word_count <? 200 then "too_short"
       else if word_count <? 600 then "appropriate"
       else "too_long" |}.

(** [has_quantifiable_achievements(text)] *)
Definition has_quantifiable_achievements (text : pystr) : bool :=
  search_any achievement_patterns (str_lower text).

(** [has_portfolio_links(text)] *)
Definition has_portfolio_links (text : pystr) : bool :=
  search_any link_patterns (str_lower text).

(** [calculate_overall_score(skills_analysis, experience_analysis, text,
    extraction_metadata)].  The two message lists are the messages the
    source appends, in the order of its statements. *)
Definition calculate_overall_score (sa : skills_analysis)
    (ea : experience_analysis) (text : pystr) (em : extraction_metadata)
  : Score.score_breakdown :=
  (* Technical Skills Score (30 points) *)
  let total_skills := total_technical_skills (technical_skills sa) in
  let technical :=
    if 15 <=? total_skills then 30%Z
    else if 10 <=? total_skills then 25%Z
    else if 5 <=? total_skills then 20%Z
    else 10%Z in
  (* Experience Quality Score (25 points) *)
  let experience_score := 15%Z in
  let experience_score :=
    match exp_level ea with
    | senior => (experience_score + 10)%Z
    | mid => (experience_score + 5)%Z
    | junior => experience_score
    end in
  let has_leadership :=
    match leadership_indicators ea with [] => false | _ => true end in
  let experience_score :=
    if has_leadership then (experience_score + 5)%Z else experience_score in
  let experience_score :=
    if (80 <? confidence ea)%Z then (experience_score + 5)%Z
    else experience_score in
  let experience_quality := Z.min experience_score 25 in
  (* Content Structure Score (20 points) *)
  let structure := analyze_resume_structure text in
  let structure_score := (section_count structure * 3)%Z in
  let structure_score :=
    if String.eqb (estimated_length structure) "appropriate"
    then (structure_score + 5)%Z else structure_score in
  let content_structure := Z.min structure_score 20 in
  (* Achievements Score (15 points) *)
  let has_achievements := has_quantifiable_achievements text in
  let achievements := if has_achievements then 15%Z else 5%Z in
  (* Completeness Score (10 points) *)
  let has_certifications :=
    match certifications sa with [] => false | _ => true end in
  let has_links := has_portfolio_links text in
  let enough_soft_skills := 3 <=? List.length (soft_skills sa) in
  let completeness_score := 0%Z in
  let completeness_score :=
    if has_certifications then (completeness_score + 3)%Z
    else completeness_score in
  let completeness_score :=
    if has_links then (completeness_score + 4)%Z else completeness_score in
  let completeness_score :=
    if enough_soft_skills then (completeness_score + 3)%Z
    else completeness_score in
  (* Extraction Quality Bonus/Penalty (5 points) *)
  let extraction_bonus :=
    if String.eqb (extraction_quality em) "excellent" then 5%Z
    else if String.eqb (extraction_quality em) "good" then 3%Z
    else if String.eqb (extraction_quality em) "basic" then 1%Z
    else 0%Z in
  (* Calculate total score *)
  let total :=
    (technical + experience_quality + content_structure + achievements
     + completeness_score)%Z in
  let total_score := Z.min total 100 in
  {| Score.technical_skills := technical;
     Score.experience_quality := experience_quality;
     Score.content_structure := content_structure;
     Score.achievements := achievements;
     Score.completeness := completeness_score;
     Score.extraction_quality := extraction_bonus;
     Score.total_score := total_score;
     Score.grade := assign_grade total_score;
     Score.strengths :=
       (if 15 <=? total_skills then ["Excellent technical skill diversity"]
        else if 10 <=? total_skills then ["Good technical skill range"]
        else [])
       ++ (if has_leadership then ["Leadership experience demonstrated"] else [])
       ++ (if has_achievements then ["Quantifiable achievements included"] else [])
       ++ (if has_certifications then ["Professional certifications listed"] else [])
       ++ (if has_links then ["Portfolio/project links included"] else []);
     Score.areas_for_improvement :=
       (if 5 <=? total_skills then [] else ["Limited technical skills listed"])
       ++ (if String.eqb (estimated_length structure) "appropriate" then []
           else if String.eqb (estimated_length structure) "too_long"
           then ["Resume may be too lengthy"]
           else if String.eqb (estimated_length structure) "too_short"
           then ["Resume lacks sufficient detail"]
           else [])
       ++ (if has_achievements then [] else ["Add quantifiable achievements"])
       ++ (if enough_soft_skills then [] else ["Include more soft skills"])
       ++ (if String.eqb (extraction_quality em) "excellent" then []
           else if String.eqb (extraction_quality em) "good" then []
           else if String.eqb (extraction_quality em) "basic" then []
           else ["PDF format may need optimization"]) |}.

End Scoring.

(** ** The analysis *)

(** The names [analyze_resume] assigns and the names bound in its module. *)
Definition analyze_code : code :=
  {| co_locals :=
       [ "self"; "pdf_bytes"; "filename"; "analysis_start_time";
         "extracted_text"; "extraction_metadata"; "preprocessing_result";
         "cleaned_text"; "preprocessing_info"; "skills_analysis";
         "total_skills"; "experience_analysis"; "job_recommendations";
         "improvement_suggestions"; "interview_questions"; "score_analysis";
         "analysis_time"; "result"; "e" ];
     co_globals :=
       [ "os"; "json"; "re"; "sys"; "traceback"; "Dict"; "List"; "Any";
         "Optional"; "Tuple"; "requests"; "BytesIO"; "logging"; "datetime";
         "hashlib"; "logger"; "PyPDF2"; "pdfplumber"; "fitz"; "nltk";
         "word_tokenize"; "sent_tokenize"; "stopwords"; "WordNetLemmatizer";
         "pos_tag"; "ne_chunk"; "Tree"; "spacy"; "TfidfVectorizer";
         "cosine_similarity"; "required_nltk_data"; "data";
         "AdvancedResumeAnalyzer"; "analyzer"; "sample_text"; "pdf_bytes";
         "result"; "score"; "skills"; "exp"; "i"; "job"; "suggestion" ] |}.

Section Analysis.
Context {U : Unicode} {L : PdfLibs}.

(** The stages without a model of their own: what they return, or that
    they raise.  (Line 1365 of the source, in [generate_interview_questions],
    repeats the start of the line after it and does not parse; the file is
    read without that line.) *)
Variables preprocessing_info suggestion question : Type.
(** [preprocess_text(text)]: the cleaned text and the information on it *)
Variable preprocess_text : pystr -> result (pystr * preprocessing_info).
Variable generate_improvement_suggestions :
  pystr -> skills_analysis -> experience_analysis -> result (list suggestion).
Variable generate_interview_questions :
  skills_analysis -> experience_analysis -> result (list question).

(** The result of [analyze_resume], without the wall-clock entries of
    ['analysis_metadata']. *)
Record analysis_report := {
  r_filename : pystr;
  r_extraction_metadata : extraction_metadata;
  r_original_text_length : nat;
  r_cleaned_text_length : nat;
  r_preprocessing_info : preprocessing_info;
  r_skills_analysis : skills_analysis;
  r_total_technical_skills : nat;
  r_experience_analysis : experience_analysis;
  r_score_analysis : Score.score_breakdown;
  r_job_recommendations : list role;
  r_improvement_suggestions : list suggestion;
  r_interview_questions : list question;
  r_full_text : pystr;
  r_cleaned_text : pystr
}.

Local Abbreviation C := analyze_code.

(** The [try] block of [analyze_resume]. *)
Definition analyze_block (pdf_bytes : bytes) (filename : pystr)
  : M frame analysis_report :=
  (* Extract text from PDF *)
  x <- call_stmt C ["extracted_text"; "extraction_metadata"]
         "extract_text_from_pdf" ["self"; "pdf_bytes"]
         (extract_text_from_pdf pdf_bytes) ;;
  let '(extracted_text, extraction_metadata) := x in
  for_each ["len"; "extracted_text"] (load C) ;;
  (if List.length (strip extracted_text) <? 50
   then load C "ValueError" ;;
        raise (Exn "ValueError" (py "Could not extract meaningful text from PDF"))
   else ret tt) ;;
  (* Preprocess text *)
  preprocessing_result <-
    call_stmt C ["preprocessing_result"]
      "preprocess_text" ["self"; "extracted_text"]
      (preprocess_text extracted_text) ;;
  cleaned_text <- assign_stmt C ["cleaned_text"] ["preprocessing_result"]
                    (fst preprocessing_result) ;;
  preprocessing_info <-
    assign_stmt C ["preprocessing_info"] ["preprocessing_result"]
      (snd preprocessing_result) ;;
  (* Extract comprehensive skills *)
  skills_analysis <-
    call_stmt C ["skills_analysis"]
      "extract_comprehensive_skills" ["self"; "cleaned_text"]
      (Ok (extract_comprehensive_skills cleaned_text)) ;;
  total_skills <-
    assign_stmt C ["total_skills"] ["sum"; "skills_analysis"]
      (total_technical_skills (technical_skills skills_analysis)) ;;
  (* Determine experience level *)
  experience_analysis <-
    call_stmt C ["experience_analysis"]
      "determine_experience_level" ["self"; "cleaned_text"; "skills_analysis"]
      (Ok (determine_experience_level cleaned_text skills_analysis)) ;;
  (* Generate job recommendations *)
  job_recommendations <-
    call_stmt C ["job_recommendations"]
      "generate_detailed_job_recommendations"
      ["self"; "skills_analysis"; "experience_analysis"]
      (Ok (generate_detailed_job_recommendations skills_analysis
             experience_analysis)) ;;
  (* Generate improvement suggestions *)
  improvement_suggestions <-
    call_stmt C ["improvement_suggestions"]
      "generate_improvement_suggestions"
      ["self"; "cleaned_text"; "skills_analysis"; "experience_analysis"]
      (generate_improvement_suggestions cleaned_text skills_analysis
         experience_analysis) ;;
  (* Generate interview questions *)
  interview_questions <-
    call_stmt C ["interview_questions"]
      "generate_interview_questions"
      ["self"; "skills_analysis"; "experience_analysis"]
      (generate_interview_questions skills_analysis experience_analysis) ;;
  (* Calculate comprehensive score *)
  score_analysis <-
    call_stmt C ["score_analysis"]
      "calculate_overall_score"
      ["self"; "skills_analysis"; "experience_analysis"; "cleaned_text";
       "extraction_metadata"]
      (Ok (calculate_overall_score skills_analysis experience_analysis
             cleaned_text extraction_metadata)) ;;
  (* Calculate analysis time *)
  assign_stmt C ["analysis_time"] ["datetime"; "analysis_start_time"] tt ;;
  (* Compile comprehensive result *)
  assign_stmt C ["result"]
    [ "filename"; "analysis_time"; "analysis_start_time";
      "extraction_metadata"; "extraction_metadata";   (* 'analysis_metadata' *)
      "len"; "extracted_text"; "len"; "cleaned_text";
      "extraction_metadata"; "extraction_metadata";
      "extraction_metadata";                          (* 'extraction_details' *)
      "preprocessing_info";                           (* 'preprocessing_info' *)
      "skills_analysis"; "skills_analysis"; "skills_analysis";
      "skills_analysis"; "skills_analysis"; "skills_analysis";
      "skills_analysis"; "skills_analysis"; "skills_analysis";
      "skills_analysis"; "sum"; "skills_analysis";    (* 'skills_analysis' *)
      "experience_analysis"; "score_analysis"; "job_recommendations";
      "improvement_suggestions"; "interview_questions";
      "extracted_text"; "cleaned_text"; "len"; "extracted_text";
      "filename" ]                                    (* 'extracted_data' *)
    {| r_filename := filename;
       r_extraction_metadata := extraction_metadata;
       r_original_text_length := List.length extracted_text;
       r_cleaned_text_length := List.length cleaned_text;
       r_preprocessing_info := preprocessing_info;
       r_skills_analysis := skills_analysis;
       r_total_technical_skills :=
         total_technical_skills (technical_skills skills_analysis);
       r_experience_analysis := experience_analysis;
       r_score_analysis := score_analysis;
       r_job_recommendations := job_recommendations;
       r_improvement_suggestions := improvement_suggestions;
       r_interview_questions := interview_questions;
       r_full_text := extracted_text;
       r_cleaned_text := cleaned_text |}.

(** The body of [analyze_resume]: the [try] block, and the handler, which
    logs and raises the exception again. *)
Definition analyze_body (pdf_bytes : bytes) (filename : pystr)
  : M frame analysis_report :=
  assign_stmt C ["analysis_start_time"] ["datetime"] tt ;;
  try_except
    (report <- analyze_block pdf_bytes filename ;;
     load C "result" ;;
     ret report)
    (fun e =>
       store "e" ;;
       for_each ["logger"; "str"; "e"; "logger"; "traceback"; "e"] (load C) ;;
       raise e).

(** [analyze_resume(pdf_bytes, filename)]: what it returns or raises, and
    the methods it has called. *)
Definition analyze_resume (pdf_bytes : bytes) (filename : pystr)
  : result analysis_report * list string :=
  let '(r, fr) :=
    analyze_body pdf_bytes filename (enter ["self"; "pdf_bytes"; "filename"]) in
  (r, calls fr).

End Analysis.

(** ** Improvement suggestions *)

(** The double quote, for the texts that hold one. *)
Definition dq : string := String (Ascii.ascii_of_nat 34) EmptyString.

(** An entry of the list [generate_improvement_suggestions] returns. *)
Record improvement := {
  sg_category : string;
  sg_priority : string;
  sg_suggestion : string;
  sg_impact : string;
  sg_timeline : string;
  sg_resources : list string
}.

(** The last but one candidate, which is always appended. *)
Definition ats_suggestion : improvement :=
  {| sg_category := "Format";
     sg_priority := "Low";
     sg_suggestion := "Optimize resume for ATS (Applicant Tracking Systems) by using standard section headers and relevant keywords.";
     sg_impact := "Improves chances of passing initial screening";
     sg_timeline := "1-2 days";
     sg_resources := ["ATS optimization guides"; "Keyword research tools"] |}.

Section Suggestions.
Context {U : Unicode}.

(** The suggestions in the order the source appends them. *)
Definition suggestion_candidates (text : pystr) (sa : skills_analysis)
    (ea : experience_analysis) : list improvement :=
  (* Skills gap analysis *)
  (if List.length (programming_languages sa) <? 2
   then [ {| sg_category := "Technical Skills";
             sg_priority := "High";
             sg_suggestion := "Learn additional programming languages to increase versatility. Consider Python for data science or JavaScript for web development.";
             sg_impact := "Significantly increases job opportunities";
             sg_timeline := "3-6 months";
             sg_resources := ["Online courses"; "Coding bootcamps"; "Practice projects"] |} ]
   else [])
  (* Cloud skills recommendation *)
  ++ (match get_skills_by_category (technical_skills sa) "cloud_platforms" with
      | [] => [ {| sg_category := "Technical Skills";
                   sg_priority := "High";
                   sg_suggestion := "Gain cloud computing experience with AWS, Azure, or Google Cloud. Cloud skills are in high demand.";
                   sg_impact := "Opens opportunities in modern tech companies";
                   sg_timeline := "2-4 months";
                   sg_resources := ["AWS Free Tier"; "Azure Learning Path"; "Google Cloud Training"] |} ]
      | _ => []
      end)
  (* Quantifiable achievements *)
  ++ (if has_quantifiable_achievements text then []
      else [ {| sg_category := "Content Quality";
                sg_priority := "High";
                sg_suggestion :=
                  String.append "Add quantifiable achievements with specific metrics (e.g., "
                  (String.append dq (String.append "Improved performance by 40%"
                  (String.append dq (String.append ", "
                  (String.append dq (String.append "Led team of 5 developers"
                  (String.append dq ").")))))));
                sg_impact := "Makes resume more compelling to recruiters";
                sg_timeline := "1-2 weeks";
                sg_resources := ["Resume writing guides"; "Achievement frameworks"] |} ])
  (* Leadership experience *)
  ++ (match exp_level ea, leadership_indicators ea with
      | junior, _ => []
      | _, [] => [ {| sg_category := "Experience";
                      sg_priority := "Medium";
                      sg_suggestion := "Highlight leadership experience, mentoring, or project management roles to demonstrate growth.";
                      sg_impact := "Essential for senior-level positions";
                      sg_timeline := "Immediate (if experience exists)";
                      sg_resources := ["Leadership frameworks"; "Mentoring programs"] |} ]
      | _, _ => []
      end)
  (* Portfolio and projects *)
  ++ (if has_portfolio_links text then []
      else [ {| sg_category := "Portfolio";
                sg_priority := "Medium";
                sg_suggestion := "Include links to GitHub profile, portfolio website, or notable projects to showcase your work.";
                sg_impact := "Provides concrete evidence of skills";
                sg_timeline := "2-4 weeks";
                sg_resources := ["GitHub Pages"; "Portfolio templates"; "Project documentation"] |} ])
  (* Certifications *)
  ++ (match certifications sa with
      | [] => [ {| sg_category := "Credentials";
                   sg_priority := "Medium";
                   sg_suggestion := "Consider obtaining relevant certifications (AWS, Google Cloud, Microsoft, etc.) to validate your skills.";
                   sg_impact := "Increases credibility and market value";
                   sg_timeline := "1-3 months per certification";
                   sg_resources := ["Official certification programs"; "Practice exams"; "Study groups"] |} ]
      | _ => []
      end)
  (* ATS optimization *)
  ++ [ats_suggestion]
  (* Soft skills *)
  ++ (if List.length (soft_skills sa) <? 3
      then [ {| sg_category := "Soft Skills";
                sg_priority := "Low";
                sg_suggestion := "Highlight soft skills like communication, teamwork, and problem-solving with specific examples.";
                sg_impact := "Demonstrates well-rounded professional profile";
                sg_timeline := "Immediate";
                sg_resources := ["Soft skills assessment"; "Professional development courses"] |} ]
      else []).

(** [generate_improvement_suggestions(text, skills_analysis,
    experience_analysis)]: the first six candidates. *)
Definition generate_improvement_suggestions (text : pystr)
    (sa : skills_analysis) (ea : experience_analysis) : list improvement :=
  firstn 6 (suggestion_candidates text sa ea).

End Suggestions.

End Advanced.

(* ================================================================= *)
(** * The basic analyzer ([resume_analyzer.py]): text extraction *)
(* ================================================================= *)

Module Basic.

Local Open Scope eff_scope.

Section Extraction.
Context {U : Unicode} {L : PdfLibs}.

(** The state of [extract_text_from_pdf] is its variable [text]. *)

(** Method 1: pdfplumber *)
Definition pdfplumber_block (pdf_bytes : bytes) : M pystr bool :=
  pages <- call (pdfplumber_open pdf_bytes) ;;
  for_each pages
    (fun page =>
       page_text <- call (plumber_extract_text page) ;;
       match page_text with
       | Some (c :: t) => modify (fun text => text ++ (c :: t) ++ [LF])
       | _ => ret tt
       end) ;;
  text <- get ;;
  ret (100 <? List.length (strip text)).

(** Method 2: PyPDF2 *)
Definition pypdf2_block (pdf_bytes : bytes) : M pystr bool :=
  pages <- call (PdfReader pdf_bytes) ;;
  for_each pages
    (fun page =>
       page_text <- call page ;;
       match page_text with
       | [] => ret tt
       | _ => modify (fun text => text ++ page_text ++ [LF])
       end) ;;
  text <- get ;;
  ret (100 <? List.length (strip text)).

(** Method 3: the bytes themselves; it returns whatever it finds. *)
Definition raw_text (pdf_bytes : bytes) : pystr :=
  let text := decode_utf8_ignore pdf_bytes in
  let text := Re.sub false (Re.compile "[^\x20-\x7E\n]") (py " ") text in
  Re.sub false (Re.compile "\s+") (py " ") text.

Definition raw_block (pdf_bytes : bytes) : M pystr pystr :=
  modify (fun _ => raw_text pdf_bytes) ;;
  get.

Definition extract_body (pdf_bytes : bytes) : M pystr pystr :=
  returned <- try_except (pdfplumber_block pdf_bytes) (fun _ => ret false) ;;
  if returned then get else
  returned <- try_except (pypdf2_block pdf_bytes) (fun _ => ret false) ;;
  if returned then get else
  try_except (raw_block pdf_bytes) (fun _ => ret []).

(** [extract_text_from_pdf(pdf_bytes)] *)
Definition extract_text_from_pdf (pdf_bytes : bytes) : result pystr :=
  fst (extract_body pdf_bytes []).

End Extraction.

(** ** Skills, experience and score of the basic analyzer *)

(** [self.technical_skills] *)
Definition technical_skills_table : sdict (list string) :=
  [ ("programming_languages",
     ["python"; "javascript"; "java"; "c++"; "c#"; "php"; "ruby"; "go"; "rust";
      "swift"; "kotlin"; "scala"; "typescript"; "r"; "matlab"; "perl"]);
    ("web_frameworks",
     ["react"; "angular"; "vue"; "django"; "flask"; "express"; "spring";
      "laravel"; "rails"; "asp.net"; "fastapi"; "nestjs"; "svelte"]);
    ("databases",
     ["mysql"; "postgresql"; "mongodb"; "redis"; "sqlite"; "oracle";
      "sql server"; "cassandra"; "elasticsearch"; "dynamodb"]);
    ("cloud_platforms",
     ["aws"; "azure"; "gcp"; "google cloud"; "heroku"; "digitalocean";
      "vercel"; "netlify"; "firebase"]);
    ("tools_technologies",
     ["docker"; "kubernetes"; "jenkins"; "git"; "github"; "gitlab";
      "terraform"; "ansible"; "webpack"; "vite"; "babel"]);
    ("mobile_development",
     ["react native"; "flutter"; "ionic"; "xamarin"; "android"; "ios"]);
    ("data_science",
     ["pandas"; "numpy"; "scikit-learn"; "tensorflow"; "pytorch";
      "keras"; "spark"; "hadoop"; "tableau"; "power bi"]) ].

(** [self.soft_skills] *)
Definition soft_skills_table : list string :=
  [ "leadership"; "communication"; "teamwork"; "problem solving";
    "critical thinking"; "project management"; "time management";
    "adaptability"; "creativity"; "collaboration"; "analytical skills";
    "decision making"; "conflict resolution"; "mentoring"; "coaching" ].

Definition industry_keywords : sdict (list string) :=
  [ ("Agile Development", ["agile"; "scrum"; "kanban"; "sprint"]);
    ("DevOps", ["devops"; "ci/cd"; "continuous integration"; "deployment"]);
    ("Machine Learning", ["machine learning"; "ml"; "ai"; "artificial intelligence"]);
    ("Data Science", ["data science"; "data analysis"; "analytics"; "big data"]);
    ("Cybersecurity", ["security"; "cybersecurity"; "encryption"; "penetration testing"]);
    ("Cloud Computing", ["cloud"; "serverless"; "microservices"; "containerization"]);
    ("Mobile Development", ["mobile"; "app development"; "ios development"; "android development"]);
    ("Web Development", ["web development"; "frontend"; "backend"; "full stack"]);
    ("UI/UX Design", ["ui"; "ux"; "user experience"; "user interface"; "design"]);
    ("Quality Assurance", ["qa"; "testing"; "automation testing"; "unit testing"]) ].

(** The dictionary [extract_skills] returns. *)
Record skills := {
  technical : list pystr;
  soft : list pystr;
  industry : list pystr
}.

Inductive level := junior | mid | senior.

Section Stages.
Context {U : Unicode}.

(** [format_skill_name(skill)] *)
Definition special_cases : dict pystr :=
  map (fun p : string * string => (py (fst p), py (snd p)))
  [ ("javascript", "JavaScript"); ("typescript", "TypeScript");
    ("nodejs", "Node.js"); ("reactjs", "React.js"); ("vuejs", "Vue.js");
    ("angularjs", "Angular.js"); ("mysql", "MySQL");
    ("postgresql", "PostgreSQL"); ("mongodb", "MongoDB"); ("aws", "AWS");
    ("gcp", "Google Cloud Platform"); ("html", "HTML"); ("css", "CSS");
    ("sql", "SQL"); ("api", "API"); ("rest", "REST"); ("graphql", "GraphQL") ].

Definition format_skill_name (skill : pystr) : pystr :=
  match dict_get special_cases (str_lower skill) with
  | Some name => name
  | None => title skill
  end.

(** [extract_industry_skills(text)] *)
Definition extract_industry_skills (text : pystr) : list pystr :=
  map (fun e => py (fst e))
      (filter (fun e : string * list string =>
                 existsb (fun keyword => contains (py keyword) text) (snd e))
              industry_keywords).

(** The body of [for skill in skills] of [extract_skills]: the skill is
    found when one of its four spellings occurs in the text. *)
Definition scan_skill (text_lower : pystr) (found : list pystr)
    (skill : string) : list pystr :=
  let s := py skill in
  let patterns :=
    [ s; replace_chr SP [] s; replace_chr (ch "-") (py " ") s;
      replace_chr (ch ".") [] s ] in
  if existsb (fun pattern => contains pattern text_lower) patterns
  then
    let formatted_skill := format_skill_name s in
    if str_in formatted_skill found then found else found ++ [formatted_skill]
  else found.

(** [extract_skills(text)] *)
Definition extract_skills (text : pystr) : skills :=
  let text_lower := str_lower text in
  let found_technical :=
    fold_left (scan_skill text_lower)
              (flat_map snd technical_skills_table) [] in
  let found_soft :=
    fold_left (fun found skill =>
                 if contains (py skill) text_lower
                 then let formatted_skill := title (py skill) in
                      if str_in formatted_skill found then found
                      else found ++ [formatted_skill]
                 else found)
              soft_skills_table [] in
  let industry_skills := extract_industry_skills text_lower in
  {| technical := firstn 15 found_technical;
     soft := firstn 10 found_soft;
     industry := firstn 8 industry_skills |}.

(** [determine_experience_level(text)] *)
Definition senior_keywords : list string :=
  [ "senior"; "lead"; "principal"; "architect"; "manager"; "director";
    "head of"; "vp"; "cto"; "chief"; "10+ years"; "8+ years"; "7+ years" ].

Definition mid_keywords : list string :=
  [ "mid-level"; "intermediate"; "3-6 years"; "4-7 years"; "5+ years" ].

Definition year_patterns : list string :=
  [ "(\d+)\+?\s*years?\s*(?:of\s*)?(?:experience|exp)";
    "(\d+)\+?\s*yrs?\s*(?:of\s*)?(?:experience|exp)";
    "experience.*?(\d+)\+?\s*years?";
    "(\d+)\+?\s*years?\s*in" ].

Definition max_or_zero (l : list Z) : Z :=
  match l with
  | [] => 0%Z
  | x :: t => fold_left Z.max t x
  end.

Definition determine_experience_level (text : pystr) : level :=
  let text_lower := str_lower text in
  let years_found :=
    flat_map
      (fun p =>
         flat_map (fun m => match int_of_str m with
                            | Some n => [n]
                            | None => []
                            end)
                  (Re.findall false (Re.compile p) text_lower))
      year_patterns in
  let max_years := max_or_zero years_found in
  let any_keyword (l : list string) :=
    existsb (fun keyword => contains (py keyword) text_lower) l in
  if any_keyword senior_keywords || (7 <=? max_years)%Z then senior
  else if any_keyword mid_keywords
          || ((3 <=? max_years)%Z && (max_years <? 7)%Z) then mid
  else junior.

End Stages.

(** ** Job recommendations *)

(** An entry of [job_templates]. *)
Record job_template := {
  t_title : string;
  t_required_skills : list string;
  t_salary_range : string;
  t_company_type : string
}.

(** [job_templates[experience_level]] *)
Definition job_templates (experience_level : level) : list job_template :=
  match experience_level with
  | junior =>
      [ {| t_title := "Junior Software Developer";
           t_required_skills := ["JavaScript"; "HTML"; "CSS"];
           t_salary_range := "$50,000 - $75,000";
           t_company_type := "Technology Startup" |};
        {| t_title := "Frontend Developer";
           t_required_skills := ["React"; "JavaScript"; "CSS"];
           t_salary_range := "$55,000 - $80,000";
           t_company_type := "Web Development Agency" |};
        {| t_title := "Backend Developer";
           t_required_skills := ["Python"; "Node.js"; "SQL"];
           t_salary_range := "$60,000 - $85,000";
           t_company_type := "Software Company" |};
        {| t_title := "QA Engineer";
           t_required_skills := ["Testing"; "Automation"; "SQL"];
           t_salary_range := "$45,000 - $70,000";
           t_company_type := "Enterprise" |} ]
  | mid =>
      [ {| t_title := "Full Stack Developer";
           t_required_skills := ["React"; "Node.js"; "MongoDB"];
           t_salary_range := "$80,000 - $120,000";
           t_company_type := "Technology Company" |};
        {| t_title := "Software Engineer";
           t_required_skills := ["Python"; "JavaScript"; "AWS"];
           t_salary_range := "$90,000 - $130,000";
           t_company_type := "Tech Startup" |};
        {| t_title := "DevOps Engineer";
           t_required_skills := ["Docker"; "Kubernetes"; "AWS"];
           t_salary_range := "$95,000 - $140,000";
           t_company_type := "Cloud Services" |};
        {| t_title := "Data Engineer";
           t_required_skills := ["Python"; "SQL"; "Spark"];
           t_salary_range := "$100,000 - $145,000";
           t_company_type := "Data Analytics" |} ]
  | senior =>
      [ {| t_title := "Senior Software Engineer";
           t_required_skills := ["JavaScript"; "Python"; "System Design"];
           t_salary_range := "$130,000 - $180,000";
           t_company_type := "Large Tech Company" |};
        {| t_title := "Technical Lead";
           t_required_skills := ["Leadership"; "Architecture"; "Mentoring"];
           t_salary_range := "$140,000 - $190,000";
           t_company_type := "Enterprise" |};
        {| t_title := "Principal Engineer";
           t_required_skills := ["System Design"; "Leadership"; "Strategy"];
           t_salary_range := "$160,000 - $220,000";
           t_company_type := "Technology Giant" |};
        {| t_title := "Engineering Manager";
           t_required_skills := ["Management"; "Leadership"; "Technical Strategy"];
           t_salary_range := "$150,000 - $200,000";
           t_company_type := "Software Company" |} ]
  end.

(** An entry of the list [generate_job_recommendations] returns. *)
Record recommendation := {
  title : string;
  match_percentage : Z;
  required_skills : list pystr;
  salary_range : string;
  company_type : string
}.

Section Recommendations.
Context {U : Unicode}.

(** The required skills of a template that occur in some skill of the
    user. *)
Definition matching_skills (sk : skills) (template : job_template)
  : list string :=
  let user_skills := technical sk ++ soft sk ++ industry sk in
  filter (fun skill =>
            existsb (fun user_skill =>
                       contains (str_lower (py skill)) (str_lower user_skill))
                    user_skills)
         (t_required_skills template).

(** [generate_job_recommendations(skills, experience_level)] *)
Definition generate_job_recommendations (sk : skills)
    (experience_level : level) : list recommendation :=
  map (fun template =>
         let matching := matching_skills sk template in
         {| title := t_title template;
            match_percentage :=
              Z.min (85 + Z.of_nat (List.length matching) * 3) 98;
            required_skills := map py matching ++ firstn 3 (technical sk);
            salary_range := t_salary_range template;
            company_type := t_company_type template |})
      (job_templates experience_level).

End Recommendations.

(** ** The analysis *)

(** The names [analyze_resume] assigns and the names bound in its module. *)
Definition analyze_code : code :=
  {| co_locals :=
       [ "self"; "pdf_bytes"; "filename"; "extracted_text"; "cleaned_text";
         "skills"; "experience_level"; "job_recommendations";
         "improvement_suggestions"; "interview_questions"; "overall_score";
         "result"; "e" ];
     co_globals :=
       [ "os"; "json"; "re"; "Dict"; "List"; "Any"; "Optional"; "requests";
         "BytesIO"; "PyPDF2"; "pdfplumber"; "nltk"; "word_tokenize";
         "sent_tokenize"; "stopwords"; "WordNetLemmatizer"; "ResumeAnalyzer";
         "analyzer"; "sample_text"; "pdf_bytes"; "result" ] |}.

Section Analysis.
Context {U : Unicode} {L : PdfLibs}.

(** The stages without a model of their own: what they return, or that
    they raise. *)
Variables suggestion question score : Type.
Variable preprocess_text : pystr -> result pystr.
Variable generate_improvement_suggestions :
  pystr -> skills -> result (list suggestion).
Variable generate_interview_questions :
  skills -> level -> result (list question).
Variable calculate_overall_score : skills -> level -> pystr -> result score.

(** The dictionary [analyze_resume] returns. *)
Record analysis_report := {
  r_skills : skills;
  r_experience_level : level;
  r_job_recommendations : list recommendation;
  r_improvement_suggestions : list suggestion;
  r_interview_questions : list question;
  r_overall_score : score;
  r_full_text : pystr;
  r_cleaned_text : pystr;
  r_text_length : nat;
  r_filename : pystr
}.

Local Abbreviation C := analyze_code.

(** The [try] block of [analyze_resume]. *)
Definition analyze_block (pdf_bytes : bytes) (filename : pystr)
  : M frame analysis_report :=
  (* Extract text from PDF *)
  extracted_text <-
    call_stmt C ["extracted_text"]
      "extract_text_from_pdf" ["self"; "pdf_bytes"]
      (extract_text_from_pdf pdf_bytes) ;;
  for_each ["len"; "extracted_text"] (load C) ;;
  (if List.length (strip extracted_text) <? 50
   then load C "ValueError" ;;
        raise (Exn "ValueError" (py "Could not extract meaningful text from PDF"))
   else ret tt) ;;
  (* Preprocess text *)
  cleaned_text <-
    call_stmt C ["cleaned_text"]
      "preprocess_text" ["self"; "extracted_text"]
      (preprocess_text extracted_text) ;;
  (* Extract skills *)
  sk <- call_stmt C ["skills"]
          "extract_skills" ["self"; "cleaned_text"]
          (Ok (extract_skills cleaned_text)) ;;
  (* Determine experience level *)
  experience_level <-
    call_stmt C ["experience_level"]
      "determine_experience_level" ["self"; "cleaned_text"]
      (Ok (determine_experience_level cleaned_text)) ;;
  (* Generate recommendations *)
  job_recommendations <-
    call_stmt C ["job_recommendations"]
      "generate_job_recommendations" ["self"; "skills"; "experience_level"]
      (Ok (generate_job_recommendations sk experience_level)) ;;
  improvement_suggestions <-
    call_stmt C ["improvement_suggestions"]
      "generate_improvement_suggestions" ["self"; "cleaned_text"; "skills"]
      (generate_improvement_suggestions cleaned_text sk) ;;
  interview_questions <-
    call_stmt C ["interview_questions"]
      "generate_interview_questions" ["self"; "skills"; "experience_level"]
      (generate_interview_questions sk experience_level) ;;
  (* Calculate overall score *)
  overall_score <-
    call_stmt C ["overall_score"]
      "calculate_overall_score"
      ["self"; "skills"; "experience_level"; "cleaned_text"]
      (calculate_overall_score sk experience_level cleaned_text) ;;
  assign_stmt C ["result"]
    [ "skills"; "experience_level"; "job_recommendations";
      "improvement_suggestions"; "interview_questions"; "overall_score";
      "extracted_text"; "cleaned_text"; "len"; "extracted_text"; "filename" ]
    {| r_skills := sk;
       r_experience_level := experience_level;
       r_job_recommendations := job_recommendations;
       r_improvement_suggestions := improvement_suggestions;
       r_interview_questions := interview_questions;
       r_overall_score := overall_score;
       r_full_text := extracted_text;
       r_cleaned_text := cleaned_text;
       r_text_length := List.length extracted_text;
       r_filename := filename |}.

(** The body of [analyze_resume]: the [try] block, and the handler, which
    prints and raises the exception again. *)
Definition analyze_body (pdf_bytes : bytes) (filename : pystr)
  : M frame analysis_report :=
  try_except
    (report <- analyze_block pdf_bytes filename ;;
     load C "result" ;;
     ret report)
    (fun e =>
       store "e" ;;
       for_each ["print"; "str"; "e"; "e"] (load C) ;;
       raise e).

(** [analyze_resume(pdf_bytes, filename)]: what it returns or raises, and
    the methods it has called. *)
Definition analyze_resume (pdf_bytes : bytes) (filename : pystr)
  : result analysis_report * list string :=
  let '(r, fr) :=
    analyze_body pdf_bytes filename (enter ["self"; "pdf_bytes"; "filename"]) in
  (r, calls fr).

End Analysis.

(** ** Suggestions, questions and score of the basic analyzer *)

(** The double quote, for the texts that hold one. *)
Definition dq : string := String (Ascii.ascii_of_nat 34) EmptyString.

(** An entry of the list [generate_improvement_suggestions] returns. *)
Record improvement := {
  sg_category : string;
  sg_suggestion : string;
  sg_priority : string
}.

(** The last candidate, which is always appended. *)
Definition ats_suggestion : improvement :=
  {| sg_category := "format";
     sg_suggestion := "Optimize your resume for ATS (Applicant Tracking Systems) by using standard section headers and keywords from job descriptions.";
     sg_priority := "low" |}.

(** An entry of the list [generate_interview_questions] returns. *)
Record interview_question := {
  q_question : pystr;
  q_category : string;
  q_difficulty : string
}.

Definition quality_indicators : list string :=
  [ "achieved"; "improved"; "led"; "managed"; "developed"; "implemented";
    "designed"; "optimized"; "increased"; "reduced"; "created" ].

Section Advice.
Context {U : Unicode}.

(** [any(word in text.lower() for word in words)] *)
Definition any_word (words : list string) (text : pystr) : bool :=
  existsb (fun word => contains (py word) (str_lower text)) words.

(** The suggestions in the order the source appends them. *)
Definition suggestion_candidates (text : pystr) (sk : skills)
  : list improvement :=
  (* Skills suggestions *)
  (if List.length (technical sk) <? 5
   then [ {| sg_category := "skills";
             sg_suggestion := "Add more technical skills to strengthen your profile. Consider learning cloud technologies like AWS or containerization with Docker.";
             sg_priority := "high" |} ]
   else [])
  (* Experience presentation *)
  ++ (if any_word ["improved"; "increased"; "reduced"; "achieved"; "led"] text
      then []
      else [ {| sg_category := "experience";
                sg_suggestion :=
                  String.append "Include quantifiable achievements with specific metrics (e.g., "
                  (String.append dq (String.append "Improved performance by 30%"
                  (String.append dq (String.append ", "
                  (String.append dq (String.append "Led team of 5 developers"
                  (String.append dq ").")))))));
                sg_priority := "high" |} ])
  (* Education and certifications *)
  ++ (if any_word ["bachelor"; "master"; "degree"; "certification"; "certified"] text
      then []
      else [ {| sg_category := "format";
                sg_suggestion := "Consider adding your educational background and relevant certifications to strengthen your profile.";
                sg_priority := "medium" |} ])
  (* Portfolio and projects *)
  ++ (if any_word ["github"; "portfolio"; "project"; "repository"] text
      then []
      else [ {| sg_category := "format";
                sg_suggestion := "Include links to your GitHub profile, portfolio, or notable projects to showcase your work.";
                sg_priority := "medium" |} ])
  (* ATS optimization *)
  ++ [ats_suggestion].

(** [generate_improvement_suggestions(text, skills)] *)
Definition generate_improvement_suggestions (text : pystr) (sk : skills)
  : list improvement :=
  firstn 5 (suggestion_candidates text sk).

(** The seven questions every candidate is asked. *)
Definition standard_questions (experience_level : level)
  : list interview_question :=
  [ {| q_question := py "Describe the difference between synchronous and asynchronous programming.";
       q_category := "technical"; q_difficulty := "medium" |};
    {| q_question := py "How would you optimize a slow-performing application?";
       q_category := "technical";
       q_difficulty :=
         match experience_level with senior => "hard" | _ => "medium" end |};
    {| q_question := py "Tell me about a challenging project you worked on and how you overcame obstacles.";
       q_category := "behavioral"; q_difficulty := "medium" |};
    {| q_question := py "Describe a time when you had to learn a new technology quickly.";
       q_category := "behavioral"; q_difficulty := "easy" |};
    {| q_question := py "How do you handle conflicts within your development team?";
       q_category := "behavioral"; q_difficulty := "medium" |};
    {| q_question := py "How would you approach debugging a production issue affecting users?";
       q_category := "situational"; q_difficulty := "medium" |};
    {| q_question := py "What would you do if you disagreed with a technical decision made by your team lead?";
       q_category := "situational"; q_difficulty := "medium" |} ].

(** [generate_interview_questions(skills, experience_level)] *)
Definition generate_interview_questions (sk : skills)
    (experience_level : level) : list interview_question :=
  firstn 8
    ((match technical sk with
      | primary_skill :: _ =>
          [ {| q_question :=
                 py "Explain your experience with " ++ primary_skill
                 ++ py " and how you've used it in projects.";
               q_category := "technical"; q_difficulty := "medium" |} ]
      | [] => []
      end)
     ++ standard_questions experience_level).

(** [calculate_overall_score(skills, experience_level, text)].  The
    product [total_skills * 1.5] is a Python float, here an exact
    rational: the skill lists hold whole numbers of entries, so every
    value of the computation is a multiple of one half, which binary64
    represents exactly. *)
Definition calculate_overall_score (sk : skills) (experience_level : level)
    (text : pystr) : Q :=
  let score := 70%Q in
  (* Skills diversity bonus *)
  let total_skills :=
    List.length (technical sk) + List.length (soft sk)
    + List.length (industry sk) in
  let score :=
    (score + Qmin (inject_Z (Z.of_nat total_skills) * (3 # 2)) 25)%Q in
  (* Experience level bonus *)
  let score :=
    match experience_level with
    | senior => (score + 15)%Q
    | mid => (score + 10)%Q
    | junior => score
    end in
  (* Content quality indicators *)
  let quality_score :=
    List.length
      (filter (fun indicator => contains (py indicator) (str_lower text))
              quality_indicators) in
  let score :=
    (score + inject_Z (Z.min (Z.of_nat quality_score * 2) 15))%Q in
  Qmin (Qmax score 0) 100.

End Advice.

End Basic.

(* ================================================================= *)
(** * The real-time analyzer ([realtime_resume_analyzer.py]): extraction *)
(* ================================================================= *)

Module Realtime.

Local Open Scope eff_scope.

(** [extraction_info], without the wall-clock [extraction_time]. *)
Record extraction_info := {
  method : string;
  success : bool;
  text_length : nat;
  info_page_count : nat
}.

(** The variables of [extract_text_realtime] and the warnings and errors it
    logs. *)
Record xstate := {
  x_text : pystr;
  x_info : extraction_info;
  x_log : list pystr
}.

Definition xstate_init : xstate :=
  {| x_text := [];
     x_info := {| method := "unknown"; success := false; text_length := 0;
                  info_page_count := 0 |};
     x_log := [] |}.

Definition set_page_count (n : nat) : M xstate unit :=
  modify (fun s =>
    {| x_text := x_text s;
       x_info := {| method := method (x_info s);
                    success := success (x_info s);
                    text_length := text_length (x_info s);
                    info_page_count := n |};
       x_log := x_log s |}).

Definition set_text (t : pystr) : M xstate unit :=
  modify (fun s => {| x_text := t; x_info := x_info s; x_log := x_log s |}).

Definition append_text (t : pystr) : M xstate unit :=
  modify (fun s =>
    {| x_text := x_text s ++ t; x_info := x_info s; x_log := x_log s |}).

(** [extraction_info['method'] = m], [['success'] = True] and
    [['text_length'] = len(text)] *)
Definition set_success (m : string) : M xstate unit :=
  modify (fun s =>
    {| x_text := x_text s;
       x_info := {| method := m; success := true;
                    text_length := List.length (x_text s);
                    info_page_count := info_page_count (x_info s) |};
       x_log := x_log s |}).

(** [logger.warning(msg)] or [logger.error(msg)] *)
Definition log (msg : pystr) : M xstate unit :=
  modify (fun s =>
    {| x_text := x_text s; x_info := x_info s; x_log := x_log s ++ [msg] |}).

Definition get_text : M xstate pystr := s <- get ;; ret (x_text s).

Section Extraction.
Context {U : Unicode} {L : PdfLibs}.

(** PyMuPDF first *)
Definition pymupdf_block (pdf_bytes : bytes) : M xstate bool :=
  pdf_document <- call (fitz_open pdf_bytes) ;;
  set_page_count (List.length (fitz_pages pdf_document)) ;;
  set_text [] ;;
  for_each (fitz_pages pdf_document)
    (fun page =>
       page_text <- call page ;;
       match strip page_text with
       | [] => ret tt
       | _ => append_text (page_text ++ [LF])
       end) ;;
  call (fitz_close pdf_document) ;;
  text <- get_text ;;
  if 100 <? List.length (strip text)
  then set_success "pymupdf" ;; ret true
  else ret false.

(** Fallback to pdfplumber *)
Definition pdfplumber_block (pdf_bytes : bytes) : M xstate bool :=
  pages <- call (pdfplumber_open pdf_bytes) ;;
  set_page_count (List.length pages) ;;
  set_text [] ;;
  for_each pages
    (fun page =>
       page_text <- call (plumber_extract_text page) ;;
       match page_text with
       | Some (c :: t) => append_text ((c :: t) ++ [LF])
       | _ => ret tt
       end) ;;
  text <- get_text ;;
  if 100 <? List.length (strip text)
  then set_success "pdfplumber" ;; ret true
  else ret false.

(** Final fallback to PyPDF2: it returns whatever text it has. *)
Definition pypdf2_block (pdf_bytes : bytes) : M xstate bool :=
  pages <- call (PdfReader pdf_bytes) ;;
  set_page_count (List.length pages) ;;
  set_text [] ;;
  for_each pages
    (fun page =>
       page_text <- call page ;;
       match page_text with
       | [] => ret tt
       | _ => append_text (page_text ++ [LF])
       end) ;;
  set_success "pypdf2" ;; ret true.

Definition log_failure (prefix : string) (e : exn) : M xstate bool :=
  log (py prefix ++ exn_str e) ;; ret false.

Definition extract_body (pdf_bytes : bytes) : M xstate pystr :=
  returned <- try_except (pymupdf_block pdf_bytes)
                (log_failure "PyMuPDF failed: ") ;;
  if returned then get_text else
  returned <- try_except (pdfplumber_block pdf_bytes)
                (log_failure "pdfplumber failed: ") ;;
  if returned then get_text else
  returned <- try_except (pypdf2_block pdf_bytes)
                (log_failure "All extraction methods failed: ") ;;
  if returned then get_text else
  ret [].

(** [extract_text_realtime(pdf_bytes)], with the log it leaves. *)
Definition extract_text_realtime (pdf_bytes : bytes)
  : result (pystr * extraction_info) * list pystr :=
  match extract_body pdf_bytes xstate_init with
  | (Ok text, s) => (Ok (text, x_info s), x_log s)
  | (Raised e, s) => (Raised e, x_log s)
  end.

End Extraction.

(** ** Skill extraction *)

(** [self.skill_patterns] *)
Definition skill_patterns : sdict (sdict (list string)) :=
  [ ("programming_languages",
     [ ("python", ["\bpython\b"; "\bpy\b"; "\bdjango\b"; "\bflask\b"; "\bfastapi\b"]);
       ("javascript", ["\bjavascript\b"; "\bjs\b"; "\bnode\.?js\b"; "\breact\b"; "\bvue\b"; "\bangular\b"]);
       ("java", ["\bjava\b"; "\bspring\b"; "\bhibernate\b"]);
       ("typescript", ["\btypescript\b"; "\bts\b"]);
       ("c++", ["\bc\+\+\b"; "\bcpp\b"]);
       ("c#", ["\bc#\b"; "\bcsharp\b"; "\b\.net\b"]);
       ("php", ["\bphp\b"; "\blaravel\b"; "\bsymfony\b"]);
       ("go", ["\bgolang\b"; "\bgo\s+lang\b"]);
       ("rust", ["\brust\b"]);
       ("swift", ["\bswift\b"]);
       ("kotlin", ["\bkotlin\b"]);
       ("sql", ["\bsql\b"; "\bmysql\b"; "\bpostgresql\b"; "\bsqlite\b"]) ]);
    ("frameworks",
     [ ("react", ["\breact\b"; "\breactjs\b"; "\breact\.js\b"]);
       ("angular", ["\bangular\b"; "\bangularjs\b"]);
       ("vue", ["\bvue\b"; "\bvuejs\b"; "\bvue\.js\b"]);
       ("express", ["\bexpress\b"; "\bexpress\.js\b"]);
       ("django", ["\bdjango\b"]);
       ("flask", ["\bflask\b"]);
       ("spring", ["\bspring\b"; "\bspring\s+boot\b"]);
       ("laravel", ["\blaravel\b"]);
       ("rails", ["\brails\b"; "\bruby\s+on\s+rails\b"]) ]);
    ("databases",
     [ ("mysql", ["\bmysql\b"]);
       ("postgresql", ["\bpostgresql\b"; "\bpostgres\b"]);
       ("mongodb", ["\bmongodb\b"; "\bmongo\b"]);
       ("redis", ["\bredis\b"]);
       ("elasticsearch", ["\belasticsearch\b"; "\belastic\b"]);
       ("oracle", ["\boracle\b"]);
       ("sqlite", ["\bsqlite\b"]) ]);
    ("cloud_platforms",
     [ ("aws", ["\baws\b"; "\bamazon\s+web\s+services\b"; "\bec2\b"; "\bs3\b"; "\blambda\b"]);
       ("azure", ["\bazure\b"; "\bmicrosoft\s+azure\b"]);
       ("gcp", ["\bgcp\b"; "\bgoogle\s+cloud\b"; "\bapp\s+engine\b"]);
       ("heroku", ["\bheroku\b"]);
       ("vercel", ["\bvercel\b"]);
       ("netlify", ["\bnetlify\b"]) ]);
    ("devops",
     [ ("docker", ["\bdocker\b"]);
       ("kubernetes", ["\bkubernetes\b"; "\bk8s\b"]);
       ("jenkins", ["\bjenkins\b"]);
       ("git", ["\bgit\b"; "\bgithub\b"; "\bgitlab\b"]);
       ("terraform", ["\bterraform\b"]);
       ("ansible", ["\bansible\b"]);
       ("ci/cd", ["\bci/cd\b"; "\bcontinuous\s+integration\b"; "\bcontinuous\s+deployment\b"]) ]);
    ("tools",
     [ ("vscode", ["\bvscode\b"; "\bvisual\s+studio\s+code\b"]);
       ("intellij", ["\bintellij\b"]);
       ("jira", ["\bjira\b"]);
       ("confluence", ["\bconfluence\b"]);
       ("slack", ["\bslack\b"]);
       ("figma", ["\bfigma\b"]);
       ("photoshop", ["\bphotoshop\b"]);
       ("sketch", ["\bsketch\b"]) ]) ].

(** [self.experience_indicators] *)
Definition senior_indicators : list string :=
  [ "\bsenior\b"; "\blead\b"; "\bprincipal\b"; "\barchitect\b";
    "\bmanager\b"; "\bdirector\b"; "\bhead\s+of\b"; "\bcto\b";
    "\bteam\s+lead\b"; "\btechnical\s+lead\b"; "\bstaff\s+engineer\b" ].

Definition mid_indicators : list string :=
  [ "\bmid-level\b"; "\bintermediate\b"; "\bsoftware\s+engineer\s+ii\b";
    "\bassociate\b"; "\bspecialist\b" ].

Definition years_indicators : list string :=
  [ "(\d+)\+?\s*years?\s*(?:of\s*)?(?:experience|exp)";
    "(\d+)\+?\s*yrs?\s*(?:of\s*)?(?:experience|exp)";
    "over\s*(\d+)\s*years?";
    "more\s*than\s*(\d+)\s*years?" ].

(** [skills_found]: the lists of the six categories, then the counters
    and dictionaries. *)
Record skills_found := {
  by_category : sdict (list pystr);
  total_count : nat;
  confidence_scores : dict Z;
  skill_contexts : dict (list pystr)
}.

(** [skills[category]] *)
Definition skills_of (s : skills_found) (category : string) : list pystr :=
  match sdict_get (by_category s) category with
  | Some l => l
  | None => []
  end.

(** [min(total_matches * 15 + 60, 95)] *)
Definition match_confidence (total_matches : nat) : Z :=
  Z.min (Z.of_nat total_matches * 15 + 60) 95.

Section Skills.
Context {U : Unicode}.

(** [format_skill_name(skill)] *)
Definition special_cases : dict pystr :=
  map (fun p : string * string => (py (fst p), py (snd p)))
  [ ("javascript", "JavaScript"); ("typescript", "TypeScript");
    ("nodejs", "Node.js"); ("reactjs", "React.js"); ("vuejs", "Vue.js");
    ("mysql", "MySQL"); ("postgresql", "PostgreSQL"); ("mongodb", "MongoDB");
    ("aws", "AWS"); ("gcp", "Google Cloud Platform"); ("html", "HTML");
    ("css", "CSS"); ("sql", "SQL"); ("ci/cd", "CI/CD") ].

Definition format_skill_name (skill : pystr) : pystr :=
  match dict_get special_cases (str_lower skill) with
  | Some name => name
  | None => title skill
  end.

(** [list(re.finditer(pattern, text_lower, re.IGNORECASE))] *)
Definition pattern_matches (text_lower : pystr) (pattern : string)
  : list (nat * nat * Re.caps) :=
  Re.finditer true (Re.compile pattern) text_lower.

(** [total_matches] of a skill: the matches of all its patterns. *)
Definition total_matches (text_lower : pystr) (patterns : list string) : nat :=
  list_sum (map (fun p => List.length (pattern_matches text_lower p)) patterns).

(** The contexts of a skill: for each pattern, around its first two
    matches, [text[max(0, start - 30):min(len(text), end + 30)].strip()]. *)
Definition match_context (text : pystr) (m : nat * nat * Re.caps) : pystr :=
  let '(start, stop, _) := m in
  strip (slice text (start - 30) (Nat.min (List.length text) (stop + 30))).

Definition skill_contexts_of (text text_lower : pystr)
    (patterns : list string) : list pystr :=
  flat_map (fun p => map (match_context text)
                         (firstn 2 (pattern_matches text_lower p)))
           patterns.

(** What the loop over the skills of a category updates. *)
Record skill_state := {
  category_skills : list pystr;
  st_confidence : dict Z;
  st_contexts : dict (list pystr)
}.

(** The body of [for skill_name, patterns in skills.items()]. *)
Definition scan_skill (text text_lower : pystr) (st : skill_state)
    (skill : string * list string) : skill_state :=
  let '(skill_name, patterns) := skill in
  let n := total_matches text_lower patterns in
  (* [skill_found] is set exactly when some pattern has a match *)
  if n =? 0 then st
  else
    let formatted_skill := format_skill_name (py skill_name) in
    {| category_skills := category_skills st ++ [formatted_skill];
       st_confidence :=
         dict_set (st_confidence st) formatted_skill (match_confidence n);
       st_contexts :=
         dict_set (st_contexts st) formatted_skill
                  (skill_contexts_of text text_lower patterns) |}.

(** The body of [for category, skills in self.skill_patterns.items()]. *)
Definition scan_category (text text_lower : pystr)
    (acc : sdict (list pystr) * skill_state)
    (cat : string * sdict (list string)) : sdict (list pystr) * skill_state :=
  let '(found, st) := acc in
  let st0 := {| category_skills := [];
                st_confidence := st_confidence st;
                st_contexts := st_contexts st |} in
  let st' := fold_left (scan_skill text text_lower) (snd cat) st0 in
  (found ++ [(fst cat, category_skills st')], st').

(** [extract_skills_realtime(text)] *)
Definition extract_skills_realtime (text : pystr) : skills_found :=
  let text_lower := str_lower text in
  let '(found, st) :=
    fold_left (scan_category text text_lower) skill_patterns
              ([], {| category_skills := []; st_confidence := [];
                      st_contexts := [] |}) in
  {| by_category := found;
     total_count := list_sum (map (fun c => List.length (snd c)) found);
     confidence_scores := st_confidence st;
     skill_contexts := st_contexts st |}.

End Skills.

(** ** Experience *)

Inductive level := junior | mid | senior.

(** [experience_analysis] *)
Record experience_analysis := {
  exp_level : level;
  confidence : Z;
  years_found : list Z;
  indicators : list pystr;
  leadership_score : nat;
  technical_depth : nat
}.

Definition leadership_patterns : list string :=
  [ "led\s+(?:a\s+)?team"; "managed\s+\d+"; "mentored"; "supervised";
    "coordinated" ].

(** [max(l) if l else 0] *)
Definition max_or_zero (l : list Z) : Z :=
  match l with
  | [] => 0%Z
  | x :: t => fold_left Z.max t x
  end.

Section Experience.
Context {U : Unicode}.

(** The patterns of a list that [re.search] finds in the text. *)
Definition found_patterns (patterns : list string) (text_lower : pystr)
  : list string :=
  filter (fun p => Re.search false (Re.compile p) text_lower) patterns.

(** [analyze_experience_realtime(text, skills_count)] *)
Definition analyze_experience_realtime (text : pystr) (skills_count : nat)
  : experience_analysis :=
  let text_lower := str_lower text in
  let years_found :=
    flat_map
      (fun p =>
         flat_map (fun m => match int_of_str m with
                            | Some years =>
                                if (0 <? years)%Z && (years <=? 50)%Z
                                then [years] else []
                            | None => []
                            end)
                  (Re.findall false (Re.compile p) text_lower))
      years_indicators in
  let senior_found := found_patterns senior_indicators text_lower in
  let mid_found := found_patterns mid_indicators text_lower in
  let senior_count := List.length senior_found in
  let mid_count := List.length mid_found in
  let indicators :=
    map (fun p => py "Senior keyword: " ++ py p) senior_found
    ++ map (fun p => py "Mid-level keyword: " ++ py p) mid_found in
  let leadership_score :=
    List.length (found_patterns leadership_patterns text_lower) in
  let max_years := max_or_zero years_found in
  let '(lvl, conf) :=
    if (8 <=? max_years)%Z || (2 <=? senior_count) then (senior, 85%Z)
    else if (3 <=? max_years)%Z || (1 <=? mid_count) || (10 <=? skills_count)
    then (mid, 75%Z)
    else (junior, 65%Z) in
  let conf := if 0 <? leadership_score then (conf + 10)%Z else conf in
  let conf := if 15 <? skills_count then (conf + 5)%Z else conf in
  {| exp_level := lvl;
     confidence := Z.min conf 95;
     years_found := years_found;
     indicators := indicators;
     leadership_score := leadership_score;
     technical_depth := skills_count |}.

End Experience.

(** ** Scoring *)

(** [score_breakdown] of [calculate_resume_score_realtime] *)
Record score_breakdown := {
  technical_skills : Z;
  experience : Z;
  content_quality : Z;
  completeness : Z;
  total_score : Z;
  grade : string;
  feedback : list string
}.

(** The grade of a total: the [if]/[elif] ladder of
    [calculate_resume_score_realtime]. *)
Definition assign_grade (total : Z) : string :=
  if (90 <=? total)%Z then "A+"
  else if (85 <=? total)%Z then "A"
  else if (80 <=? total)%Z then "A-"
  else if (75 <=? total)%Z then "B+"
  else if (70 <=? total)%Z then "B"
  else if (65 <=? total)%Z then "B-"
  else if (60 <=? total)%Z then "C+"
  else "C".

Definition action_verbs : list string :=
  ["developed"; "implemented"; "designed"; "led"; "managed"; "created"; "built"].

Section Scoring.
Context {U : Unicode}.

(** [calculate_resume_score_realtime(text, skills, experience)] *)
Definition calculate_resume_score_realtime (text : pystr)
    (skills : skills_found) (experience : experience_analysis)
  : score_breakdown :=
  let text_lower := str_lower text in
  let found (p : string) := Re.search false (Re.compile p) text_lower in
  (* Technical Skills (40 points) *)
  let skills_score := Z.min (Z.of_nat (total_count skills) * 3) 40 in
  let feedback :=
    if (30 <=? skills_score)%Z then ["Excellent technical skill diversity"]
    else if (20 <=? skills_score)%Z then ["Good technical skills"]
    else ["Consider adding more technical skills"] in
  (* Experience (30 points) *)
  let exp_score := 15%Z in
  let exp_score :=
    match exp_level experience with
    | senior => (exp_score + 15)%Z
    | mid => (exp_score + 10)%Z
    | junior => (exp_score + 5)%Z
    end in
  let exp_score :=
    if 0 <? leadership_score experience then (exp_score + 5)%Z
    else exp_score in
  let experience_score := Z.min exp_score 30 in
  (* Content Quality (20 points) *)
  let content_score := 10%Z in
  let '(content_score, feedback) :=
    if found "\d+%|\d+\s*years?|\$\d+|increased|improved|reduced"
    then ((content_score + 5)%Z,
          feedback ++ ["Good use of quantifiable achievements"])
    else (content_score, feedback) in
  let content_score :=
    if existsb (fun verb => contains (py verb) text_lower) action_verbs
    then (content_score + 5)%Z else content_score in
  (* Completeness (10 points) *)
  let completeness_score := 0%Z in
  let completeness_score :=
    if found "email|@|phone|\d{3}[-\.\s]?\d{3}[-\.\s]?\d{4}"
    then (completeness_score + 3)%Z else completeness_score in
  let completeness_score :=
    if found "education|degree|university|college|bachelor|master"
    then (completeness_score + 3)%Z else completeness_score in
  let completeness_score :=
    if found "experience|employment|work|position"
    then (completeness_score + 4)%Z else completeness_score in
  (* Calculate total *)
  let total :=
    (skills_score + experience_score + content_score + completeness_score)%Z in
  {| technical_skills := skills_score;
     experience := experience_score;
     content_quality := content_score;
     completeness := completeness_score;
     total_score := total;
     grade := assign_grade total;
     feedback := feedback |}.

End Scoring.

(** ** Text cleaning *)

Section Cleaning.
Context {U : Unicode}.

(** The set of characters [clean_text_fast] keeps; its last member is the
    double quote. *)
Definition kept_characters : Re.regex :=
  Re.compile_str
    (py "[^\w\s\.\,\-\@$$$$\[\]\{\}\/\\\:\;\!\?\$\%\&\*\+\=\<\>\|\~\`\'\"
     ++ [34%N] ++ py "]").

(** [clean_text_fast(text)] *)
Definition clean_text_fast (text : pystr) : pystr :=
  let text := Re.sub false (Re.compile "\s+") (py " ") text in
  let text := Re.sub false kept_characters (py " ") text in
  let text := Re.sub true (Re.compile "page\s+\d+") [] text in
  strip (Re.sub false (Re.compile "\s+") (py " ") text).

End Cleaning.

(** ** Job matches *)

(** An entry of [generate_job_matches_realtime]. *)
Record job_match := {
  job_title : pystr;
  match_percentage : Z;
  salary_range : string;
  job_category : pystr;
  remote_friendly : bool;
  market_demand : string;
  required_skills : list string;
  growth_potential : string
}.

(** [role.replace('_', ' ').title()] *)
Definition role_display (role : string) : pystr :=
  title (replace_chr (ch "_") (py " ") (py role)).

(** [format_job_title(role, experience_level)] *)
Definition format_job_title (role : string) (experience_level : level)
  : pystr :=
  let pick (j m s : string) :=
    py (match experience_level with junior => j | mid => m | senior => s end) in
  if String.eqb role "software_engineer"
  then pick "Junior Software Engineer" "Software Engineer" "Senior Software Engineer"
  else if String.eqb role "frontend_developer"
  then pick "Junior Frontend Developer" "Frontend Developer" "Senior Frontend Developer"
  else if String.eqb role "backend_developer"
  then pick "Junior Backend Developer" "Backend Developer" "Senior Backend Developer"
  else if String.eqb role "fullstack_developer"
  then pick "Junior Full-Stack Developer" "Full-Stack Developer" "Senior Full-Stack Developer"
  else if String.eqb role "devops_engineer"
  then pick "DevOps Engineer" "DevOps Engineer" "Senior DevOps Engineer"
  else if String.eqb role "data_scientist"
  then pick "Junior Data Scientist" "Data Scientist" "Senior Data Scientist"
  else role_display role.

(** [get_role_required_skills(role)] *)
Definition get_role_required_skills (role : string) : list string :=
  if String.eqb role "software_engineer"
  then ["Programming"; "Problem Solving"; "Version Control"]
  else if String.eqb role "frontend_developer"
  then ["JavaScript"; "HTML/CSS"; "React/Angular/Vue"]
  else if String.eqb role "backend_developer"
  then ["Server-side Programming"; "Databases"; "APIs"]
  else if String.eqb role "fullstack_developer"
  then ["Frontend Frameworks"; "Backend Development"; "Databases"]
  else if String.eqb role "devops_engineer"
  then ["CI/CD"; "Cloud Platforms"; "Containerization"]
  else if String.eqb role "data_scientist"
  then ["Python/R"; "Statistics"; "Machine Learning"]
  else ["Programming"; "Problem Solving"].

(** [f"${salary['min']:,} - ${salary['max']:,}"] *)
Definition salary_text (experience_level : level) : string :=
  match experience_level with
  | junior => "$60,000 - $90,000"
  | mid => "$90,000 - $130,000"
  | senior => "$130,000 - $180,000"
  end.

Section JobMatches.
Context {U : Unicode}.

(** [sum(1 for skill in l if any(k in skill.lower() for k in keywords))] *)
Definition count_mentions (keywords : list string) (l : list pystr) : nat :=
  List.length
    (filter (fun skill =>
               existsb (fun k => contains (py k) (str_lower skill)) keywords)
            l).

(** [role_scores], in insertion order. *)
Definition role_scores (skills : skills_found) : sdict Z :=
  let langs := skills_of skills "programming_languages" in
  let fw_langs := skills_of skills "frameworks" ++ langs in
  let frontend_count :=
    count_mentions ["react"; "angular"; "vue"; "javascript"; "typescript"] fw_langs in
  let backend_count :=
    count_mentions ["python"; "java"; "node.js"; "express"; "django"; "spring"] fw_langs in
  let data_count := count_mentions ["python"; "r"; "sql"] langs in
  let n_devops := List.length (skills_of skills "devops") in
  let n_cloud := List.length (skills_of skills "cloud_platforms") in
  (match langs with
   | [] => []
   | _ => [("software_engineer", (Z.of_nat (List.length langs) * 10)%Z)]
   end)
  ++ (if 0 <? frontend_count
      then [("frontend_developer", (Z.of_nat frontend_count * 15)%Z)] else [])
  ++ (if 0 <? backend_count
      then [("backend_developer", (Z.of_nat backend_count * 15)%Z)] else [])
  ++ (if (0 <? frontend_count) && (0 <? backend_count)
      then [("fullstack_developer",
             (Z.of_nat (frontend_count + backend_count) * 12)%Z)] else [])
  ++ (if (0 <? n_devops) || (0 <? n_cloud)
      then [("devops_engineer", (Z.of_nat (n_devops + n_cloud) * 20)%Z)] else [])
  ++ (if 0 <? data_count
      then [("data_scientist", (Z.of_nat data_count * 18)%Z)] else []).

(** [generate_job_matches_realtime(skills, experience)] *)
Definition generate_job_matches_realtime (skills : skills_found)
    (experience : experience_analysis) : list job_match :=
  let experience_level := exp_level experience in
  map (fun rs : string * Z =>
         let '(role, score) := rs in
         let match_percentage := Z.min (score + 40) 95 in
         {| job_title := format_job_title role experience_level;
            match_percentage := match_percentage;
            salary_range := salary_text experience_level;
            job_category := role_display role;
            remote_friendly := true;
            market_demand :=
              if (80 <? match_percentage)%Z then "High" else "Medium";
            required_skills := get_role_required_skills role;
            growth_potential := "High" |})
      (firstn 5 (sort_desc Z.ltb snd (role_scores skills))).

End JobMatches.

(** ** Suggestions *)

Record suggestion := {
  sg_category : string;
  sg_suggestion : string;
  sg_priority : string;
  sg_impact : string
}.

(** [generate_improvement_suggestions_realtime(skills, experience, score)] *)
Definition generate_improvement_suggestions_realtime (skills : skills_found)
    (experience : experience_analysis) (score : score_breakdown)
  : list suggestion :=
  firstn 5
    ((if total_count skills <? 8
      then [ {| sg_category := "Technical Skills";
                sg_suggestion := "Add more technical skills to increase your marketability";
                sg_priority := "High";
                sg_impact := "Significantly increases job opportunities" |} ]
      else [])
     ++ (match skills_of skills "cloud_platforms" with
         | [] => [ {| sg_category := "Cloud Skills";
                      sg_suggestion := "Learn cloud platforms like AWS, Azure, or Google Cloud";
                      sg_priority := "High";
                      sg_impact := "Cloud skills are in high demand" |} ]
         | _ => []
         end)
     ++ (match skills_of skills "devops" with
         | [] => [ {| sg_category := "DevOps";
                      sg_suggestion := "Gain experience with Docker, CI/CD, or version control";
                      sg_priority := "Medium";
                      sg_impact := "Essential for modern development workflows" |} ]
         | _ => []
         end)
     ++ (match exp_level experience, leadership_score experience with
         | junior, O =>
             [ {| sg_category := "Leadership";
                  sg_suggestion := "Highlight any mentoring, training, or project leadership experience";
                  sg_priority := "Medium";
                  sg_impact := "Shows growth potential and soft skills" |} ]
         | _, _ => []
         end)
     ++ (if (content_quality score <? 15)%Z
         then [ {| sg_category := "Content";
                   sg_suggestion := "Add quantifiable achievements with specific metrics and results";
                   sg_priority := "High";
                   sg_impact := "Makes your resume more compelling to recruiters" |} ]
         else [])).

(** ** The analysis *)

(** The successful result of [analyze_resume_realtime], without its
    wall-clock [analysis_time].  The entry ['score_breakdown'] has no field:
    the source gives it the value of a name that is bound nowhere. *)
Record analysis_report := {
  r_extraction_info : extraction_info;
  r_overall_score : Z;
  r_grade : string;
  r_experience_level : level;
  r_experience_confidence : Z;
  r_skills : skills_found;
  r_job_recommendations : list job_match;
  r_improvement_suggestions : list suggestion;
  r_feedback : list string;
  r_text_length : nat;
  r_cleaned_text_length : nat;
  r_filename : pystr
}.

(** What [analyze_resume_realtime] returns: the report with
    ['success': True], or ['success': False] with the error. *)
Inductive analysis_result :=
| Completed (report : analysis_report)
| Failed (error : pystr).

(** The names [analyze_resume_realtime] assigns and the names bound in its
    module (imports, definitions, and the variables of the script part). *)
Definition analyze_code : code :=
  {| co_locals :=
       [ "self"; "pdf_bytes"; "filename"; "start_time"; "extracted_text";
         "extraction_info"; "cleaned_text"; "skills_analysis";
         "experience_analysis"; "job_matches"; "score_analysis";
         "suggestions"; "analysis_time"; "result"; "e" ];
     co_globals :=
       [ "os"; "json"; "re"; "sys"; "traceback"; "Dict"; "List"; "Any";
         "Optional"; "Tuple"; "requests"; "BytesIO"; "logging"; "datetime";
         "hashlib"; "time"; "logger"; "PyPDF2"; "pdfplumber"; "fitz"; "nltk";
         "word_tokenize"; "sent_tokenize"; "stopwords"; "WordNetLemmatizer";
         "required_nltk_data"; "data"; "RealtimeResumeAnalyzer"; "analyzer";
         "sample_text"; "pdf_bytes"; "result"; "category"; "skills"; "i";
         "job"; "suggestion" ] |}.

Section Analysis.
Context {U : Unicode} {L : PdfLibs}.

Local Abbreviation C := analyze_code.

(** The [try] block of [analyze_resume_realtime]. *)
Definition analyze_block (pdf_bytes : bytes) (filename : pystr)
  : M frame analysis_report :=
  (* Extract text *)
  x <- call_stmt C ["extracted_text"; "extraction_info"]
         "extract_text_realtime" ["self"; "pdf_bytes"]
         (fst (extract_text_realtime pdf_bytes)) ;;
  let '(extracted_text, extraction_info) := x in
  for_each ["extraction_info"; "len"; "extracted_text"] (load C) ;;
  (if negb (success extraction_info)
      || (List.length (strip extracted_text) <? 50)
   then load C "ValueError" ;;
        raise (Exn "ValueError" (py "Could not extract meaningful text from PDF"))
   else ret tt) ;;
  (* Clean text *)
  cleaned_text <- call_stmt C ["cleaned_text"]
                    "clean_text_fast" ["self"; "extracted_text"]
                    (Ok (clean_text_fast extracted_text)) ;;
  (* Extract skills *)
  skills_analysis <- call_stmt C ["skills_analysis"]
                       "extract_skills_realtime" ["self"; "cleaned_text"]
                       (Ok (extract_skills_realtime cleaned_text)) ;;
  (* Analyze experience *)
  experience_analysis <-
    call_stmt C ["experience_analysis"]
      "analyze_experience_realtime" ["self"; "cleaned_text"; "skills_analysis"]
      (Ok (analyze_experience_realtime cleaned_text
             (total_count skills_analysis))) ;;
  (* Generate job matches *)
  job_matches <-
    call_stmt C ["job_matches"]
      "generate_job_matches_realtime"
      ["self"; "skills_analysis"; "experience_analysis"]
      (Ok (generate_job_matches_realtime skills_analysis experience_analysis)) ;;
  (* Calculate score *)
  score_analysis <-
    call_stmt C ["score_analysis"]
      "calculate_resume_score_realtime"
      ["self"; "cleaned_text"; "skills_analysis"; "experience_analysis"]
      (Ok (calculate_resume_score_realtime cleaned_text skills_analysis
             experience_analysis)) ;;
  (* Generate suggestions *)
  suggestions <-
    call_stmt C ["suggestions"]
      "generate_improvement_suggestions_realtime"
      ["self"; "skills_analysis"; "experience_analysis"; "score_analysis"]
      (Ok (generate_improvement_suggestions_realtime skills_analysis
             experience_analysis score_analysis)) ;;
  (* Calculate total analysis time *)
  assign_stmt C ["analysis_time"] ["time"; "start_time"] tt ;;
  (* Compile result: the entries of the dictionary, in order *)
  assign_stmt C ["result"]
    [ "round"; "analysis_time";                       (* 'analysis_time' *)
      "extraction_info";                              (* 'extraction_info' *)
      "score_analysis";                               (* 'overall_score' *)
      "score_analysis";                               (* 'grade' *)
      "experience_analysis";                          (* 'experience_level' *)
      "experience_analysis";                          (* 'experience_confidence' *)
      "skills_analysis"; "skills_analysis"; "skills_analysis";
      "skills_analysis"; "skills_analysis"; "skills_analysis";
      "skills_analysis"; "skills_analysis";           (* 'skills' *)
      "job_matches";                                  (* 'job_recommendations' *)
      "suggestions";                                  (* 'improvement_suggestions' *)
      "score_breakdown";                              (* 'score_breakdown' *)
      "score_analysis";                               (* 'feedback' *)
      "len"; "extracted_text"; "len"; "cleaned_text";
      "filename" ]                                    (* 'extracted_data' *)
    {| r_extraction_info := extraction_info;
       r_overall_score := total_score score_analysis;
       r_grade := grade score_analysis;
       r_experience_level := exp_level experience_analysis;
       r_experience_confidence := confidence experience_analysis;
       r_skills := skills_analysis;
       r_job_recommendations := job_matches;
       r_improvement_suggestions := suggestions;
       r_feedback := feedback score_analysis;
       r_text_length := List.length extracted_text;
       r_cleaned_text_length := List.length cleaned_text;
       r_filename := filename |}.

(** The body of [analyze_resume_realtime]: the [try] block, and the
    handler that turns any exception into the failure result. *)
Definition analyze_body (pdf_bytes : bytes) (filename : pystr)
  : M frame analysis_result :=
  assign_stmt C ["start_time"] ["time"] tt ;;
  try_except
    (report <- analyze_block pdf_bytes filename ;;
     load C "result" ;;
     ret (Completed report))
    (fun e =>
       store "e" ;;
       for_each ["logger"; "str"; "e"; "str"; "e"; "time"; "start_time"] (load C) ;;
       ret (Failed (exn_str e))).

(** [analyze_resume_realtime(pdf_bytes, filename)]: what it returns or
    raises, and the methods it has called. *)
Definition analyze_resume_realtime (pdf_bytes : bytes) (filename : pystr)
  : result analysis_result * list string :=
  let '(r, fr) :=
    analyze_body pdf_bytes filename (enter ["self"; "pdf_bytes"; "filename"]) in
  (r, calls fr).

End Analysis.

End Realtime.

(* ================================================================= *)
(** * The statements of the specification *)
(* ================================================================= *)

(** The rules as the specification words them, to be compared with the
    analyzers. *)

Module Spec.

(** The grade ladder: the first threshold the total reaches, else [C-]. *)
Definition grade_ladder : list (Z * string) :=
  [ (90, "A+"); (85, "A"); (80, "A-"); (75, "B+"); (70, "B"); (65, "B-");
    (60, "C+"); (55, "C") ]%Z.

Fixpoint ladder_grade (ladder : list (Z * string)) (otherwise : string)
    (total : Z) : string :=
  match ladder with
  | [] => otherwise
  | (threshold, g) :: rest =>
      if (threshold <=? total)%Z then g else ladder_grade rest otherwise total
  end.

Definition grade_of (total : Z) : string := ladder_grade grade_ladder "C-" total.

(** The ladder of the real-time analyzer stops at [C+]; below it is [C]. *)
Definition realtime_grade_of (total : Z) : string :=
  ladder_grade (firstn 7 grade_ladder) "C" total.

(** [clamp lo hi x] *)
Definition clamp (lo hi x : Z) : Z := Z.max lo (Z.min x hi).

(** The decision rule of the Experience Classifier: level and base
    confidence. *)
Definition classify (max_years : Z) (senior_keyword mid_keyword : bool)
  : Advanced.level * Z :=
  if (8 <=? max_years)%Z || senior_keyword then (Advanced.senior, 70%Z)
  else if (3 <=? max_years)%Z || mid_keyword then (Advanced.mid, 60%Z)
  else (Advanced.junior, 50%Z).

(** The confidence adjustments and the clamp. *)
Definition adjusted_confidence (base : Z) (skill_count : nat)
    (leadership : bool) (categories : nat) : Z :=
  let depth : Z :=
    if 15 <? skill_count then 20%Z
    else if 8 <? skill_count then 10%Z else 0%Z in
  let lead : Z := if leadership then 15%Z else 0%Z in
  let breadth : Z := if 4 <=? categories then 10%Z else 0%Z in
  Z.min (base + depth + lead + breadth) 95.

(** [min(65 + (matched / total) * 30, 95)] *)
Definition match_formula (matched total : nat) : Q :=
  Qmin (65 + inject_Z (Z.of_nat matched) / inject_Z (Z.of_nat total) * 30)%Q 95%Q.

End Spec.

(* ================================================================= *)
(** * Invariants of the skill scans *)
(* ================================================================= *)

Module Inv.

Section AdvancedScan.
Context {U : Unicode}.
Import Advanced.

(** What is known of a recorded confidence: it comes from a keyword of the
    table, whose display name is the key, and from the number of matches of
    the first of the keyword's patterns that matches. *)
Definition recorded (keywords : list string) (text_lower : pystr)
    (e : pystr * Z) : Prop :=
  exists skill ms,
    In skill keywords /\
    first_matches (skill_patterns (py skill)) text_lower = Some ms /\
    1 <= List.length ms /\
    format_skill_name (py skill) = fst e /\
    snd e = match_confidence (List.length ms).

(** The invariant of the loops: no display name twice in [found_skills],
    one confidence per display name, every confidence accounted for. *)
Definition state_ok (keywords : list string) (text_lower : pystr)
    (st : skill_state) : Prop :=
  NoDup (found_skills st) /\
  NoDup (dict_keys (st_confidence st)) /\
  Forall (recorded keywords text_lower) (st_confidence st).

(** The slots of a category dictionary hold no display name twice. *)
Definition slots_ok (d : sdict (list pystr)) : Prop :=
  forall sub names, In (sub, names) d -> NoDup names /\ names <> [].

(** All the keywords of a table. *)
Definition keywords_of (db : sdict (sdict (list string))) : list string :=
  flat_map (fun c => flat_map snd (snd c)) db.

(** The slots of the technical skills hold no display name twice. *)
Definition technical_ok (ts : sdict (sdict (list pystr))) : Prop :=
  forall cat d, In (cat, d) ts -> slots_ok d.

End AdvancedScan.

Section RealtimeScan.
Context {U : Unicode}.
Import Realtime.

(** What is known of a confidence the real-time analyzer records: it comes
    from a skill of the table, whose display name is the key, and from the
    number of matches of all the patterns of the skill. *)
Definition rt_recorded (skills : sdict (list string)) (text_lower : pystr)
    (e : pystr * Z) : Prop :=
  exists skill_name patterns,
    In (skill_name, patterns) skills /\
    1 <= total_matches text_lower patterns /\
    format_skill_name (py skill_name) = fst e /\
    snd e = match_confidence (total_matches text_lower patterns).

(** All the skills of a table of patterns. *)
Definition rt_skills_of (db : sdict (sdict (list string)))
  : sdict (list string) :=
  flat_map snd db.

End RealtimeScan.

Section ExperienceText.
Context {U : Unicode}.

(** An integer that the text shows for one of the patterns: the group of a
    match of the pattern reads as this integer. *)
Definition observed (patterns : list string) (text_lower : pystr) (n : Z)
  : Prop :=
  exists pattern m,
    In pattern patterns /\
    In m (Re.findall false (Re.compile pattern) text_lower) /\
    int_of_str m = Some n.

End ExperienceText.

Section AdvancedExtraction.
Context {U : Unicode} {L : PdfLibs}.
Import Advanced.

(** What the strategies do with a page: the text the page adds, and the
    exception that ends the strategy at it. *)
Definition pymupdf_page (x : nat * result pystr) : pystr * option exn :=
  match snd x with
  | Ok page_text =>
      (match strip page_text with
       | [] => []
       | _ => page_block (fst x) page_text
       end, None)
  | Raised e => ([], Some e)
  end.

Definition table_text (page_num : nat) (x : nat * plumber_table) : pystr :=
  table_header (fst x) page_num
  ++ List.concat
       (map (fun row : option (list (option pystr)) =>
               match row with
               | Some (c :: r) => table_row (c :: r)
               | _ => []
               end)
            (snd x)).

Definition pdfplumber_page (x : nat * plumber_page) : pystr * option exn :=
  match plumber_extract_text (snd x) with
  | Raised e => ([], Some e)
  | Ok page_text =>
      let block :=
        match page_text with
        | Some (c :: t) => page_block (fst x) (c :: t)
        | _ => []
        end in
      match plumber_extract_tables (snd x) with
      | Raised e => (block, Some e)
      | Ok tables =>
          (block ++ List.concat (map (table_text (fst x)) (enumerate tables)),
           None)
      end
  end.

Definition pypdf2_page (x : nat * result pystr) : pystr * option exn :=
  match snd x with
  | Ok [] => ([], None)
  | Ok page_text => (page_block (fst x) page_text, None)
  | Raised e => ([], Some e)
  end.

(** The text each library strategy adds to [text], which the strategies
    share: the pages it has read before it ends. *)
Definition pymupdf_text (pdf_bytes : bytes) : pystr :=
  match fitz_open pdf_bytes with
  | Ok pdf_document => appended pymupdf_page (enumerate (fitz_pages pdf_document))
  | Raised _ => []
  end.

Definition pdfplumber_text (pdf_bytes : bytes) : pystr :=
  match pdfplumber_open pdf_bytes with
  | Ok pages => appended pdfplumber_page (enumerate pages)
  | Raised _ => []
  end.

Definition pypdf2_text (pdf_bytes : bytes) : pystr :=
  match PdfReader pdf_bytes with
  | Ok pages => appended pypdf2_page (enumerate pages)
  | Raised _ => []
  end.

(** What a library strategy of [extract_text_from_pdf], with its handler,
    does from any state: it does not raise; it enters its name [m]; it adds
    its text [own] to the text; it records the message of its failure
    [fail], if any; it returns from the function exactly when it has not
    failed and the stripped text is longer than [threshold], and then it
    has recorded the method and the quality [q]; otherwise it leaves the
    outcome as it was. *)
Definition strategy_ok (m q prefix : string) (fail : option exn)
    (own : pystr) (threshold : nat) (c : M xstate bool) : Prop :=
  forall s, exists returned s',
    c s = (Ok returned, s') /\
    methods_tried (x_meta s') = methods_tried (x_meta s) ++ [m] /\
    errors (x_meta s') = errors (x_meta s) ++ failure_message prefix fail /\
    x_text s' = x_text s ++ own /\
    returned = accepts fail threshold (x_text s ++ own) /\
    if returned : bool
    then successful_method (x_meta s') = Some m /\
         extraction_quality (x_meta s') = q
    else successful_method (x_meta s') = successful_method (x_meta s) /\
         extraction_quality (x_meta s') = extraction_quality (x_meta s).

(** The errors recorded when the first [k] strategies have run. *)
Definition errors_after (k : nat) (pdf_bytes : bytes) : list pystr :=
  List.concat (firstn k
    [ failure_message "PyMuPDF extraction failed: " (pymupdf_failure pdf_bytes);
      failure_message "pdfplumber extraction failed: "
        (pdfplumber_failure true pdf_bytes);
      failure_message "PyPDF2 extraction failed: " (pypdf2_failure pdf_bytes) ]).

(** The text when the first, the first two and the three library
    strategies have run. *)
Definition text_after_pymupdf (pdf_bytes : bytes) : pystr :=
  pymupdf_text pdf_bytes.
Definition text_after_pdfplumber (pdf_bytes : bytes) : pystr :=
  pymupdf_text pdf_bytes ++ pdfplumber_text pdf_bytes.
Definition text_after_pypdf2 (pdf_bytes : bytes) : pystr :=
  (pymupdf_text pdf_bytes ++ pdfplumber_text pdf_bytes)
  ++ pypdf2_text pdf_bytes.

(** Whether each strategy passes its own test. *)
Definition pymupdf_accepts (pdf_bytes : bytes) : bool :=
  accepts (pymupdf_failure pdf_bytes) 200 (text_after_pymupdf pdf_bytes).
Definition pdfplumber_accepts (pdf_bytes : bytes) : bool :=
  accepts (pdfplumber_failure true pdf_bytes) 200
          (text_after_pdfplumber pdf_bytes).
Definition pypdf2_accepts (pdf_bytes : bytes) : bool :=
  accepts (pypdf2_failure pdf_bytes) 100 (text_after_pypdf2 pdf_bytes).
Definition raw_bytes_accepts (pdf_bytes : bytes) : bool :=
  50 <? List.length (readable_words (raw_cleaned_text pdf_bytes)).

(** The five ways [extract_text_from_pdf] ends: at the first strategy that
    passes its test, or with no strategy that does. *)
Definition extraction_outcome (pdf_bytes : bytes) (text : pystr)
    (meta : extraction_metadata) : Prop :=
  (pymupdf_accepts pdf_bytes = true /\
   methods_tried meta = ["pymupdf"] /\
   successful_method meta = Some "pymupdf" /\
   extraction_quality meta = "excellent" /\
   errors meta = [] /\
   text = text_after_pymupdf pdf_bytes)
  \/
  (pymupdf_accepts pdf_bytes = false /\
   pdfplumber_accepts pdf_bytes = true /\
   methods_tried meta = ["pymupdf"; "pdfplumber"] /\
   successful_method meta = Some "pdfplumber" /\
   extraction_quality meta = "good" /\
   errors meta = errors_after 1 pdf_bytes /\
   text = text_after_pdfplumber pdf_bytes)
  \/
  (pymupdf_accepts pdf_bytes = false /\
   pdfplumber_accepts pdf_bytes = false /\
   pypdf2_accepts pdf_bytes = true /\
   methods_tried meta = ["pymupdf"; "pdfplumber"; "pypdf2"] /\
   successful_method meta = Some "pypdf2" /\
   extraction_quality meta = "basic" /\
   errors meta = errors_after 2 pdf_bytes /\
   text = text_after_pypdf2 pdf_bytes)
  \/
  (pymupdf_accepts pdf_bytes = false /\
   pdfplumber_accepts pdf_bytes = false /\
   pypdf2_accepts pdf_bytes = false /\
   raw_bytes_accepts pdf_bytes = true /\
   methods_tried meta = ["pymupdf"; "pdfplumber"; "pypdf2"; "raw_bytes"] /\
   successful_method meta = Some "raw_bytes" /\
   extraction_quality meta = "poor" /\
   errors meta = errors_after 3 pdf_bytes /\
   text = raw_cleaned_text pdf_bytes)
  \/
  (pymupdf_accepts pdf_bytes = false /\
   pdfplumber_accepts pdf_bytes = false /\
   pypdf2_accepts pdf_bytes = false /\
   raw_bytes_accepts pdf_bytes = false /\
   methods_tried meta = ["pymupdf"; "pdfplumber"; "pypdf2"; "raw_bytes"] /\
   successful_method meta = None /\
   extraction_quality meta = "failed" /\
   errors meta = errors_after 3 pdf_bytes /\
   text = []).

End AdvancedExtraction.

Section PlainExtraction.
Context {L : PdfLibs}.

(** What the strategies of the real-time and of the basic analyzer do with
    a page: they add the text of the page and a newline. *)
Definition plain_pymupdf_page (page : result pystr) : pystr * option exn :=
  match page with
  | Ok page_text =>
      (match strip page_text with
       | [] => []
       | _ => page_text ++ [LF]
       end, None)
  | Raised e => ([], Some e)
  end.

Definition plain_pdfplumber_page (page : plumber_page) : pystr * option exn :=
  match plumber_extract_text page with
  | Ok (Some (c :: t)) => ((c :: t) ++ [LF], None)
  | Ok _ => ([], None)
  | Raised e => ([], Some e)
  end.

Definition plain_pypdf2_page (page : result pystr) : pystr * option exn :=
  match page with
  | Ok [] => ([], None)
  | Ok page_text => (page_text ++ [LF], None)
  | Raised e => ([], Some e)
  end.

Definition plain_pymupdf_text (pdf_bytes : bytes) : pystr :=
  match fitz_open pdf_bytes with
  | Ok pdf_document => appended plain_pymupdf_page (fitz_pages pdf_document)
  | Raised _ => []
  end.

Definition plain_pdfplumber_text (pdf_bytes : bytes) : pystr :=
  match pdfplumber_open pdf_bytes with
  | Ok pages => appended plain_pdfplumber_page pages
  | Raised _ => []
  end.

Definition plain_pypdf2_text (pdf_bytes : bytes) : pystr :=
  match PdfReader pdf_bytes with
  | Ok pages => appended plain_pypdf2_page pages
  | Raised _ => []
  end.

End PlainExtraction.

Section RealtimeExtraction.
Context {U : Unicode} {L : PdfLibs}.
Import Realtime.

(** The warnings logged when the first [k] strategies have run. *)
Definition rt_log_after (k : nat) (pdf_bytes : bytes) : list pystr :=
  List.concat (firstn k
    [ failure_message "PyMuPDF failed: " (pymupdf_failure pdf_bytes);
      failure_message "pdfplumber failed: " (pdfplumber_failure false pdf_bytes);
      failure_message "All extraction methods failed: "
        (pypdf2_failure pdf_bytes) ]).

(** Whether the first two strategies pass their test; each starts from the
    empty text.  The third has no test. *)
Definition rt_pymupdf_accepts (pdf_bytes : bytes) : bool :=
  accepts (pymupdf_failure pdf_bytes) 100 (plain_pymupdf_text pdf_bytes).
Definition rt_pdfplumber_accepts (pdf_bytes : bytes) : bool :=
  accepts (pdfplumber_failure false pdf_bytes) 100
          (plain_pdfplumber_text pdf_bytes).

(** The four ways [extract_text_realtime] ends. *)
Definition rt_extraction_outcome (pdf_bytes : bytes) (text : pystr)
    (info : extraction_info) (logged : list pystr) : Prop :=
  (rt_pymupdf_accepts pdf_bytes = true /\
   method info = "pymupdf" /\ success info = true /\
   text_length info = List.length text /\
   logged = [] /\
   text = plain_pymupdf_text pdf_bytes)
  \/
  (rt_pymupdf_accepts pdf_bytes = false /\
   rt_pdfplumber_accepts pdf_bytes = true /\
   method info = "pdfplumber" /\ success info = true /\
   text_length info = List.length text /\
   logged = rt_log_after 1 pdf_bytes /\
   text = plain_pdfplumber_text pdf_bytes)
  \/
  (rt_pymupdf_accepts pdf_bytes = false /\
   rt_pdfplumber_accepts pdf_bytes = false /\
   pypdf2_failure pdf_bytes = None /\
   method info = "pypdf2" /\ success info = true /\
   text_length info = List.length text /\
   logged = rt_log_after 2 pdf_bytes /\
   text = plain_pypdf2_text pdf_bytes)
  \/
  (rt_pymupdf_accepts pdf_bytes = false /\
   rt_pdfplumber_accepts pdf_bytes = false /\
   pypdf2_failure pdf_bytes <> None /\
   method info = "unknown" /\ success info = false /\
   text_length info = 0 /\
   logged = rt_log_after 3 pdf_bytes /\
   text = []).

End RealtimeExtraction.

Section BasicExtraction.
Context {U : Unicode} {L : PdfLibs}.

(** Whether the two library strategies of the basic analyzer pass their
    test; the second adds to the text of the first. *)
Definition basic_pdfplumber_accepts (pdf_bytes : bytes) : bool :=
  accepts (pdfplumber_failure false pdf_bytes) 100
          (plain_pdfplumber_text pdf_bytes).
Definition basic_pypdf2_accepts (pdf_bytes : bytes) : bool :=
  accepts (pypdf2_failure pdf_bytes) 100
          (plain_pdfplumber_text pdf_bytes ++ plain_pypdf2_text pdf_bytes).

(** The three ways the basic [extract_text_from_pdf] ends. *)
Definition basic_extraction_outcome (pdf_bytes : bytes) (text : pystr)
  : Prop :=
  (basic_pdfplumber_accepts pdf_bytes = true /\
   text = plain_pdfplumber_text pdf_bytes)
  \/
  (basic_pdfplumber_accepts pdf_bytes = false /\
   basic_pypdf2_accepts pdf_bytes = true /\
   text = plain_pdfplumber_text pdf_bytes ++ plain_pypdf2_text pdf_bytes)
  \/
  (basic_pdfplumber_accepts pdf_bytes = false /\
   basic_pypdf2_accepts pdf_bytes = false /\
   text = Basic.raw_text pdf_bytes).

End BasicExtraction.

(** [len(set(l)) == len(l)]: no string twice. *)
Fixpoint distinct (l : list pystr) : bool :=
  match l with
  | [] => true
  | x :: t => negb (str_in x t) && distinct t
  end.

End Inv.
Export Inv.

(* ================================================================= *)
(** * Properties *)
(* ================================================================= *)

(** ** Strings and dictionaries *)

Lemma str_eqb_eq (a b : pystr) : str_eqb a b = true <-> a = b.
Proof.
  revert b; induction a as [|x a IH]; intros [|y b]; simpl.
  - tauto.
  - split; discriminate.
  - split; discriminate.
  - rewrite andb_true_iff, IH. unfold chr_eqb. rewrite N.eqb_eq.
    split; [intros [-> ->]; reflexivity | intros H; inversion H; auto].
Qed.

Lemma str_eqb_refl (a : pystr) : str_eqb a a = true.
Proof. apply str_eqb_eq; reflexivity. Qed.

Lemma str_in_In (x : pystr) (l : list pystr) : str_in x l = true <-> In x l.
Proof.
  unfold str_in. rewrite existsb_exists. split.
  - intros [y [Hy E]]. apply str_eqb_eq in E. subst. exact Hy.
  - intros H. exists x. split; [exact H | apply str_eqb_refl].
Qed.

Lemma str_in_false (x : pystr) (l : list pystr) :
  str_in x l = false <-> ~ In x l.
Proof.
  rewrite <- str_in_In. destruct (str_in x l); split; intros H;
    try discriminate; try reflexivity.
  exfalso; apply H; reflexivity.
Qed.

(** An entry of [d[k] = v] is the new one or an old one. *)
Lemma dict_set_In {V} (d : dict V) (k : pystr) (v : V) (e : pystr * V) :
  In e (dict_set d k v) -> e = (k, v) \/ In e d.
Proof.
  induction d as [|[k' v'] d IH]; simpl.
  - intros [<- | []]; auto.
  - destruct (str_eqb k k') eqn:E.
    + apply str_eqb_eq in E; subst k'. simpl. intros [<- | H]; auto.
    + simpl. intros [<- | H]; auto. destruct (IH H); auto.
Qed.

Lemma dict_set_keys {V} (d : dict V) (k : pystr) (v : V) :
  dict_keys (dict_set d k v) =
  if str_in k (dict_keys d) then dict_keys d else dict_keys d ++ [k].
Proof.
  unfold dict_keys, str_in. induction d as [|[k' v'] d IH]; simpl; auto.
  destruct (str_eqb k k') eqn:E; simpl; auto.
  rewrite IH. destruct (existsb (str_eqb k) (map fst d)); reflexivity.
Qed.

(** The keys of a dictionary built by [d[k] = v] are distinct. *)
Lemma dict_set_NoDup {V} (d : dict V) (k : pystr) (v : V) :
  NoDup (dict_keys d) -> NoDup (dict_keys (dict_set d k v)).
Proof.
  intros H. rewrite dict_set_keys.
  destruct (str_in k (dict_keys d)) eqn:E; auto.
  apply str_in_false in E.
  apply NoDup_rev in H. rewrite <- (rev_involutive (_ ++ _)).
  apply NoDup_rev. rewrite rev_app_distr. simpl. constructor; auto.
  rewrite <- in_rev. exact E.
Qed.

(** ** The stable descending sort *)

Section SortFacts.
Variables (A K : Type).
Variable ltb : K -> K -> bool.
Variable key : A -> K.

(** [ltb] is a strict weak order: asymmetric, and its negation is
    transitive. *)
Hypothesis ltb_asym : forall x y, ltb x y = true -> ltb y x = false.
Hypothesis geb_trans :
  forall x y z, ltb x y = false -> ltb y z = false -> ltb x z = false.

(** [a] comes at or before [b] in descending order. *)
Definition desc (a b : A) : Prop := ltb (key a) (key b) = false.

(** The elements whose key is equivalent to [k]. *)
Definition same_key (k : K) (a : A) : bool :=
  negb (ltb (key a) k) && negb (ltb k (key a)).

Lemma insert_desc_perm (x : A) (l : list A) :
  Permutation (insert_desc ltb key x l) (x :: l).
Proof.
  induction l as [|y t IH]; simpl; auto.
  destruct (ltb (key x) (key y)); auto.
  rewrite IH. apply perm_swap.
Qed.

Lemma sort_desc_perm (l : list A) : Permutation (sort_desc ltb key l) l.
Proof.
  induction l as [|x t IH]; simpl; auto.
  rewrite insert_desc_perm. auto.
Qed.

Lemma sort_desc_length (l : list A) :
  List.length (sort_desc ltb key l) = List.length l.
Proof. apply Permutation_length, sort_desc_perm. Qed.

Lemma insert_desc_sorted (x : A) (l : list A) :
  StronglySorted desc l -> StronglySorted desc (insert_desc ltb key x l).
Proof.
  induction l as [|y t IH]; simpl; intros H.
  - constructor; constructor.
  - inversion H as [|? ? Ht Hy]; subst.
    destruct (ltb (key x) (key y)) eqn:E.
    + constructor; auto.
      apply Forall_forall. intros z Hz.
      apply (Permutation_in _ (insert_desc_perm x t)) in Hz.
      destruct Hz as [<- | Hz].
      * apply ltb_asym; exact E.
      * rewrite Forall_forall in Hy; auto.
    + constructor; auto. constructor; auto.
      rewrite Forall_forall in *. intros z Hz.
      unfold desc in *. eapply geb_trans; eauto.
Qed.

Lemma sort_desc_sorted (l : list A) : StronglySorted desc (sort_desc ltb key l).
Proof.
  induction l as [|x t IH]; simpl.
  - constructor.
  - apply insert_desc_sorted; exact IH.
Qed.

Lemma insert_desc_stable (k : K) (x : A) (l : list A) :
  filter (same_key k) (insert_desc ltb key x l) = filter (same_key k) (x :: l).
Proof.
  induction l as [|y t IH]; auto.
  simpl insert_desc. destruct (ltb (key x) (key y)) eqn:E; auto.
  simpl filter at 1. rewrite IH. simpl.
  destruct (same_key k x) eqn:Ex, (same_key k y) eqn:Ey; auto.
  exfalso. unfold same_key in Ex, Ey.
  apply andb_true_iff in Ex as [Ex1 Ex2]. apply andb_true_iff in Ey as [Ey1 Ey2].
  apply negb_true_iff in Ex1, Ex2, Ey1, Ey2.
  rewrite (geb_trans _ _ _ Ex1 Ey2) in E. discriminate.
Qed.

(** Stability: the elements of each key keep the order they had. *)
Lemma sort_desc_stable (k : K) (l : list A) :
  filter (same_key k) (sort_desc ltb key l) = filter (same_key k) l.
Proof.
  induction l as [|x t IH]; auto.
  simpl sort_desc. rewrite insert_desc_stable. simpl. rewrite IH. reflexivity.
Qed.

End SortFacts.

Lemma Qltb_asym (x y : Q) : Qltb x y = true -> Qltb y x = false.
Proof.
  unfold Qltb. rewrite negb_true_iff, negb_false_iff.
  intros H. apply Qle_bool_iff.
  destruct (Qlt_le_dec y x) as [Hlt|Hle]; auto.
  apply Qlt_le_weak in Hlt. apply Qle_bool_iff in Hlt. congruence.
Qed.

Lemma Qltb_false (x y : Q) : Qltb x y = false <-> (y <= x)%Q.
Proof. unfold Qltb. rewrite negb_false_iff. apply Qle_bool_iff. Qed.

Lemma Qgeb_trans (x y z : Q) :
  Qltb x y = false -> Qltb y z = false -> Qltb x z = false.
Proof. rewrite !Qltb_false. intros; eapply Qle_trans; eauto. Qed.

Lemma Zltb_asym (x y : Z) : Z.ltb x y = true -> Z.ltb y x = false.
Proof. rewrite Z.ltb_lt, Z.ltb_ge. lia. Qed.

Lemma Zgeb_trans (x y z : Z) :
  Z.ltb x y = false -> Z.ltb y z = false -> Z.ltb x z = false.
Proof. rewrite !Z.ltb_ge. lia. Qed.

(** ** Job recommendations *)

Lemma In_firstn {A} (n : nat) (l : list A) (x : A) :
  In x (firstn n l) -> In x l.
Proof.
  revert l; induction n as [|n IH]; intros [|y l]; simpl; try tauto.
  intros [H|H]; auto.
Qed.

Lemma StronglySorted_firstn {A} (R : A -> A -> Prop) (n : nat) (l : list A) :
  StronglySorted R l -> StronglySorted R (firstn n l).
Proof.
  revert l; induction n as [|n IH]; intros [|y l] H; simpl; try constructor.
  - inversion H; auto.
  - inversion H as [|? ? ? Hy]; subst.
    rewrite Forall_forall in *. intros z Hz. apply Hy.
    eapply In_firstn; eauto.
Qed.

Lemma same_key_Qeq {A} (key : A -> Q) (k : Q) (a : A) :
  same_key A Q Qltb key k a = Qeq_bool (key a) k.
Proof.
  unfold same_key.
  destruct (Qeq_bool (key a) k) eqn:E.
  - apply Qeq_bool_iff in E.
    rewrite andb_true_iff, !negb_true_iff, !Qltb_false.
    rewrite E. split; apply Qle_refl.
  - apply andb_false_iff.
    destruct (Qltb (key a) k) eqn:E1; [left; reflexivity|].
    destruct (Qltb k (key a)) eqn:E2; [right; reflexivity|].
    apply Qltb_false in E1, E2.
    assert (H : (key a == k)%Q) by (apply Qle_antisym; assumption).
    apply Qeq_bool_iff in H. congruence.
Qed.

(** A quotient of counts [m <= n] scaled by 30 lies between 0 and 30. *)
Lemma bonus_range (m n : nat) :
  0 < n -> m <= n ->
  (0 <= inject_Z (Z.of_nat m) / inject_Z (Z.of_nat n) * 30 <= 30)%Q.
Proof.
  intros Hn Hm.
  assert (Hd : (0 < inject_Z (Z.of_nat n))%Q).
  { unfold Qlt, inject_Z; simpl. lia. }
  assert (H0 : (0 <= inject_Z (Z.of_nat m))%Q).
  { unfold Qle, inject_Z; simpl. lia. }
  assert (H1 : (inject_Z (Z.of_nat m) <= inject_Z (Z.of_nat n))%Q).
  { unfold Qle, inject_Z; simpl. lia. }
  assert (Hq0 : (0 <= inject_Z (Z.of_nat m) / inject_Z (Z.of_nat n))%Q).
  { apply Qle_shift_div_l; [exact Hd | lra]. }
  assert (Hq1 : (inject_Z (Z.of_nat m) / inject_Z (Z.of_nat n) <= 1)%Q).
  { apply Qle_shift_div_r; [exact Hd | lra]. }
  split; lra.
Qed.

Lemma match_formula_range (m n : nat) :
  0 < n -> m <= n -> (65 <= Spec.match_formula m n <= 95)%Q.
Proof.
  intros Hn Hm. unfold Spec.match_formula.
  destruct (bonus_range m n Hn Hm) as [H0 H1].
  split.
  - apply Q.min_glb; lra.
  - apply Q.le_min_r.
Qed.

Section AdvancedRecommendations.
Context {U : Unicode}.
Import Advanced.

Lemma matched_required_le (sa : skills_analysis) (required : list string) :
  matched_required sa required <= List.length required.
Proof. unfold matched_required. apply filter_length_le. Qed.

(** On a list of required skills that is not empty, the source computes
    the formula of the specification. *)
Lemma calculate_match_percentage_formula (sa : skills_analysis)
    (required : list string) :
  required <> [] ->
  calculate_match_percentage sa required =
  Spec.match_formula (matched_required sa required) (List.length required).
Proof.
  intros H. unfold calculate_match_percentage, Spec.match_formula.
  destruct required; [contradiction | reflexivity].
Qed.

Ltac one_role :=
  match goal with
  | H : In _ (match ?x with _ => _ end) |- _ => destruct x; one_role
  | H : In _ (if ?x then _ else _) |- _ => destruct x; one_role
  | H : In _ [] |- _ => destruct H
  | H : In _ [_] |- _ => destruct H as [<- | []]
  end.

(** Every generated role takes its match percentage from
    [calculate_match_percentage] at one of the call sites. *)
Lemma generated_role_call_site (sa : skills_analysis)
    (ea : experience_analysis) (r : role) :
  In r (generated_roles sa ea) ->
  exists required, In required call_sites /\
    match_percentage r = calculate_match_percentage sa required.
Proof.
  unfold generated_roles, role_generators. simpl flat_map.
  rewrite !in_app_iff. unfold call_sites.
  intros [H|[H|[H|[H|[H|[H|[H|[H|[]]]]]]]]].
  - unfold generate_software_engineer_roles in H.
    destruct (exp_level ea); simpl in H; destruct H as [<- | []]; simpl;
      eexists; (split; [|reflexivity]); simpl; auto.
  - unfold generate_data_scientist_roles in H. one_role.
    eexists; (split; [|reflexivity]); simpl; auto.
  - unfold generate_devops_roles in H. one_role;
      (eexists; (split; [|reflexivity]); simpl; auto 10).
  - unfold generate_frontend_roles in H. one_role.
    eexists; (split; [|reflexivity]); simpl; auto 10.
  - unfold generate_backend_roles in H. one_role.
    eexists; (split; [|reflexivity]); simpl; auto 10.
  - unfold generate_fullstack_roles in H. one_role.
    eexists; (split; [|reflexivity]); simpl; auto 10.
  - unfold generate_mobile_roles in H. one_role.
    eexists; (split; [|reflexivity]); simpl; auto 12.
  - unfold generate_security_roles in H. one_role;
      (eexists; (split; [|reflexivity]); simpl; auto 12).
Qed.

Ltac at_most_one :=
  repeat match goal with
  | |- context [match ?x with _ => _ end] => destruct x
  | |- context [if ?x then _ else _] => destruct x
  end; simpl; lia.

(** Each generator returns no role or one role, so at most eight are
    generated. *)
Lemma generated_roles_length (sa : skills_analysis) (ea : experience_analysis) :
  List.length (generated_roles sa ea) <= 8.
Proof.
  unfold generated_roles, role_generators. simpl flat_map.
  rewrite !length_app. simpl List.length.
  assert (H1 : List.length (generate_software_engineer_roles sa (exp_level ea) (determine_primary_stack sa)) <= 1)
    by (unfold generate_software_engineer_roles; destruct (exp_level ea); simpl; lia).
  assert (H2 : List.length (generate_data_scientist_roles sa (exp_level ea) (determine_primary_stack sa)) <= 1)
    by (unfold generate_data_scientist_roles; at_most_one).
  assert (H3 : List.length (generate_devops_roles sa (exp_level ea) (determine_primary_stack sa)) <= 1)
    by (unfold generate_devops_roles; at_most_one).
  assert (H4 : List.length (generate_frontend_roles sa (exp_level ea) (determine_primary_stack sa)) <= 1)
    by (unfold generate_frontend_roles; at_most_one).
  assert (H5 : List.length (generate_backend_roles sa (exp_level ea) (determine_primary_stack sa)) <= 1)
    by (unfold generate_backend_roles; at_most_one).
  assert (H6 : List.length (generate_fullstack_roles sa (exp_level ea) (determine_primary_stack sa)) <= 1)
    by (unfold generate_fullstack_roles; at_most_one).
  assert (H7 : List.length (generate_mobile_roles sa (exp_level ea) (determine_primary_stack sa)) <= 1)
    by (unfold generate_mobile_roles; at_most_one).
  assert (H8 : List.length (generate_security_roles sa (exp_level ea) (determine_primary_stack sa)) <= 1)
    by (unfold generate_security_roles; at_most_one).
  lia.
Qed.

End AdvancedRecommendations.

(** The floats Python computes at the call sites are the exact values:
    for two or three required skills, [min(65 + (m / n) * 30, 95)] in
    binary64 is the integer the rational formula gives. *)
Lemma float_match_percentage_exact (m n : nat) :
  n = 2 \/ n = 3 -> m <= n ->
  exists k : Z,
    (Spec.match_formula m n == inject_Z k)%Q /\
    Advanced.float_match_percentage m n = PrimFloat.of_uint63 (Uint63.of_Z k).
Proof.
  intros [-> | ->] Hm.
  - assert (H : m = 0 \/ m = 1 \/ m = 2) by lia.
    destruct H as [-> | [-> | ->]];
      [exists 65%Z | exists 80%Z | exists 95%Z];
      (split; [vm_compute; reflexivity | vm_compute; reflexivity]).
  - assert (H : m = 0 \/ m = 1 \/ m = 2 \/ m = 3) by lia.
    destruct H as [-> | [-> | [-> | ->]]];
      [exists 65%Z | exists 75%Z | exists 85%Z | exists 95%Z];
      (split; [vm_compute; reflexivity | vm_compute; reflexivity]).
Qed.

Section BasicRecommendations.
Context {U : Unicode}.
Import Basic.

Lemma job_templates_three (lvl : level) (t : job_template) :
  In t (job_templates lvl) -> List.length (t_required_skills t) = 3.
Proof.
  destruct lvl; simpl; intros H;
    repeat (destruct H as [<- | H]; [reflexivity|]); destruct H.
Qed.

Lemma matching_skills_le (sk : skills) (t : job_template) :
  List.length (matching_skills sk t) <= List.length (t_required_skills t).
Proof. unfold matching_skills. apply filter_length_le. Qed.

End BasicRecommendations.

(** C6, the basic analyzer does not sort: for a resume that mentions only
    React, a junior's recommendations have the match percentages 85, 88,
    85, 85 in this order, which is not descending. *)
Lemma C6_basic_not_sorted :
  let recs :=
    Basic.generate_job_recommendations (Basic.extract_skills (py "react"))
      Basic.junior in
  map Basic.match_percentage recs = [85; 88; 85; 85]%Z /\
  ~ StronglySorted
      (fun a b => (Basic.match_percentage b <= Basic.match_percentage a)%Z)
      recs.
Proof.
  split; [vm_compute; reflexivity|].
  intros H. vm_compute in H.
  inversion H as [|? ? _ Hall]; subst.
  inversion Hall as [|? ? Hhd _]; subst.
  apply Hhd. reflexivity.
Qed.

(** C6 (amended): the advanced analyzer returns at most 8 recommendations,
    in descending order of match percentage; they are all the generated
    recommendations (no more than 8 are ever generated), and those with
    equal match percentage keep the order in which they were generated.
    The basic analyzer returns one recommendation per template of the
    level, four of them, in the order of the templates, without sorting. *)
Theorem C6_recommendations_top8_sorted_stable :
  (forall (U : Unicode) (sa : Advanced.skills_analysis)
          (ea : Advanced.experience_analysis),
     let out := Advanced.generate_detailed_job_recommendations sa ea in
     let generated := Advanced.generated_roles sa ea in
     List.length out <= 8 /\
     StronglySorted
       (fun a b =>
          (Advanced.match_percentage b <= Advanced.match_percentage a)%Q) out /\
     Permutation out generated /\
     (forall k : Q,
        filter (fun r => Qeq_bool (Advanced.match_percentage r) k) out =
        filter (fun r => Qeq_bool (Advanced.match_percentage r) k) generated))
  /\
  (forall (U : Unicode) (sk : Basic.skills) (lvl : Basic.level),
     let out := Basic.generate_job_recommendations sk lvl in
     List.length out = 4 /\
     map Basic.title out = map Basic.t_title (Basic.job_templates lvl)).
Proof.
  split.
  - intros U sa ea out generated.
    assert (Hlen : List.length generated <= 8)
      by apply generated_roles_length.
    assert (Hout : out = sort_desc Qltb Advanced.match_percentage generated).
    { unfold out, Advanced.generate_detailed_job_recommendations.
      apply firstn_all2. rewrite sort_desc_length. exact Hlen. }
    rewrite Hout. repeat split.
    + rewrite sort_desc_length. exact Hlen.
    + pose proof (sort_desc_sorted _ _ Qltb Advanced.match_percentage
                    Qltb_asym Qgeb_trans generated) as Hs.
      eapply StronglySorted_ind with (P := fun l => StronglySorted _ l);
        [constructor | | exact Hs].
      intros a l Hl IH Ha. constructor; auto.
      rewrite Forall_forall in *. intros b Hb.
      apply Qltb_false. apply Ha. exact Hb.
    + apply sort_desc_perm.
    + intros k.
      rewrite <- (filter_ext _ _ (same_key_Qeq Advanced.match_percentage k)).
      rewrite <- (filter_ext _ _ (same_key_Qeq Advanced.match_percentage k)).
      apply sort_desc_stable. exact Qgeb_trans.
  - intros U sk lvl out. unfold out, Basic.generate_job_recommendations.
    rewrite length_map, map_map. simpl. split.
    + destruct lvl; reflexivity.
    + reflexivity.
Qed.

(** C8, the basic analyzer uses another formula: for a resume that mentions
    only React, the first recommendation of a junior matches none of its
    three required skills and reports 85, where the formula gives 65. *)
Lemma C8_basic_other_formula :
  let sk := Basic.extract_skills (py "react") in
  let recs := Basic.generate_job_recommendations sk Basic.junior in
  let template := hd (Basic.Build_job_template "" [] "" "")
                     (Basic.job_templates Basic.junior) in
  Basic.t_required_skills template = ["JavaScript"; "HTML"; "CSS"] /\
  Basic.matching_skills sk template = [] /\
  map Basic.match_percentage (firstn 1 recs) = [85%Z] /\
  (Spec.match_formula 0 3 == 65)%Q /\
  ~ (inject_Z 85 == Spec.match_formula 0 3)%Q.
Proof.
  repeat split; try (vm_compute; reflexivity).
  intros H. vm_compute in H. discriminate.
Qed.

(** C8 (amended): in the advanced analyzer every recommendation reports
    [min(65 + (matched / total) * 30, 95)] for the list of its generator's
    2 or 3 required skills, [matched] being how many of them occur in some
    skill of the candidate; it lies in [[65, 95]].  In the basic analyzer
    every recommendation reports [min(85 + 3 * matched, 98)] for the 3
    required skills of its template; it lies in [[85, 94]]. *)
Theorem C8_match_percentage :
  (forall (U : Unicode) (sa : Advanced.skills_analysis)
          (ea : Advanced.experience_analysis) (r : Advanced.role),
     In r (Advanced.generate_detailed_job_recommendations sa ea) ->
     exists required : list string,
       In required Advanced.call_sites /\
       (List.length required = 2 \/ List.length required = 3) /\
       Advanced.matched_required sa required <= List.length required /\
       Advanced.match_percentage r =
         Spec.match_formula (Advanced.matched_required sa required)
                            (List.length required) /\
       (65 <= Advanced.match_percentage r <= 95)%Q)
  /\
  (forall (U : Unicode) (sk : Basic.skills) (lvl : Basic.level)
          (r : Basic.recommendation),
     In r (Basic.generate_job_recommendations sk lvl) ->
     exists template : Basic.job_template,
       In template (Basic.job_templates lvl) /\
       List.length (Basic.t_required_skills template) = 3 /\
       Basic.match_percentage r =
         Z.min (85 + Z.of_nat (List.length (Basic.matching_skills sk template)) * 3) 98 /\
       (85 <= Basic.match_percentage r <= 94)%Z).
Proof.
  split.
  - intros U sa ea r Hr.
    apply In_firstn in Hr.
    apply (Permutation_in _ (sort_desc_perm _ _ _ _ _)) in Hr.
    destruct (generated_role_call_site sa ea r Hr) as [required [Hin Hmp]].
    exists required.
    assert (Hlen : List.length required = 2 \/ List.length required = 3).
    { unfold Advanced.call_sites in Hin. simpl in Hin.
      repeat (destruct Hin as [<- | Hin]; [simpl; auto|]). destruct Hin. }
    assert (Hne : required <> []).
    { intros ->. simpl in Hlen. lia. }
    pose proof (matched_required_le sa required) as Hle.
    rewrite Hmp, (calculate_match_percentage_formula sa required Hne).
    repeat split; auto; apply match_formula_range; lia.
  - intros U sk lvl r Hr.
    unfold Basic.generate_job_recommendations in Hr.
    apply in_map_iff in Hr as [t [<- Ht]].
    exists t. pose proof (job_templates_three lvl t Ht) as H3.
    pose proof (matching_skills_le sk t) as Hle.
    cbn [Basic.match_percentage].
    repeat split; auto; lia.
Qed.

(** Witness of C8: the senior software engineer role of a candidate whose
    skills are those found in "python leadership". *)
Lemma C8_match_percentage_witness :
  let sa := Advanced.extract_comprehensive_skills
              (py "python leadership mentoring") in
  let ea := Advanced.determine_experience_level
              (py "python leadership mentoring senior") sa in
  exists r, In r (Advanced.generate_detailed_job_recommendations sa ea) /\
    (65 <= Advanced.match_percentage r <= 95)%Q.
Proof.
  intros sa ea.
  set (out := Advanced.generate_detailed_job_recommendations sa ea).
  assert (Hout : exists r rest, out = r :: rest).
  { vm_compute. eexists. eexists. reflexivity. }
  destruct Hout as [r [rest Hout]].
  exists r.
  assert (Hin : In r out) by (rewrite Hout; left; reflexivity).
  split; [exact Hin|].
  destruct (proj1 C8_match_percentage AsciiUnicode sa ea r Hin)
    as [required [_ [_ [_ [_ Hrange]]]]].
  exact Hrange.
Defined.

(** ** Scoring *)

(** The ladders of the two scorers are the ladders of the
    specification. *)
Lemma advanced_grade_ladder (total : Z) :
  Advanced.assign_grade total = Spec.grade_of total.
Proof. reflexivity. Qed.

Lemma realtime_grade_ladder (total : Z) :
  Realtime.assign_grade total = Spec.realtime_grade_of total.
Proof. reflexivity. Qed.

(** The ladder, threshold by threshold. *)
Lemma grade_of_bands (total : Z) :
  ((90 <= total)%Z /\ Spec.grade_of total = "A+") \/
  ((85 <= total < 90)%Z /\ Spec.grade_of total = "A") \/
  ((80 <= total < 85)%Z /\ Spec.grade_of total = "A-") \/
  ((75 <= total < 80)%Z /\ Spec.grade_of total = "B+") \/
  ((70 <= total < 75)%Z /\ Spec.grade_of total = "B") \/
  ((65 <= total < 70)%Z /\ Spec.grade_of total = "B-") \/
  ((60 <= total < 65)%Z /\ Spec.grade_of total = "C+") \/
  ((55 <= total < 60)%Z /\ Spec.grade_of total = "C") \/
  ((total < 55)%Z /\ Spec.grade_of total = "C-").
Proof.
  cbv [Spec.grade_of Spec.grade_ladder Spec.ladder_grade].
  destruct (Z.leb_spec 90 total); [left; split; [lia | reflexivity] | right].
  destruct (Z.leb_spec 85 total); [left; split; [lia | reflexivity] | right].
  destruct (Z.leb_spec 80 total); [left; split; [lia | reflexivity] | right].
  destruct (Z.leb_spec 75 total); [left; split; [lia | reflexivity] | right].
  destruct (Z.leb_spec 70 total); [left; split; [lia | reflexivity] | right].
  destruct (Z.leb_spec 65 total); [left; split; [lia | reflexivity] | right].
  destruct (Z.leb_spec 60 total); [left; split; [lia | reflexivity] | right].
  destruct (Z.leb_spec 55 total); [left; split; [lia | reflexivity] | right].
  split; [lia | reflexivity].
Qed.

Lemma realtime_grade_of_bands (total : Z) :
  ((90 <= total)%Z /\ Spec.realtime_grade_of total = "A+") \/
  ((85 <= total < 90)%Z /\ Spec.realtime_grade_of total = "A") \/
  ((80 <= total < 85)%Z /\ Spec.realtime_grade_of total = "A-") \/
  ((75 <= total < 80)%Z /\ Spec.realtime_grade_of total = "B+") \/
  ((70 <= total < 75)%Z /\ Spec.realtime_grade_of total = "B") \/
  ((65 <= total < 70)%Z /\ Spec.realtime_grade_of total = "B-") \/
  ((60 <= total < 65)%Z /\ Spec.realtime_grade_of total = "C+") \/
  ((total < 60)%Z /\ Spec.realtime_grade_of total = "C").
Proof.
  cbv [Spec.realtime_grade_of Spec.grade_ladder Spec.ladder_grade firstn].
  destruct (Z.leb_spec 90 total); [left; split; [lia | reflexivity] | right].
  destruct (Z.leb_spec 85 total); [left; split; [lia | reflexivity] | right].
  destruct (Z.leb_spec 80 total); [left; split; [lia | reflexivity] | right].
  destruct (Z.leb_spec 75 total); [left; split; [lia | reflexivity] | right].
  destruct (Z.leb_spec 70 total); [left; split; [lia | reflexivity] | right].
  destruct (Z.leb_spec 65 total); [left; split; [lia | reflexivity] | right].
  destruct (Z.leb_spec 60 total); [left; split; [lia | reflexivity] | right].
  split; [lia | reflexivity].
Qed.

Section ScoreFacts.
Context {U : Unicode}.

Lemma section_count_range (text : pystr) :
  (0 <= Advanced.section_count (Advanced.analyze_resume_structure text) <= 5)%Z.
Proof.
  unfold Advanced.analyze_resume_structure. cbn [Advanced.section_count].
  repeat match goal with
  | |- context [Z.b2z ?b] =>
      match b with
      | true => fail 1
      | false => fail 1
      | _ => generalize b; intros []
      end
  end; cbv [Z.b2z]; lia.
Qed.

(** The five sub-scores of the advanced scorer and their ranges. *)
Lemma advanced_subscores (sa : Advanced.skills_analysis)
    (ea : Advanced.experience_analysis) (text : pystr)
    (em : Advanced.extraction_metadata) :
  let s := Advanced.calculate_overall_score sa ea text em in
  (In (Advanced.Score.technical_skills s) [30; 25; 20; 10] /\
   15 <= Advanced.Score.experience_quality s <= 25 /\
   0 <= Advanced.Score.content_structure s <= 20 /\
   In (Advanced.Score.achievements s) [15; 5] /\
   0 <= Advanced.Score.completeness s <= 10 /\
   In (Advanced.Score.extraction_quality s) [5; 3; 1; 0])%Z.
Proof.
  intros s. unfold s, Advanced.calculate_overall_score.
  cbv beta iota zeta delta
      [Advanced.Score.technical_skills Advanced.Score.experience_quality
       Advanced.Score.content_structure Advanced.Score.achievements
       Advanced.Score.completeness Advanced.Score.extraction_quality].
  pose proof (section_count_range text) as Hsc.
  repeat split.
  - repeat match goal with |- context [if ?c then _ else _] => destruct c end;
      cbn [In]; auto 10.
  - destruct (Advanced.exp_level ea), (Advanced.leadership_indicators ea);
      destruct (80 <? Advanced.confidence ea)%Z; lia.
  - destruct (Advanced.exp_level ea), (Advanced.leadership_indicators ea);
      destruct (80 <? Advanced.confidence ea)%Z; lia.
  - match goal with |- context [if ?c then _ else _] => destruct c end; lia.
  - match goal with |- context [if ?c then _ else _] => destruct c end; lia.
  - destruct (Advanced.has_quantifiable_achievements text); cbn [In]; auto.
  - destruct (Advanced.certifications sa),
      (Advanced.has_portfolio_links text),
      (3 <=? List.length (Advanced.soft_skills sa)); lia.
  - destruct (Advanced.certifications sa),
      (Advanced.has_portfolio_links text),
      (3 <=? List.length (Advanced.soft_skills sa)); lia.
  - repeat match goal with |- context [if ?c then _ else _] => destruct c end;
      cbn [In]; auto 10.
Qed.

(** The four sub-scores of the real-time scorer and their ranges. *)
Lemma realtime_subscores (text : pystr) (skills : Realtime.skills_found)
    (experience : Realtime.experience_analysis) :
  let s := Realtime.calculate_resume_score_realtime text skills experience in
  (0 <= Realtime.technical_skills s <= 40 /\
   20 <= Realtime.experience s <= 30 /\
   10 <= Realtime.content_quality s <= 20 /\
   0 <= Realtime.completeness s <= 10 /\
   Realtime.total_score s =
     Realtime.technical_skills s + Realtime.experience s
     + Realtime.content_quality s + Realtime.completeness s /\
   Realtime.grade s = Realtime.assign_grade (Realtime.total_score s))%Z.
Proof.
  intros s. unfold s, Realtime.calculate_resume_score_realtime.
  destruct (Re.search false
              (Re.compile "\d+%|\d+\s*years?|\$\d+|increased|improved|reduced")
              (str_lower text));
    cbv beta iota zeta delta
        [Realtime.technical_skills Realtime.experience
         Realtime.content_quality Realtime.completeness
         Realtime.total_score Realtime.grade];
    (repeat split; try reflexivity; try lia;
     repeat match goal with
     | |- context [if ?c then _ else _] => destruct c
     | |- context [match ?c with Realtime.junior => _ | _ => _ end] => destruct c
     end; lia).
Qed.

End ScoreFacts.

(** C1, the real-time scorer has no [C-]: for a cleaned text of sixty
    letters that matches nothing, its total is 0 + 20 + 10 + 0 = 30 and its
    grade is [C], where the ladder of the claim gives [C-]. *)
Lemma C1_realtime_grade_below_55 :
  let text := py "qqqqq qqqqq qqqqq qqqqq qqqqq qqqqq qqqqq qqqqq qqqqq qqqqq" in
  let skills := Realtime.extract_skills_realtime text in
  let experience :=
    Realtime.analyze_experience_realtime text (Realtime.total_count skills) in
  let s := Realtime.calculate_resume_score_realtime text skills experience in
  Realtime.clean_text_fast text = text /\
  Realtime.total_score s = 30%Z /\
  Realtime.grade s = "C" /\
  Spec.grade_of (Realtime.total_score s) = "C-".
Proof. vm_compute. repeat split; reflexivity. Qed.

(** C1 (amended): in the advanced analyzer the total is the sum of the five
    sub-scores technical_skills, experience_quality, content_structure,
    achievements and completeness, clamped to [[0, 100]]; the
    extraction-quality bonus is reported and not added; the grade is the
    ladder A+ >= 90, A >= 85, A- >= 80, B+ >= 75, B >= 70, B- >= 65,
    C+ >= 60, C >= 55, else C-.  In the real-time analyzer the total is the
    sum of the four sub-scores technical_skills, experience, content_quality
    and completeness, which lies in [[30, 100]], and the grade is the same
    ladder down to C+ >= 60, with C for every lower total. *)
Theorem C1_total_and_grade :
  (forall (U : Unicode) (sa : Advanced.skills_analysis)
          (ea : Advanced.experience_analysis) (text : pystr)
          (em em' : Advanced.extraction_metadata),
     let s := Advanced.calculate_overall_score sa ea text em in
     let sum :=
       (Advanced.Score.technical_skills s + Advanced.Score.experience_quality s
        + Advanced.Score.content_structure s + Advanced.Score.achievements s
        + Advanced.Score.completeness s)%Z in
     Advanced.Score.total_score s = Spec.clamp 0 100 sum /\
     (0 <= Advanced.Score.total_score s <= 100)%Z /\
     Advanced.Score.total_score (Advanced.calculate_overall_score sa ea text em')
       = Advanced.Score.total_score s /\
     Advanced.Score.grade s = Spec.grade_of (Advanced.Score.total_score s))
  /\
  (Spec.grade_of 90 = "A+" /\ Spec.grade_of 89 = "A" /\
   Spec.grade_of 85 = "A" /\ Spec.grade_of 84 = "A-" /\
   Spec.grade_of 80 = "A-" /\ Spec.grade_of 79 = "B+" /\
   Spec.grade_of 75 = "B+" /\ Spec.grade_of 74 = "B" /\
   Spec.grade_of 70 = "B" /\ Spec.grade_of 69 = "B-" /\
   Spec.grade_of 65 = "B-" /\ Spec.grade_of 64 = "C+" /\
   Spec.grade_of 60 = "C+" /\ Spec.grade_of 59 = "C" /\
   Spec.grade_of 55 = "C" /\ Spec.grade_of 54 = "C-")
  /\
  (forall (U : Unicode) (text : pystr) (skills : Realtime.skills_found)
          (experience : Realtime.experience_analysis),
     let s := Realtime.calculate_resume_score_realtime text skills experience in
     (Realtime.total_score s =
        Realtime.technical_skills s + Realtime.experience s
        + Realtime.content_quality s + Realtime.completeness s)%Z /\
     (30 <= Realtime.total_score s <= 100)%Z /\
     Realtime.grade s = Spec.realtime_grade_of (Realtime.total_score s) /\
     ((60 <= Realtime.total_score s)%Z ->
        Realtime.grade s = Spec.grade_of (Realtime.total_score s)) /\
     ((Realtime.total_score s < 60)%Z -> Realtime.grade s = "C")).
Proof.
  split; [|split].
  - intros U sa ea text em em' s sum.
    pose proof (advanced_subscores sa ea text em) as H. cbv zeta in H.
    fold s in H. destruct H as [Ht [He [Hc [Ha [Hk _]]]]].
    assert (Hsum : (0 <= sum)%Z).
    { unfold sum. cbn [In] in Ht, Ha.
      destruct Ht as [Ht | [Ht | [Ht | [Ht | []]]]];
        destruct Ha as [Ha | [Ha | []]]; lia. }
    assert (Htot : Advanced.Score.total_score s = Z.min sum 100)
      by reflexivity.
    split; [|split; [|split]].
    + rewrite Htot. unfold Spec.clamp. lia.
    + rewrite Htot. lia.
    + reflexivity.
    + reflexivity.
  - repeat split; reflexivity.
  - intros U text skills experience s.
    pose proof (realtime_subscores text skills experience) as H.
    cbv zeta in H. fold s in H.
    destruct H as [Ht [He [Hc [Hk [Hsum Hg]]]]].
    split; [exact Hsum|]. split; [lia|]. split; [|split].
    + rewrite Hg. apply realtime_grade_ladder.
    + intros Hge. rewrite Hg, realtime_grade_ladder.
      destruct (grade_of_bands (Realtime.total_score s))
        as [[? ->]|[[? ->]|[[? ->]|[[? ->]|[[? ->]|[[? ->]|[[? ->]|[[? ->]|[? ->]]]]]]]]];
      destruct (realtime_grade_of_bands (Realtime.total_score s))
        as [[? ->]|[[? ->]|[[? ->]|[[? ->]|[[? ->]|[[? ->]|[[? ->]|[? ->]]]]]]]];
      try reflexivity; lia.
    + intros Hlt. rewrite Hg, realtime_grade_ladder.
      destruct (realtime_grade_of_bands (Realtime.total_score s))
        as [[? ->]|[[? ->]|[[? ->]|[[? ->]|[[? ->]|[[? ->]|[[? ->]|[? ->]]]]]]]];
      try reflexivity; lia.
Qed.

(** Witness of C1: the real-time scorer on the text of the counterexample
    (total 30, below 60) and on a text with a total of 60 or more. *)
Lemma C1_total_and_grade_witness :
  let low := py "qqqqq qqqqq qqqqq qqqqq qqqqq qqqqq qqqqq qqqqq qqqqq qqqqq" in
  let score text :=
    let skills := Realtime.extract_skills_realtime text in
    Realtime.calculate_resume_score_realtime text skills
      (Realtime.analyze_experience_realtime text (Realtime.total_count skills)) in
  Realtime.grade (score low) = "C".
Proof.
  intros low score.
  apply (proj2 (proj2 C1_total_and_grade) AsciiUnicode low
           (Realtime.extract_skills_realtime low)
           (Realtime.analyze_experience_realtime low
              (Realtime.total_count (Realtime.extract_skills_realtime low)))).
  vm_compute. reflexivity.
Defined.

(** ** Experience classification *)

(** [captured_ints] holds the integers the text shows for the patterns. *)
Lemma captured_ints_observed {U : Unicode} (ps : list string)
    (text_lower : pystr) (n : Z) :
  In n (Advanced.captured_ints ps text_lower) <-> observed ps text_lower n.
Proof.
  unfold Advanced.captured_ints, observed. rewrite in_flat_map. split.
  - intros (p & Hp & H). apply in_flat_map in H. destruct H as (m & Hm & H).
    exists p, m. split; [exact Hp|]. split; [exact Hm|].
    destruct (int_of_str m) as [k|]; [|contradiction H].
    destruct H as [H|[]]. rewrite H. reflexivity.
  - intros (p & m & Hp & Hm & H). exists p. split; [exact Hp|].
    apply in_flat_map. exists m. split; [exact Hm|]. rewrite H. left.
    reflexivity.
Qed.

Lemma fold_max_facts (t : list Z) :
  forall x : Z,
    (x <= fold_left Z.max t x)%Z /\
    (forall n, In n t -> (n <= fold_left Z.max t x)%Z) /\
    (fold_left Z.max t x = x \/ In (fold_left Z.max t x) t).
Proof.
  induction t as [|y t IH]; intros x; cbn [fold_left].
  - split; [lia|]. split; [intros n []|]. left. reflexivity.
  - destruct (IH (Z.max x y)) as (H1 & H2 & H3). split; [lia|]. split.
    + intros n [->|Hn]; [lia|apply H2; exact Hn].
    + destruct H3 as [H3|H3]; [|right; right; exact H3].
      rewrite H3. destruct (Z.max_spec x y) as [[_ ->]|[_ ->]].
      * right. left. reflexivity.
      * left. reflexivity.
Qed.

(** [max_or_zero] is the greatest element of a list that has one. *)
Lemma max_or_zero_greatest (l : list Z) :
  (forall n, In n l -> (n <= Advanced.max_or_zero l)%Z) /\
  (l <> [] -> In (Advanced.max_or_zero l) l) /\
  (l = [] -> Advanced.max_or_zero l = 0%Z).
Proof.
  destruct l as [|x t]; cbn [Advanced.max_or_zero].
  - split; [intros n []|]. split; [congruence|reflexivity].
  - destruct (fold_max_facts t x) as (H1 & H2 & H3). split; [|split].
    + intros n [->|Hn]; [exact H1|apply H2; exact Hn].
    + intros _. destruct H3 as [->|H3]; [left; reflexivity|right; exact H3].
    + discriminate.
Qed.

(** C2: the advanced analyzer takes the level and the base confidence from
    the first rule that applies (8 years or a senior keyword: senior, 70;
    3 years or a mid keyword: mid, 60; otherwise junior, 50), adds 20 for
    more than 15 technical skills or else 10 for more than 8, 15 for a
    leadership mention and 10 for 4 or more skill categories, and clamps
    the confidence to 95.  The years are the greatest integer that the
    lowered text shows for one of the year patterns, or 0 when it shows
    none; there is a leadership mention when the lowered text shows a team
    size for one of the leadership patterns; a keyword is present when it
    occurs in the lowered text. *)
Theorem C2_experience_level_and_confidence :
  forall (U : Unicode) (text : pystr) (sa : Advanced.skills_analysis),
    let ea := Advanced.determine_experience_level text sa in
    let text_lower := str_lower text in
    let years := Advanced.captured_ints Advanced.year_patterns text_lower in
    let team_sizes :=
      Advanced.captured_ints Advanced.leadership_patterns text_lower in
    let max_years := Advanced.max_or_zero years in
    let senior_keyword :=
      Advanced.any_keyword Advanced.senior_keywords text_lower in
    let mid_keyword :=
      Advanced.any_keyword Advanced.mid_keywords text_lower in
    let skill_count :=
      Advanced.total_technical_skills (Advanced.technical_skills sa) in
    let leadership :=
      match team_sizes with [] => false | _ => true end in
    let categories :=
      Advanced.categories_with_skills (Advanced.technical_skills sa) in
    let rule := Spec.classify max_years senior_keyword mid_keyword in
    Advanced.exp_level ea = fst rule /\
    Advanced.confidence ea =
      Spec.adjusted_confidence (snd rule) skill_count leadership categories /\
    (Advanced.confidence ea <= 95)%Z /\
    Advanced.technical_depth ea = skill_count /\
    Advanced.breadth_score ea = categories /\
    Advanced.years_found ea = years /\
    Advanced.leadership_indicators ea =
      map (fun team_size => py "Led team of " ++ Advanced.str_of_Z team_size)
          team_sizes /\
    (forall n, In n years <-> observed Advanced.year_patterns text_lower n) /\
    (forall n, observed Advanced.year_patterns text_lower n ->
               (n <= max_years)%Z) /\
    ((exists n, observed Advanced.year_patterns text_lower n) ->
     observed Advanced.year_patterns text_lower max_years) /\
    ((forall n, ~ observed Advanced.year_patterns text_lower n) ->
     max_years = 0%Z) /\
    (forall n, In n team_sizes
               <-> observed Advanced.leadership_patterns text_lower n) /\
    (leadership = true
     <-> exists n, observed Advanced.leadership_patterns text_lower n).
Proof.
  intros U text sa ea text_lower years team_sizes max_years senior_keyword
    mid_keyword skill_count leadership categories rule.
  assert (Hmain :
            Advanced.exp_level ea = fst rule /\
            Advanced.confidence ea =
              Spec.adjusted_confidence (snd rule) skill_count leadership
                categories /\
            (Advanced.confidence ea <= 95)%Z /\
            Advanced.technical_depth ea = skill_count /\
            Advanced.breadth_score ea = categories).
  { unfold rule, Spec.classify, Spec.adjusted_confidence, leadership,
      max_years, senior_keyword, mid_keyword, skill_count, categories, ea,
      team_sizes, years, text_lower.
    unfold Advanced.determine_experience_level.
    cbv beta iota zeta delta
      [Advanced.exp_level Advanced.confidence Advanced.years_found
       Advanced.leadership_indicators Advanced.technical_depth
       Advanced.breadth_score].
    set (ys := Advanced.captured_ints Advanced.year_patterns (str_lower text)).
    set (ts := Advanced.captured_ints Advanced.leadership_patterns
                 (str_lower text)).
    set (c1 := ((8 <=? Advanced.max_or_zero ys)%Z
                || Advanced.any_keyword Advanced.senior_keywords
                     (str_lower text))%bool).
    set (c2 := ((3 <=? Advanced.max_or_zero ys)%Z
                || Advanced.any_keyword Advanced.mid_keywords
                     (str_lower text))%bool).
    set (n := Advanced.total_technical_skills (Advanced.technical_skills sa)).
    set (k := Advanced.categories_with_skills (Advanced.technical_skills sa)).
    destruct c1, c2, (15 <? n), (8 <? n), (4 <=? k), ts;
      cbv beta iota zeta delta [fst snd Advanced.sum_Z app fold_left map];
      (split; [reflexivity | split; [|split; [|split; reflexivity]]]); lia. }
  destruct Hmain as (H1 & H2 & H3 & H4 & H5).
  destruct (max_or_zero_greatest years) as (G1 & G2 & G3).
  split; [exact H1|]. split; [exact H2|]. split; [exact H3|].
  split; [exact H4|]. split; [exact H5|].
  split; [reflexivity|]. split; [reflexivity|].
  split; [intros n; apply captured_ints_observed|].
  split; [intros n Hn; apply G1, captured_ints_observed; exact Hn|].
  split.
  { intros [n Hn]. apply captured_ints_observed. apply G2.
    apply captured_ints_observed in Hn. intros E. fold years in Hn.
    rewrite E in Hn. exact Hn. }
  split.
  { intros Hno. apply G3. destruct years as [|y t] eqn:E; [reflexivity|].
    exfalso. apply (Hno y). apply captured_ints_observed. fold years.
    rewrite E. left. reflexivity. }
  split; [intros n; apply captured_ints_observed|].
  unfold leadership. split.
  - destruct team_sizes as [|y t] eqn:E; [discriminate|]. intros _.
    exists y. apply captured_ints_observed. fold team_sizes. rewrite E.
    left. reflexivity.
  - intros [n Hn]. apply captured_ints_observed in Hn. fold team_sizes in Hn.
    destruct team_sizes; [contradiction Hn|reflexivity].
Qed.

(** C2 at three texts without a level keyword and without skills: eight
    years and a team make a senior with confidence 70 + 15, three years a
    mid with 60, two years a junior with 50. *)
Lemma C2_experience_level_and_confidence_witness :
  let analysis t :=
    let ea := @Advanced.determine_experience_level AsciiUnicode (py t)
                (@Advanced.extract_comprehensive_skills AsciiUnicode (py t)) in
    (Advanced.exp_level ea, Advanced.confidence ea,
     Advanced.years_found ea) in
  analysis "8 Years of experience. Led a team of 5."
    = (Advanced.senior, 85%Z, [8%Z]) /\
  analysis "3 years of experience" = (Advanced.mid, 60%Z, [3%Z]) /\
  analysis "2 years of experience" = (Advanced.junior, 50%Z, [2%Z]).
Proof.
  cbv zeta.
  split; [|split];
    match goal with
    | |- context [@Advanced.determine_experience_level _ ?t ?sa] =>
        destruct (C2_experience_level_and_confidence AsciiUnicode t sa)
          as (H1 & H2 & _ & _ & _ & H6 & _)
    end;
    rewrite H1, H2, H6; vm_compute; reflexivity.
Defined.

(** ** Skill matching *)

Lemma fold_left_invariant {A B} (P : A -> Prop) (f : A -> B -> A)
    (l : list B) (a : A) :
  P a -> (forall a b, P a -> In b l -> P (f a b)) -> P (fold_left f l a).
Proof.
  revert a; induction l as [|b l IH]; simpl; intros a Ha Hf.
  - exact Ha.
  - apply IH.
    + apply Hf; auto.
    + intros a' b' Ha' Hb'. apply Hf; auto.
Qed.

Lemma NoDup_snoc {A} (l : list A) (x : A) :
  NoDup l -> ~ In x l -> NoDup (l ++ [x]).
Proof.
  intros Hl Hx. apply NoDup_rev in Hl.
  rewrite <- (rev_involutive (l ++ [x])). apply NoDup_rev.
  rewrite rev_app_distr. simpl. constructor; auto.
  rewrite <- in_rev. exact Hx.
Qed.

(** The two confidence formulas are monotone and capped at 95. *)
Lemma advanced_confidence_monotone (n m : nat) :
  n <= m ->
  (Advanced.match_confidence n <= Advanced.match_confidence m <= 95)%Z.
Proof. unfold Advanced.match_confidence. lia. Qed.

Lemma realtime_confidence_monotone (n m : nat) :
  n <= m ->
  (Realtime.match_confidence n <= Realtime.match_confidence m <= 95)%Z.
Proof. unfold Realtime.match_confidence. lia. Qed.

Section AdvancedSkills.
Context {U : Unicode}.
Import Advanced.

Lemma first_matches_nonempty (ps : list Re.regex) (t : pystr)
    (ms : list (nat * nat * Re.caps)) :
  first_matches ps t = Some ms -> 1 <= List.length ms.
Proof.
  induction ps as [|p ps IH]; simpl; [discriminate|].
  destruct (Re.finditer false p t) eqn:E; auto.
  intros H; inversion H; subst. simpl. lia.
Qed.

(** The matches found for a keyword are those of the first of its patterns
    that has any. *)
Lemma first_matches_split (ps : list Re.regex) (t : pystr)
    (ms : list (nat * nat * Re.caps)) :
  first_matches ps t = Some ms ->
  exists before p after,
    ps = before ++ p :: after /\
    (forall q, In q before -> Re.finditer false q t = []) /\
    ms = Re.finditer false p t.
Proof.
  induction ps as [|p ps IH]; simpl; [discriminate|].
  destruct (Re.finditer false p t) eqn:E.
  - intros H. destruct (IH H) as (before & q & after & Hs & Hb & Hms).
    exists (p :: before), q, after. split; [rewrite Hs; reflexivity|].
    split; [|exact Hms]. intros r [<-|Hr]; [exact E|apply Hb; exact Hr].
  - intros H; inversion H; subst. exists [], p, ps.
    split; [reflexivity|]. split; [intros q []|]. symmetry. exact E.
Qed.

Lemma scan_skill_ok (keywords : list string) (text : pystr)
    (st : skill_state) (skill : string) :
  In skill keywords ->
  state_ok keywords (str_lower text) st ->
  state_ok keywords (str_lower text) (scan_skill text (str_lower text) st skill).
Proof.
  intros Hin [Hf [Hk Hr]]. unfold scan_skill.
  destruct (first_matches (skill_patterns (py skill)) (str_lower text))
    as [ms|] eqn:E; [|repeat split; auto].
  destruct (str_in (format_skill_name (py skill)) (found_skills st)) eqn:Ein;
    [repeat split; auto|].
  apply str_in_false in Ein.
  unfold state_ok. cbn [found_skills st_confidence].
  split; [apply NoDup_snoc; auto|].
  split; [apply dict_set_NoDup; auto|].
  apply Forall_forall. intros e He.
  apply dict_set_In in He as [-> | He].
  - exists skill, ms. cbn [fst snd].
    split; [exact Hin|]. split; [exact E|].
    split; [eapply first_matches_nonempty; eauto|]. split; reflexivity.
  - rewrite Forall_forall in Hr. auto.
Qed.

Lemma scan_subcategory_ok (keywords : list string) (text : pystr)
    (acc : sdict (list pystr) * skill_state) (sub : string * list string) :
  incl (snd sub) keywords ->
  slots_ok (fst acc) ->
  NoDup (dict_keys (st_confidence (snd acc))) /\
  Forall (recorded keywords (str_lower text)) (st_confidence (snd acc)) ->
  let acc' := scan_subcategory text (str_lower text) acc sub in
  slots_ok (fst acc') /\
  NoDup (dict_keys (st_confidence (snd acc'))) /\
  Forall (recorded keywords (str_lower text)) (st_confidence (snd acc')).
Proof.
  destruct acc as [cd st]. cbn [fst snd]. intros Hincl Hcd [Hk Hr].
  unfold scan_subcategory.
  set (st0 := {| found_skills := []; st_confidence := st_confidence st;
                 st_context := st_context st; st_years := st_years st |}).
  assert (H0 : state_ok keywords (str_lower text) st0).
  { unfold state_ok, st0. cbn [found_skills st_confidence].
    repeat split; auto. constructor. }
  assert (H1 : state_ok keywords (str_lower text)
                 (fold_left (scan_skill text (str_lower text)) (snd sub) st0)).
  { apply fold_left_invariant; auto.
    intros a b Ha Hb. apply scan_skill_ok; auto. }
  destruct H1 as [Hf' [Hk' Hr']].
  destruct (found_skills (fold_left (scan_skill text (str_lower text)) (snd sub) st0))
    as [|x found] eqn:E; cbn [fst snd].
  - split; [exact Hcd | split; assumption].
  - split; [|split; assumption].
    intros s names Hin.
    apply in_app_or in Hin as [Hin | [Hin | []]].
    + apply Hcd in Hin. exact Hin.
    + inversion Hin; subst. split; [exact Hf' | discriminate].
Qed.

Lemma scan_category_ok (keywords : list string) (text : pystr)
    (acc : sdict (sdict (list pystr)) * skill_state)
    (cat : string * sdict (list string)) :
  incl (flat_map snd (snd cat)) keywords ->
  technical_ok (fst acc) ->
  NoDup (dict_keys (st_confidence (snd acc))) /\
  Forall (recorded keywords (str_lower text)) (st_confidence (snd acc)) ->
  let acc' := scan_category text (str_lower text) acc cat in
  technical_ok (fst acc') /\
  NoDup (dict_keys (st_confidence (snd acc'))) /\
  Forall (recorded keywords (str_lower text)) (st_confidence (snd acc')).
Proof.
  destruct acc as [ts st]. cbn [fst snd]. intros Hincl Hts Hst.
  unfold scan_category.
  set (P := fun a : sdict (list pystr) * skill_state =>
              slots_ok (fst a) /\
              NoDup (dict_keys (st_confidence (snd a))) /\
              Forall (recorded keywords (str_lower text))
                     (st_confidence (snd a))).
  assert (HP : P (fold_left (scan_subcategory text (str_lower text))
                            (snd cat) ([], st))).
  { apply fold_left_invariant.
    - unfold P. cbn [fst snd]. split; [intros ? ? []| exact Hst].
    - intros a b [Ha1 Ha2] Hb. apply scan_subcategory_ok; auto.
      intros x Hx. apply Hincl. apply in_flat_map. exists b; auto. }
  destruct (fold_left (scan_subcategory text (str_lower text)) (snd cat) ([], st))
    as [cd st'].
  destruct HP as [Hcd Hst']. cbn [fst snd] in *.
  split; auto.
  intros c d Hin. apply in_app_or in Hin as [Hin | [Hin | []]].
  - eapply Hts; eauto.
  - inversion Hin; subst. exact Hcd.
Qed.

Lemma scan_database_ok (db : sdict (sdict (list string))) (text : pystr) :
  let r := scan_database db text in
  technical_ok (fst r) /\
  NoDup (dict_keys (st_confidence (snd r))) /\
  Forall (recorded (keywords_of db) (str_lower text)) (st_confidence (snd r)).
Proof.
  unfold scan_database.
  apply (fold_left_invariant
           (fun a => technical_ok (fst a) /\
                     NoDup (dict_keys (st_confidence (snd a))) /\
                     Forall (recorded (keywords_of db) (str_lower text))
                            (st_confidence (snd a)))).
  - cbn [fst snd empty_skill_state st_confidence dict_keys map].
    split; [intros ? ? [] | split; constructor].
  - intros a b [Ha1 Ha2] Hb. apply scan_category_ok; auto.
    intros x Hx. unfold keywords_of. apply in_flat_map. exists b; auto.
Qed.

End AdvancedSkills.

Section RealtimeSkills.
Context {U : Unicode}.
Import Realtime.

Lemma rt_scan_skill_ok (skills : sdict (list string)) (text : pystr)
    (st : skill_state) (skill : string * list string) :
  In skill skills ->
  Forall (rt_recorded skills (str_lower text)) (st_confidence st) ->
  Forall (rt_recorded skills (str_lower text))
         (st_confidence (scan_skill text (str_lower text) st skill)).
Proof.
  intros Hin Hr. unfold scan_skill. destruct skill as [skill_name patterns].
  destruct (total_matches (str_lower text) patterns =? 0) eqn:E; auto.
  apply Nat.eqb_neq in E. cbn [st_confidence].
  apply Forall_forall. intros e He.
  apply dict_set_In in He as [-> | He].
  - exists skill_name, patterns. cbn [fst snd].
    split; [exact Hin|]. split; [lia|]. split; reflexivity.
  - rewrite Forall_forall in Hr. auto.
Qed.

Lemma rt_scan_category_ok (skills : sdict (list string)) (text : pystr)
    (acc : sdict (list pystr) * skill_state)
    (cat : string * sdict (list string)) :
  incl (snd cat) skills ->
  Forall (rt_recorded skills (str_lower text)) (st_confidence (snd acc)) ->
  Forall (rt_recorded skills (str_lower text))
         (st_confidence (snd (scan_category text (str_lower text) acc cat))).
Proof.
  destruct acc as [found st]. cbn [fst snd]. intros Hincl Hr.
  unfold scan_category. cbn [snd].
  apply (fold_left_invariant
           (fun s => Forall (rt_recorded skills (str_lower text))
                            (st_confidence s))).
  - exact Hr.
  - intros a b Ha Hb. apply rt_scan_skill_ok; auto.
Qed.

Lemma extract_skills_realtime_ok (text : pystr) :
  Forall (rt_recorded (rt_skills_of skill_patterns) (str_lower text))
         (confidence_scores (extract_skills_realtime text)).
Proof.
  unfold extract_skills_realtime.
  set (init := ([], {| category_skills := []; st_confidence := [];
                       st_contexts := [] |})
               : sdict (list pystr) * skill_state).
  assert (H : Forall (rt_recorded (rt_skills_of skill_patterns) (str_lower text))
                (st_confidence
                   (snd (fold_left (scan_category text (str_lower text))
                                   skill_patterns init)))).
  { apply (fold_left_invariant
             (fun a => Forall (rt_recorded (rt_skills_of skill_patterns)
                                           (str_lower text))
                              (st_confidence (snd a)))).
    - constructor.
    - intros a b Ha Hb. apply rt_scan_category_ok; auto.
      intros x Hx. unfold rt_skills_of. apply in_flat_map. exists b; auto. }
  destruct (fold_left (scan_category text (str_lower text)) skill_patterns init)
    as [found st].
  exact H.
Qed.

End RealtimeSkills.

(** The technical skills and the confidence scores of
    [extract_comprehensive_skills] are those of the scan of the table. *)
Lemma extract_comprehensive_skills_scores {U : Unicode} (text : pystr) :
  Advanced.skill_confidence_scores (Advanced.extract_comprehensive_skills text)
  = Advanced.st_confidence
      (snd (Advanced.scan_database Advanced.skill_database text)).
Proof.
  unfold Advanced.extract_comprehensive_skills.
  destruct (Advanced.scan_database Advanced.skill_database text) as [ts st].
  reflexivity.
Qed.

Lemma extract_comprehensive_skills_technical {U : Unicode} (text : pystr) :
  Advanced.technical_skills (Advanced.extract_comprehensive_skills text)
  = fst (Advanced.scan_database Advanced.skill_database text).
Proof.
  unfold Advanced.extract_comprehensive_skills.
  destruct (Advanced.scan_database Advanced.skill_database text) as [ts st].
  reflexivity.
Qed.

(** C7, the real-time analyzer uses another formula: the one match of
    "python" is recorded with confidence 75, where the formula of the claim
    gives min(1 * 10 + 50, 95) = 60. *)
Lemma C7_realtime_other_formula :
  let text := py "python" in
  Realtime.total_matches (str_lower text)
    ["\bpython\b"; "\bpy\b"; "\bdjango\b"; "\bflask\b"; "\bfastapi\b"] = 1 /\
  Realtime.confidence_scores (Realtime.extract_skills_realtime text)
    = [(py "Python", 75%Z)] /\
  Z.min (1 * 10 + 50) 95 = 60%Z.
Proof. vm_compute. repeat split; reflexivity. Qed.

(** C7 (amended): in the advanced analyzer the confidence recorded for a
    display name is [min(n * 10 + 50, 95)], [n >= 1] being the number of
    matches of the first pattern that matches, among the patterns of a
    keyword with that display name: no pattern before it matches.  In the
    real-time analyzer it is [min(n * 15 + 60, 95)], [n >= 1] being the
    number of matches of all the patterns of the skill.  Both are
    non-decreasing in [n] and never exceed 95. *)
Theorem C7_skill_confidence :
  (forall (U : Unicode) (text name : pystr) (c : Z),
     In (name, c)
        (Advanced.skill_confidence_scores
           (Advanced.extract_comprehensive_skills text)) ->
     exists (skill : string) (before : list Re.regex) (pattern : Re.regex)
            (after : list Re.regex) (n : nat),
       In skill (keywords_of Advanced.skill_database) /\
       Advanced.format_skill_name (py skill) = name /\
       Advanced.skill_patterns (py skill) = before ++ pattern :: after /\
       (forall earlier, In earlier before ->
                        Re.finditer false earlier (str_lower text) = []) /\
       n = List.length (Re.finditer false pattern (str_lower text)) /\
       1 <= n /\
       c = Z.min (Z.of_nat n * 10 + 50) 95)
  /\
  (forall (U : Unicode) (text name : pystr) (c : Z),
     In (name, c)
        (Realtime.confidence_scores (Realtime.extract_skills_realtime text)) ->
     exists (skill_name : string) (patterns : list string) (n : nat),
       In (skill_name, patterns) (rt_skills_of Realtime.skill_patterns) /\
       Realtime.format_skill_name (py skill_name) = name /\
       n = Realtime.total_matches (str_lower text) patterns /\
       1 <= n /\
       c = Z.min (Z.of_nat n * 15 + 60) 95)
  /\
  (forall n m : nat,
     n <= m ->
     (Z.min (Z.of_nat n * 10 + 50) 95 <= Z.min (Z.of_nat m * 10 + 50) 95 <= 95)%Z /\
     (Z.min (Z.of_nat n * 15 + 60) 95 <= Z.min (Z.of_nat m * 15 + 60) 95 <= 95)%Z).
Proof.
  split; [|split].
  - intros U text name c Hin.
    rewrite extract_comprehensive_skills_scores in Hin.
    destruct (scan_database_ok Advanced.skill_database text) as [_ [_ Hr]].
    rewrite Forall_forall in Hr.
    destruct (Hr _ Hin) as [skill [ms [Hk [Hfm [Hn [Hname Hc]]]]]].
    cbn [fst snd] in Hname, Hc.
    destruct (first_matches_split _ _ _ Hfm)
      as (before & p & after & Hs & Hb & Hms).
    exists skill, before, p, after, (List.length ms).
    split; [exact Hk|]. split; [exact Hname|]. split; [exact Hs|].
    split; [exact Hb|].
    split; [rewrite Hms; reflexivity|]. split; [exact Hn|].
    rewrite Hc. reflexivity.
  - intros U text name c Hin.
    pose proof (extract_skills_realtime_ok text) as Hr.
    rewrite Forall_forall in Hr.
    destruct (Hr _ Hin) as [skill_name [patterns [Hk [Hn [Hname Hc]]]]].
    cbn [fst snd] in Hname, Hc.
    exists skill_name, patterns, (Realtime.total_matches (str_lower text) patterns).
    split; [exact Hk|]. split; [exact Hname|]. split; [reflexivity|].
    split; [exact Hn|]. rewrite Hc. reflexivity.
  - intros n m Hle. split; lia.
Qed.

(** Witness of C7: the confidences recorded for "python python" by the two
    analyzers. *)
Lemma C7_skill_confidence_witness :
  (exists n, 1 <= n /\ 70%Z = Z.min (Z.of_nat n * 10 + 50) 95) /\
  (exists n, 1 <= n /\ 90%Z = Z.min (Z.of_nat n * 15 + 60) 95) /\
  (Z.min (Z.of_nat 1 * 10 + 50) 95 <= Z.min (Z.of_nat 2 * 10 + 50) 95)%Z.
Proof.
  split; [|split].
  - destruct (proj1 C7_skill_confidence AsciiUnicode (py "python python")
                (py "Python") 70%Z)
      as [skill [before [pattern [after [n [_ [_ [_ [_ [_ [Hn Hc]]]]]]]]]]].
    + vm_compute. left. reflexivity.
    + exists n. split; assumption.
  - destruct (proj1 (proj2 C7_skill_confidence) AsciiUnicode
                (py "python python") (py "Python") 90%Z)
      as [skill [patterns [n [_ [_ [_ [Hn Hc]]]]]]].
    + vm_compute. left. reflexivity.
    + exists n. split; assumption.
  - apply (proj2 (proj2 C7_skill_confidence) 1 2). lia.
Defined.

(** The first matching pattern decides: 'node.js' is found once by the
    first pattern of its keyword and twice by the fourth, and the
    confidence recorded is that of one match. *)
Lemma first_pattern_decides :
  dict_get (Advanced.skill_confidence_scores
              (@Advanced.extract_comprehensive_skills AsciiUnicode
                 (py "node.js nodejs nodejs")))
           (py "Node.Js") = Some 60%Z.
Proof. vm_compute. reflexivity. Qed.

(** C10, a display name in two slots: for a resume that mentions React,
    React is recorded under programming_languages / javascript and under
    web_technologies / frameworks. *)
Lemma C10_react_in_two_slots :
  let ts := Advanced.technical_skills
              (Advanced.extract_comprehensive_skills (py "react")) in
  sdict_get ts "programming_languages" = Some [("javascript", [py "React"])] /\
  sdict_get ts "web_technologies" = Some [("frameworks", [py "React"])] /\
  ~ NoDup (List.concat (Advanced.slots ts)).
Proof.
  split; [vm_compute; reflexivity|].
  split; [vm_compute; reflexivity|].
  assert (E : List.concat
                (Advanced.slots
                   (Advanced.technical_skills
                      (Advanced.extract_comprehensive_skills (py "react"))))
              = [py "React"; py "React"]) by (vm_compute; reflexivity).
  cbv zeta. rewrite E. intros H.
  inversion H as [|? ? Hnot _]; subst. apply Hnot. left. reflexivity.
Qed.

(** C10 (amended): within one (category, subcategory) slot of the extracted
    technical skills no display name appears twice, and the confidence
    scores hold one entry per display name; the same display name can
    appear in the slots of several subcategories. *)
Theorem C10_unique_within_slot :
  forall (U : Unicode) (text : pystr),
    let sa := Advanced.extract_comprehensive_skills text in
    (forall category slots_of_category subcategory names,
       In (category, slots_of_category) (Advanced.technical_skills sa) ->
       In (subcategory, names) slots_of_category ->
       NoDup names /\ names <> []) /\
    NoDup (dict_keys (Advanced.skill_confidence_scores sa)).
Proof.
  intros U text sa. unfold sa.
  rewrite extract_comprehensive_skills_scores,
    extract_comprehensive_skills_technical.
  destruct (scan_database_ok Advanced.skill_database text) as [Hts [Hk _]].
  split; [|exact Hk].
  intros category d subcategory names Hc Hs.
  exact (Hts category d Hc subcategory names Hs).
Qed.

(** Witness of C10: the slot programming_languages / javascript of a resume
    that mentions React and Vue. *)
Lemma C10_unique_within_slot_witness :
  NoDup [py "React"; py "Vue"].
Proof.
  apply (proj1 (C10_unique_within_slot AsciiUnicode (py "react vue"))
           "programming_languages" [("javascript", [py "React"; py "Vue"])]
           "javascript" [py "React"; py "Vue"]).
  - vm_compute. left. reflexivity.
  - left. reflexivity.
Defined.

(* ================================================================= *)
(** ** Text extraction *)
(* ================================================================= *)

Lemma find_error_enumerate {A} (err : A -> option exn) (l : list A) :
  forall k,
    find_error (fun x : nat * A => err (snd x))
               (combine (seq k (List.length l)) l)
    = find_error err l.
Proof.
  induction l as [|x t IH]; intros k; [reflexivity|].
  cbn [List.length seq combine find_error snd].
  destruct (err x); [reflexivity|apply IH].
Qed.

Lemma find_error_ext {A} (f g : A -> option exn) (l : list A) :
  (forall x, f x = g x) -> find_error f l = find_error g l.
Proof.
  intros H. induction l as [|x t IH]; [reflexivity|].
  cbn [find_error]. rewrite H, IH. reflexivity.
Qed.

(** A loop that does not raise adds the texts of all its elements. *)
Lemma appended_all {A} (step : A -> pystr * option exn) (l : list A) :
  (forall x, snd (step x) = None) ->
  appended step l = List.concat (map (fun x => fst (step x)) l) /\
  find_error (fun x => snd (step x)) l = None.
Proof.
  intros H. induction l as [|x t [IH1 IH2]]; [split; reflexivity|].
  cbn [appended find_error map List.concat]. rewrite H, IH1, IH2.
  split; reflexivity.
Qed.

(** A loop whose body adds text, and touches nothing else that [proj]
    sees, ends with the first exception of its calls; it has added the text
    of the elements before the exception. *)
Lemma for_each_appended {S T A} (proj : S -> T) (txt : S -> pystr)
    (f : A -> M S unit) (step : A -> pystr * option exn) :
  (forall x s, exists s',
      f x s = (outcome (snd (step x)), s') /\
      proj s' = proj s /\ txt s' = txt s ++ fst (step x)) ->
  forall l s, exists s',
    for_each l f s = (outcome (find_error (fun x => snd (step x)) l), s') /\
    proj s' = proj s /\ txt s' = txt s ++ appended step l.
Proof.
  intros Hf l. induction l as [|x t IH]; intros s.
  - exists s. cbn [appended]. rewrite app_nil_r. repeat split.
  - cbn [for_each find_error appended]. unfold bind.
    destruct (Hf x s) as (s1 & E1 & P1 & T1). rewrite E1.
    destruct (snd (step x)) as [e|]; cbn [outcome].
    + exists s1. repeat split; assumption.
    + destruct (IH s1) as (s2 & E2 & P2 & T2). exists s2.
      split; [exact E2|]. split; [congruence|].
      rewrite T2, T1, <- app_assoc. reflexivity.
Qed.

Ltac loop_step proj txt step :=
  match goal with
  | |- context [@for_each ?S ?A ?l ?f ?s] =>
      let s1 := fresh "s" in
      let E := fresh "E" in
      let P := fresh "P" in
      let X := fresh "X" in
      let Hf := fresh "Hf" in
      assert (Hf : forall x s0, exists s',
                 f x s0 = (outcome (snd (step x)), s') /\
                 proj s' = proj s0 /\ txt s' = txt s0 ++ fst (step x));
      [ | destruct (@for_each_appended S _ A proj txt f step Hf l s)
            as (s1 & E & P & X);
          rewrite E; clear E Hf ]
  end.

Section AdvancedExtractionFacts.
Context {U : Unicode} {L : PdfLibs}.
Import Advanced.

Ltac run :=
  cbv beta iota delta
    [try_except pymupdf_block pdfplumber_block pypdf2_block raw_bytes_block
     bind try_method set_meta modify call set_page_count get_text get ret
     record_failure append_error set_success set_text append_text set_quality].

Ltac proj := cbn [x_meta x_text methods_tried successful_method page_count
                  extraction_quality errors failure_message outcome accepts].

Ltac done_with X P :=
  do 2 eexists; (split; [reflexivity|]); proj;
  rewrite ?X, ?P; proj; rewrite ?app_nil_r;
  repeat split; try reflexivity.

Lemma pymupdf_strategy_ok (pdf_bytes : bytes) :
  strategy_ok "pymupdf" "excellent" "PyMuPDF extraction failed: "
    (pymupdf_failure pdf_bytes) (pymupdf_text pdf_bytes) 200
    (try_except (pymupdf_block pdf_bytes)
       (record_failure "PyMuPDF extraction failed: ")).
Proof.
  intros s. unfold pymupdf_failure, pymupdf_text. run.
  destruct (fitz_open pdf_bytes) as [d|e].
  - loop_step x_meta x_text pymupdf_page.
    + intros [n p] s0. unfold pymupdf_page. cbn [fst snd].
      destruct p as [t|e]; cbn [fst snd outcome].
      * destruct (strip t); eexists; cbn [x_meta x_text];
          rewrite ?app_nil_r; repeat split.
      * eexists. rewrite app_nil_r. repeat split.
    + cbn [x_meta x_text methods_tried successful_method page_count
           extraction_quality errors] in P, X.
      assert (Ef : find_error (fun x => snd (pymupdf_page x))
                              (enumerate (fitz_pages d))
                   = find_error result_error (fitz_pages d)).
      { transitivity (find_error
                        (fun x : nat * result pystr => result_error (snd x))
                        (enumerate (fitz_pages d))).
        - apply find_error_ext. intros [n p]. unfold pymupdf_page. cbn [snd].
          destruct p; reflexivity.
        - apply find_error_enumerate. }
      rewrite Ef.
      destruct (find_error result_error (fitz_pages d)) as [e|]; proj.
      * done_with X P.
      * destruct (fitz_close d) as [[]|e]; cbn [result_error].
        -- proj.
           destruct (pymupdf_threshold <? List.length (strip (x_text s0)))
             eqn:Ht; do 2 eexists; (split; [reflexivity|]); proj;
             rewrite ?P; proj; rewrite ?app_nil_r;
             rewrite X in *; unfold pymupdf_threshold in Ht; rewrite Ht;
             repeat split; try reflexivity; exact X.
        -- done_with X P.
  - do 2 eexists. split; [reflexivity|]. proj. rewrite app_nil_r.
    repeat split.
Qed.

(** The loops over the tables of a page and over their rows do not raise. *)
Lemma rows_added (table : plumber_table) (s : xstate) :
  exists s',
    for_each table
      (fun row =>
         match row with
         | Some (c :: r) => append_text (table_row (c :: r))
         | _ => ret tt
         end) s = (Ok tt, s') /\
    x_meta s' = x_meta s /\
    x_text s' = x_text s
      ++ List.concat
           (map (fun row : option (list (option pystr)) =>
                   match row with
                   | Some (c :: r) => table_row (c :: r)
                   | _ => []
                   end) table).
Proof.
  loop_step x_meta x_text
    (fun row : option (list (option pystr)) =>
       (match row with
        | Some (c :: r) => table_row (c :: r)
        | _ => []
        end, @None exn)).
  - intros row s1. cbn [fst snd outcome].
    destruct row as [[|c r]|]; eexists; cbn [x_meta x_text];
      rewrite ?app_nil_r; repeat split.
  - match type of X with
    | context [appended ?step table] =>
        destruct (appended_all step table (fun _ => eq_refl)) as [Ea Ee]
    end.
    rewrite Ee. cbn [fst snd] in Ea, X. exists s0.
    rewrite X, Ea. repeat split; assumption.
Qed.

Lemma tables_added (page_num : nat) (tables : list (nat * plumber_table))
    (s : xstate) :
  exists s',
    for_each tables
      (fun '(table_num, table) =>
         (append_text (table_header table_num page_num) ;;
          for_each table
            (fun row =>
               match row with
               | Some (c :: r) => append_text (table_row (c :: r))
               | _ => ret tt
               end))%eff) s = (Ok tt, s') /\
    x_meta s' = x_meta s /\
    x_text s' = x_text s ++ List.concat (map (table_text page_num) tables).
Proof.
  loop_step x_meta x_text
    (fun x : nat * plumber_table => (table_text page_num x, @None exn)).
  - intros [tn table] s1. cbn [fst snd outcome].
    unfold bind at 1, append_text at 1, modify at 1.
    match goal with
    | |- context [for_each table _ ?s2] =>
        destruct (rows_added table s2) as (s3 & E & P & X)
    end.
    rewrite E. exists s3. cbn [x_meta x_text] in P, X.
    rewrite P, X. unfold table_text. cbn [fst snd].
    rewrite <- !app_assoc. repeat split.
  - match type of X with
    | context [appended ?step tables] =>
        destruct (appended_all step tables (fun _ => eq_refl)) as [Ea Ee]
    end.
    rewrite Ee. cbn [fst snd] in Ea, X. exists s0.
    rewrite X, Ea. repeat split; assumption.
Qed.

Lemma pdfplumber_page_added (x : nat * plumber_page) (s : xstate) :
  exists s',
    (let '(page_num, page) := x in
     (page_text <- call (plumber_extract_text page) ;;
     match page_text with
     | Some (c :: t) => append_text (page_block page_num (c :: t))
     | _ => ret tt
     end ;;
     tables <- call (plumber_extract_tables page) ;;
     for_each (enumerate tables)
       (fun '(table_num, table) =>
          append_text (table_header table_num page_num) ;;
          for_each table
            (fun row =>
               match row with
               | Some (c :: r) => append_text (table_row (c :: r))
               | _ => ret tt
               end)))%eff) s
    = (outcome (snd (pdfplumber_page x)), s') /\
    x_meta s' = x_meta s /\
    x_text s' = x_text s ++ fst (pdfplumber_page x).
Proof.
  destruct x as [n p]. unfold pdfplumber_page. cbn [fst snd].
  unfold bind at 1, call at 1.
  destruct (plumber_extract_text p) as [t|e]; cbn [fst snd outcome];
    [|eexists; rewrite app_nil_r; repeat split].
  assert (Hb : exists s1,
             (match t with
              | Some (c :: t0) => append_text (page_block n (c :: t0))
              | _ => ret tt
              end) s = (Ok tt, s1) /\
             x_meta s1 = x_meta s /\
             x_text s1 = x_text s
               ++ match t with
                  | Some (c :: t0) => page_block n (c :: t0)
                  | _ => []
                  end).
  { destruct t as [[|c t0]|]; eexists; rewrite ?app_nil_r; repeat split. }
  destruct Hb as (s1 & E1 & M1 & T1).
  unfold bind at 1. rewrite E1. unfold bind at 1, call at 1.
  destruct (plumber_extract_tables p) as [tables|e]; cbn [fst snd outcome].
  - destruct (tables_added n (enumerate tables) s1) as (s2 & E2 & M2 & T2).
    rewrite E2. exists s2. rewrite M2, T2, M1, T1, <- !app_assoc.
    repeat split.
  - exists s1. repeat split; assumption.
Qed.

Lemma pdfplumber_strategy_ok (pdf_bytes : bytes) :
  strategy_ok "pdfplumber" "good" "pdfplumber extraction failed: "
    (pdfplumber_failure true pdf_bytes) (pdfplumber_text pdf_bytes) 200
    (try_except (pdfplumber_block pdf_bytes)
       (record_failure "pdfplumber extraction failed: ")).
Proof.
  intros s. unfold pdfplumber_failure, pdfplumber_text. run.
  destruct (pdfplumber_open pdf_bytes) as [pages|e].
  - loop_step x_meta x_text pdfplumber_page.
    + intros x s0. apply (pdfplumber_page_added x s0).
    + cbn [x_meta x_text methods_tried successful_method page_count
           extraction_quality errors] in P, X.
      assert (Ef : find_error (fun x => snd (pdfplumber_page x))
                              (enumerate pages)
                   = find_error (plumber_page_error true) pages).
      { transitivity (find_error
                        (fun x : nat * plumber_page =>
                           plumber_page_error true (snd x))
                        (enumerate pages)).
        - apply find_error_ext. intros [n p].
          unfold pdfplumber_page, plumber_page_error. cbn [snd].
          destruct (plumber_extract_text p); [|reflexivity].
          destruct (plumber_extract_tables p); reflexivity.
        - apply find_error_enumerate. }
      rewrite Ef.
      destruct (find_error (plumber_page_error true) pages) as [e|]; proj.
      * done_with X P.
      * destruct (pdfplumber_threshold <? List.length (strip (x_text s0)))
          eqn:Ht; do 2 eexists; (split; [reflexivity|]); proj;
          rewrite ?P; proj; rewrite ?app_nil_r;
          rewrite X in *; unfold pdfplumber_threshold in Ht; rewrite Ht;
          repeat split; try reflexivity; exact X.
  - do 2 eexists. split; [reflexivity|]. proj. rewrite app_nil_r.
    repeat split.
Qed.

Lemma pypdf2_strategy_ok (pdf_bytes : bytes) :
  strategy_ok "pypdf2" "basic" "PyPDF2 extraction failed: "
    (pypdf2_failure pdf_bytes) (pypdf2_text pdf_bytes) 100
    (try_except (pypdf2_block pdf_bytes)
       (record_failure "PyPDF2 extraction failed: ")).
Proof.
  intros s. unfold pypdf2_failure, pypdf2_text. run.
  destruct (PdfReader pdf_bytes) as [pages|e].
  - loop_step x_meta x_text pypdf2_page.
    + intros [n p] s0. unfold pypdf2_page. cbn [fst snd].
      destruct p as [t|e]; cbn [fst snd outcome].
      * destruct t; eexists; cbn [x_meta x_text fst snd outcome];
          rewrite ?app_nil_r; repeat split.
      * eexists. rewrite app_nil_r. repeat split.
    + cbn [x_meta x_text methods_tried successful_method page_count
           extraction_quality errors] in P, X.
      assert (Ef : find_error (fun x => snd (pypdf2_page x)) (enumerate pages)
                   = find_error result_error pages).
      { transitivity (find_error
                        (fun x : nat * result pystr => result_error (snd x))
                        (enumerate pages)).
        - apply find_error_ext. intros [n p]. unfold pypdf2_page. cbn [snd].
          destruct p as [[|c t]|]; reflexivity.
        - apply find_error_enumerate. }
      rewrite Ef.
      destruct (find_error result_error pages) as [e|]; proj.
      * done_with X P.
      * destruct (pypdf2_threshold <? List.length (strip (x_text s0)))
          eqn:Ht; do 2 eexists; (split; [reflexivity|]); proj;
          rewrite ?P; proj; rewrite ?app_nil_r;
          rewrite X in *; unfold pypdf2_threshold in Ht; rewrite Ht;
          repeat split; try reflexivity; exact X.
  - do 2 eexists. split; [reflexivity|]. proj. rewrite app_nil_r.
    repeat split.
Qed.

(** The raw strategy does not fail; it returns exactly when it counts more
    than 50 readable words, with the cleaned bytes as the text. *)
Lemma raw_bytes_strategy (pdf_bytes : bytes) (s : xstate) :
  exists s',
    try_except (raw_bytes_block pdf_bytes)
      (record_failure "Raw extraction failed: ") s
    = (Ok (raw_bytes_accepts pdf_bytes), s') /\
    methods_tried (x_meta s') = methods_tried (x_meta s) ++ ["raw_bytes"] /\
    errors (x_meta s') = errors (x_meta s) /\
    if raw_bytes_accepts pdf_bytes
    then successful_method (x_meta s') = Some "raw_bytes" /\
         extraction_quality (x_meta s') = "poor" /\
         x_text s' = raw_cleaned_text pdf_bytes
    else successful_method (x_meta s') = successful_method (x_meta s) /\
         extraction_quality (x_meta s') = extraction_quality (x_meta s).
Proof.
  unfold raw_bytes_accepts. run. cbv zeta.
  change raw_word_threshold with 50.
  destruct (50 <? List.length (readable_words (raw_cleaned_text pdf_bytes)));
    eexists; (split; [reflexivity|]); proj; repeat split.
Qed.

(** [extract_text_from_pdf] returns, in one of its five ways. *)
Lemma extract_text_from_pdf_outcome (pdf_bytes : bytes) :
  exists text meta,
    extract_text_from_pdf pdf_bytes = Ok (text, meta) /\
    extraction_outcome pdf_bytes text meta.
Proof.
  unfold extract_text_from_pdf, strategies, extraction_outcome, errors_after,
    pymupdf_accepts, pdfplumber_accepts, pypdf2_accepts,
    text_after_pymupdf, text_after_pdfplumber, text_after_pypdf2.
  cbn [run_strategies firstn List.concat]. unfold bind at 1.
  destruct (pymupdf_strategy_ok pdf_bytes xstate_init)
    as (r1 & s1 & E1 & M1 & R1 & T1 & A1 & O1).
  rewrite E1. cbn [xstate_init x_meta x_text methods_tried errors
                   successful_method extraction_quality app]
    in M1, R1, T1, A1, O1.
  destruct r1.
  { destruct O1 as (S1 & Q1).
    assert (F1 : pymupdf_failure pdf_bytes = None).
    { destruct (pymupdf_failure pdf_bytes); [discriminate A1|reflexivity]. }
    rewrite F1 in R1. cbn [failure_message] in R1.
    exists (x_text s1), (x_meta s1). split; [reflexivity|].
    left. rewrite <- A1. auto 10. }
  destruct O1 as (S1 & Q1). unfold bind at 1.
  destruct (pdfplumber_strategy_ok pdf_bytes s1)
    as (r2 & s2 & E2 & M2 & R2 & T2 & A2 & O2).
  rewrite E2. rewrite M1 in M2. rewrite R1 in R2. rewrite T1 in T2, A2.
  cbn [app] in M2.
  destruct r2.
  { destruct O2 as (S2 & Q2).
    assert (F2 : pdfplumber_failure true pdf_bytes = None).
    { destruct (pdfplumber_failure true pdf_bytes);
        [discriminate A2|reflexivity]. }
    rewrite F2 in R2. cbn [failure_message] in R2.
    exists (x_text s2), (x_meta s2). split; [reflexivity|].
    right; left. rewrite <- A1, <- A2. rewrite !app_nil_r in *. auto 10. }
  destruct O2 as (S2 & Q2). unfold bind at 1.
  destruct (pypdf2_strategy_ok pdf_bytes s2)
    as (r3 & s3 & E3 & M3 & R3 & T3 & A3 & O3).
  rewrite E3. rewrite M2 in M3. rewrite R2 in R3. rewrite T2 in T3, A3.
  cbn [app] in M3.
  destruct r3.
  { destruct O3 as (S3 & Q3).
    assert (F3 : pypdf2_failure pdf_bytes = None).
    { destruct (pypdf2_failure pdf_bytes); [discriminate A3|reflexivity]. }
    rewrite F3 in R3. cbn [failure_message] in R3.
    exists (x_text s3), (x_meta s3). split; [reflexivity|].
    right; right; left. rewrite <- A1, <- A2, <- A3.
    rewrite !app_nil_r in *. auto 10. }
  destruct O3 as (S3 & Q3). unfold bind at 1.
  destruct (raw_bytes_strategy pdf_bytes s3) as (s4 & E4 & M4 & R4 & O4).
  rewrite E4. rewrite M3 in M4. rewrite R3 in R4. cbn [app] in M4.
  rewrite <- app_assoc in R4. rewrite <- A1, <- A2, <- A3.
  destruct (raw_bytes_accepts pdf_bytes).
  { destruct O4 as (S4 & Q4 & T4).
    exists (x_text s4), (x_meta s4). split; [reflexivity|].
    right; right; right; left. rewrite !app_nil_r in *. auto 12. }
  destruct O4 as (S4 & Q4).
  eexists; eexists. split; [reflexivity|].
  right; right; right; right.
  cbn [x_meta methods_tried successful_method extraction_quality errors].
  rewrite !app_nil_r in *.
  do 4 (split; [reflexivity|]).
  split; [exact M4|]. split; [congruence|]. split; [reflexivity|].
  split; [exact R4|reflexivity].
Qed.

End AdvancedExtractionFacts.

Section RealtimeExtractionFacts.
Context {U : Unicode} {L : PdfLibs}.
Import Realtime.

Ltac run :=
  cbv beta iota delta
    [try_except pymupdf_block pdfplumber_block pypdf2_block
     bind modify call set_page_count get_text get ret
     log_failure log set_success set_text append_text].

Ltac proj := cbn [x_info x_text x_log method success text_length
                  info_page_count failure_message outcome accepts fst snd].

Lemma rt_pymupdf_strategy (pdf_bytes : bytes) (s : xstate) :
  exists s',
    try_except (pymupdf_block pdf_bytes) (log_failure "PyMuPDF failed: ") s
      = (Ok (rt_pymupdf_accepts pdf_bytes), s') /\
    x_log s' = x_log s
               ++ failure_message "PyMuPDF failed: " (pymupdf_failure pdf_bytes) /\
    if rt_pymupdf_accepts pdf_bytes
    then method (x_info s') = "pymupdf" /\ success (x_info s') = true /\
         text_length (x_info s') = List.length (x_text s') /\
         x_text s' = plain_pymupdf_text pdf_bytes
    else method (x_info s') = method (x_info s) /\
         success (x_info s') = success (x_info s) /\
         text_length (x_info s') = text_length (x_info s).
Proof.
  unfold rt_pymupdf_accepts, pymupdf_failure, plain_pymupdf_text. run.
  destruct (fitz_open pdf_bytes) as [d|e].
  - loop_step (fun s : xstate => (x_info s, x_log s)) x_text
              plain_pymupdf_page.
    + intros p s0. unfold plain_pymupdf_page.
      destruct p as [t|e]; cbn [fst snd outcome].
      * destruct (strip t); eexists; cbn [x_info x_log x_text];
          rewrite ?app_nil_r; repeat split.
      * eexists. rewrite app_nil_r. repeat split.
    + injection P as Pi Pl. cbn [x_text app] in X.
      assert (Ef : find_error (fun x => snd (plain_pymupdf_page x))
                              (fitz_pages d)
                   = find_error result_error (fitz_pages d)).
      { apply find_error_ext. intros p. unfold plain_pymupdf_page.
        destruct p; reflexivity. }
      rewrite Ef.
      destruct (find_error result_error (fitz_pages d)) as [e|]; proj.
      * eexists. split; [reflexivity|]. proj. rewrite Pi, Pl. proj.
        repeat split.
      * destruct (fitz_close d) as [[]|e]; cbn [result_error]; proj.
        -- rewrite <- X.
           destruct (100 <? List.length (strip (x_text s0)));
             eexists; (split; [reflexivity|]); proj;
             rewrite ?Pi, Pl; proj; rewrite app_nil_r; repeat split.
        -- eexists. split; [reflexivity|]. proj. rewrite Pi, Pl. proj.
           repeat split.
  - eexists. split; [reflexivity|]. proj. repeat split.
Qed.

Lemma rt_pdfplumber_strategy (pdf_bytes : bytes) (s : xstate) :
  exists s',
    try_except (pdfplumber_block pdf_bytes) (log_failure "pdfplumber failed: ") s
      = (Ok (rt_pdfplumber_accepts pdf_bytes), s') /\
    x_log s' = x_log s
               ++ failure_message "pdfplumber failed: "
                    (pdfplumber_failure false pdf_bytes) /\
    if rt_pdfplumber_accepts pdf_bytes
    then method (x_info s') = "pdfplumber" /\ success (x_info s') = true /\
         text_length (x_info s') = List.length (x_text s') /\
         x_text s' = plain_pdfplumber_text pdf_bytes
    else method (x_info s') = method (x_info s) /\
         success (x_info s') = success (x_info s) /\
         text_length (x_info s') = text_length (x_info s).
Proof.
  unfold rt_pdfplumber_accepts, pdfplumber_failure, plain_pdfplumber_text.
  run.
  destruct (pdfplumber_open pdf_bytes) as [pages|e].
  - loop_step (fun s : xstate => (x_info s, x_log s)) x_text
              plain_pdfplumber_page.
    + intros p s0. unfold plain_pdfplumber_page.
      destruct (plumber_extract_text p) as [t|e]; cbn [fst snd outcome].
      * destruct t as [[|c t0]|]; eexists; cbn [x_info x_log x_text fst snd outcome];
          rewrite ?app_nil_r; repeat split.
      * eexists. rewrite app_nil_r. repeat split.
    + injection P as Pi Pl. cbn [x_text app] in X.
      assert (Ef : find_error (fun x => snd (plain_pdfplumber_page x)) pages
                   = find_error (plumber_page_error false) pages).
      { apply find_error_ext. intros p.
        unfold plain_pdfplumber_page, plumber_page_error.
        destruct (plumber_extract_text p) as [[[|c t0]|]|]; reflexivity. }
      rewrite Ef.
      destruct (find_error (plumber_page_error false) pages) as [e|]; proj.
      * eexists. split; [reflexivity|]. proj. rewrite Pi, Pl. proj.
        repeat split.
      * rewrite <- X.
        destruct (100 <? List.length (strip (x_text s0)));
          eexists; (split; [reflexivity|]); proj;
          rewrite ?Pi, Pl; proj; rewrite app_nil_r; repeat split.
  - eexists. split; [reflexivity|]. proj. repeat split.
Qed.

(** The last strategy has no test: it returns unless PyPDF2 raises. *)
Lemma rt_pypdf2_strategy (pdf_bytes : bytes) (s : xstate) :
  exists returned s',
    try_except (pypdf2_block pdf_bytes)
      (log_failure "All extraction methods failed: ") s
      = (Ok returned, s') /\
    x_log s' = x_log s
               ++ failure_message "All extraction methods failed: "
                    (pypdf2_failure pdf_bytes) /\
    if returned : bool
    then pypdf2_failure pdf_bytes = None /\
         method (x_info s') = "pypdf2" /\ success (x_info s') = true /\
         text_length (x_info s') = List.length (x_text s') /\
         x_text s' = plain_pypdf2_text pdf_bytes
    else pypdf2_failure pdf_bytes <> None /\
         method (x_info s') = method (x_info s) /\
         success (x_info s') = success (x_info s) /\
         text_length (x_info s') = text_length (x_info s).
Proof.
  unfold pypdf2_failure, plain_pypdf2_text. run.
  destruct (PdfReader pdf_bytes) as [pages|e].
  - loop_step (fun s : xstate => (x_info s, x_log s)) x_text
              plain_pypdf2_page.
    + intros p s0. unfold plain_pypdf2_page.
      destruct p as [t|e]; cbn [fst snd outcome].
      * destruct t; eexists; cbn [x_info x_log x_text fst snd outcome];
          rewrite ?app_nil_r; repeat split.
      * eexists. rewrite app_nil_r. repeat split.
    + injection P as Pi Pl. cbn [x_text app] in X.
      assert (Ef : find_error (fun x => snd (plain_pypdf2_page x)) pages
                   = find_error result_error pages).
      { apply find_error_ext. intros p. unfold plain_pypdf2_page.
        destruct p as [[|c t]|]; reflexivity. }
      rewrite Ef.
      destruct (find_error result_error pages) as [e|]; proj.
      * do 2 eexists. split; [reflexivity|]. proj. rewrite Pi, Pl. proj.
        repeat split. discriminate.
      * do 2 eexists. split; [reflexivity|]. proj. rewrite Pl. proj.
        rewrite app_nil_r. repeat split. exact X.
  - do 2 eexists. split; [reflexivity|]. proj. repeat split. discriminate.
Qed.

(** [extract_text_realtime] returns, in one of its four ways. *)
Lemma extract_text_realtime_outcome (pdf_bytes : bytes) :
  exists text info logged,
    extract_text_realtime pdf_bytes = (Ok (text, info), logged) /\
    rt_extraction_outcome pdf_bytes text info logged.
Proof.
  unfold extract_text_realtime, extract_body, rt_extraction_outcome,
    rt_log_after.
  cbn [firstn List.concat]. unfold bind at 1.
  destruct (rt_pymupdf_strategy pdf_bytes xstate_init)
    as (s1 & E1 & R1 & O1).
  rewrite E1. cbn [xstate_init x_info x_log method success text_length app]
    in R1, O1.
  assert (N1 : rt_pymupdf_accepts pdf_bytes = true ->
               pymupdf_failure pdf_bytes = None).
  { unfold rt_pymupdf_accepts.
    destruct (pymupdf_failure pdf_bytes); [discriminate|reflexivity]. }
  destruct (rt_pymupdf_accepts pdf_bytes).
  { destruct O1 as (M1 & S1 & T1 & X1).
    rewrite (N1 eq_refl) in R1. cbn [failure_message] in R1.
    exists (x_text s1), (x_info s1), (x_log s1). split; [reflexivity|].
    left. auto 10. }
  clear N1. destruct O1 as (M1 & S1 & T1). unfold bind at 1.
  destruct (rt_pdfplumber_strategy pdf_bytes s1) as (s2 & E2 & R2 & O2).
  rewrite E2. rewrite R1 in R2.
  assert (N2 : rt_pdfplumber_accepts pdf_bytes = true ->
               pdfplumber_failure false pdf_bytes = None).
  { unfold rt_pdfplumber_accepts.
    destruct (pdfplumber_failure false pdf_bytes);
      [discriminate|reflexivity]. }
  destruct (rt_pdfplumber_accepts pdf_bytes).
  { destruct O2 as (M2 & S2 & T2 & X2).
    rewrite (N2 eq_refl) in R2. cbn [failure_message] in R2.
    exists (x_text s2), (x_info s2), (x_log s2). split; [reflexivity|].
    right; left. rewrite !app_nil_r in *. auto 10. }
  clear N2. destruct O2 as (M2 & S2 & T2). unfold bind at 1.
  destruct (rt_pypdf2_strategy pdf_bytes s2) as (r3 & s3 & E3 & R3 & O3).
  rewrite E3. rewrite R2 in R3. rewrite <- app_assoc in R3.
  destruct r3.
  { destruct O3 as (F3 & M3 & S3 & T3 & X3).
    rewrite F3 in R3. cbn [failure_message] in R3.
    exists (x_text s3), (x_info s3), (x_log s3). split; [reflexivity|].
    right; right; left. rewrite !app_nil_r in *. auto 10. }
  destruct O3 as (F3 & M3 & S3 & T3).
  exists [], (x_info s3), (x_log s3). split; [reflexivity|].
  right; right; right. rewrite !app_nil_r in *.
  do 2 (split; [reflexivity|]). split; [exact F3|].
  split; [congruence|]. split; [congruence|]. split; [congruence|].
  split; [exact R3|reflexivity].
Qed.

End RealtimeExtractionFacts.

Section BasicExtractionFacts.
Context {U : Unicode} {L : PdfLibs}.
Import Basic.

Ltac run :=
  cbv beta iota delta
    [try_except pdfplumber_block pypdf2_block raw_block
     bind modify call get ret].

Lemma basic_pdfplumber_strategy (pdf_bytes : bytes) (s : pystr) :
  try_except (pdfplumber_block pdf_bytes) (fun _ => ret false) s
  = (Ok (accepts (pdfplumber_failure false pdf_bytes) 100
                 (s ++ plain_pdfplumber_text pdf_bytes)),
     s ++ plain_pdfplumber_text pdf_bytes).
Proof.
  unfold pdfplumber_failure, plain_pdfplumber_text. run.
  destruct (pdfplumber_open pdf_bytes) as [pages|e].
  - loop_step (fun _ : pystr => tt) (fun t : pystr => t)
              plain_pdfplumber_page.
    + intros p s0. unfold plain_pdfplumber_page.
      destruct (plumber_extract_text p) as [t|e]; cbn [fst snd outcome].
      * destruct t as [[|c t0]|]; eexists; cbn [fst snd outcome];
          rewrite ?app_nil_r; repeat split.
      * eexists. rewrite app_nil_r. repeat split.
    + assert (Ef : find_error (fun x => snd (plain_pdfplumber_page x)) pages
                   = find_error (plumber_page_error false) pages).
      { apply find_error_ext. intros p.
        unfold plain_pdfplumber_page, plumber_page_error.
        destruct (plumber_extract_text p) as [[[|c t0]|]|]; reflexivity. }
      rewrite Ef. cbv beta in X. subst s0.
      destruct (find_error (plumber_page_error false) pages) as [e|];
        reflexivity.
  - rewrite app_nil_r. reflexivity.
Qed.

Lemma basic_pypdf2_strategy (pdf_bytes : bytes) (s : pystr) :
  try_except (pypdf2_block pdf_bytes) (fun _ => ret false) s
  = (Ok (accepts (pypdf2_failure pdf_bytes) 100
                 (s ++ plain_pypdf2_text pdf_bytes)),
     s ++ plain_pypdf2_text pdf_bytes).
Proof.
  unfold pypdf2_failure, plain_pypdf2_text. run.
  destruct (PdfReader pdf_bytes) as [pages|e].
  - loop_step (fun _ : pystr => tt) (fun t : pystr => t) plain_pypdf2_page.
    + intros p s0. unfold plain_pypdf2_page.
      destruct p as [t|e]; cbn [fst snd outcome].
      * destruct t; eexists; cbn [fst snd outcome];
          rewrite ?app_nil_r; repeat split.
      * eexists. rewrite app_nil_r. repeat split.
    + assert (Ef : find_error (fun x => snd (plain_pypdf2_page x)) pages
                   = find_error result_error pages).
      { apply find_error_ext. intros p. unfold plain_pypdf2_page.
        destruct p as [[|c t]|]; reflexivity. }
      rewrite Ef. cbv beta in X. subst s0.
      destruct (find_error result_error pages) as [e|]; reflexivity.
  - rewrite app_nil_r. reflexivity.
Qed.

(** The basic [extract_text_from_pdf] returns, in one of its three ways. *)
Lemma basic_extract_text_from_pdf_outcome (pdf_bytes : bytes) :
  exists text,
    extract_text_from_pdf pdf_bytes = Ok text /\
    basic_extraction_outcome pdf_bytes text.
Proof.
  unfold extract_text_from_pdf, extract_body, basic_extraction_outcome,
    basic_pdfplumber_accepts, basic_pypdf2_accepts.
  unfold bind at 1. rewrite basic_pdfplumber_strategy. cbn [app].
  destruct (accepts (pdfplumber_failure false pdf_bytes) 100
                    (plain_pdfplumber_text pdf_bytes)).
  { eexists. split; [reflexivity|]. left. auto. }
  unfold bind at 1. rewrite basic_pypdf2_strategy.
  destruct (accepts (pypdf2_failure pdf_bytes) 100
              (plain_pdfplumber_text pdf_bytes ++ plain_pypdf2_text pdf_bytes)).
  { eexists. split; [reflexivity|]. right; left. auto. }
  exists (raw_text pdf_bytes). split; [reflexivity|]. right; right. auto.
Qed.

End BasicExtractionFacts.

(** A strategy passes its test exactly when it has not failed and its
    stripped text is longer than its threshold. *)
Lemma accepts_true (fail : option exn) (threshold : nat) (text : pystr) :
  accepts fail threshold text = true
  <-> fail = None /\ threshold < List.length (strip text).
Proof.
  unfold accepts. destruct fail as [e|].
  - split; [discriminate|]. intros [H _]. discriminate H.
  - rewrite Nat.ltb_lt. split; [auto|]. intros [_ H]. exact H.
Qed.

(** The empty buffer has no readable word, in either analyzer. *)
Lemma empty_buffer_raw {U : Unicode} :
  Advanced.readable_words (Advanced.raw_cleaned_text []) = [] /\
  Basic.raw_text [] = [].
Proof. split; reflexivity. Qed.

(** C3 (what the code does instead): bytes without any document structure
    are not always answered with 'failed' and the empty text.  With
    libraries that reject the bytes, the basic analyzer returns the text
    'hello world' for the bytes of 'hello world' (it has no quality at
    all), and the advanced analyzer returns 51 plain words as a text of 204
    characters, with the method 'raw_bytes' and the quality 'poor'. *)
Lemma C3_unparseable_input_returns_text :
  let words := List.concat (repeat (bytes_of "abc ") 51) in
  @Basic.extract_text_from_pdf AsciiUnicode rejecting_libs
    (bytes_of "hello world") = Ok (py "hello world") /\
  exists text meta,
    @Advanced.extract_text_from_pdf AsciiUnicode rejecting_libs words
      = Ok (text, meta) /\
    Advanced.successful_method meta = Some "raw_bytes" /\
    Advanced.extraction_quality meta = "poor" /\
    List.length text = 204.
Proof.
  cbv zeta. split; [vm_compute; reflexivity|].
  eexists. eexists. split; [vm_compute; reflexivity|].
  split; [reflexivity|]. split; reflexivity.
Qed.

(** C3 (amended): [extract_text_from_pdf] does not raise, whatever the
    bytes are and whatever the three libraries do.  The advanced analyzer
    returns a text and its metadata; the quality is 'failed' exactly when
    no strategy passes its test (pymupdf and pdfplumber: no failure and
    more than 200 characters of stripped text; pypdf2: no failure and more
    than 100; raw_bytes: more than 50 readable words in the cleaned bytes),
    and then the text is empty and no method is recorded; otherwise a
    method is recorded.  In particular the result is 'failed' with the
    empty text when the three libraries fail and the bytes hold at most 50
    readable words, as the empty buffer does.  The basic analyzer returns a
    text and no quality: the text of pdfplumber when that passes (no
    failure, more than 100 characters), else the text of both libraries
    when PyPDF2 passes, else the cleaned bytes, which for the empty buffer
    is the empty text. *)
Theorem C3_extract_never_raises :
  forall (U : Unicode) (L : PdfLibs) (pdf_bytes : bytes),
    (exists text meta,
       Advanced.extract_text_from_pdf pdf_bytes = Ok (text, meta) /\
       (Advanced.extraction_quality meta = "failed"
        <-> pymupdf_accepts pdf_bytes = false /\
            pdfplumber_accepts pdf_bytes = false /\
            pypdf2_accepts pdf_bytes = false /\
            raw_bytes_accepts pdf_bytes = false) /\
       (Advanced.extraction_quality meta = "failed" ->
        text = [] /\ Advanced.successful_method meta = None) /\
       (Advanced.extraction_quality meta <> "failed" ->
        exists m, Advanced.successful_method meta = Some m) /\
       (pymupdf_failure pdf_bytes <> None ->
        pdfplumber_failure true pdf_bytes <> None ->
        pypdf2_failure pdf_bytes <> None ->
        List.length
          (Advanced.readable_words (Advanced.raw_cleaned_text pdf_bytes)) <= 50 ->
        Advanced.extraction_quality meta = "failed" /\ text = [])) /\
    (exists text,
       Basic.extract_text_from_pdf pdf_bytes = Ok text /\
       text = (if basic_pdfplumber_accepts pdf_bytes
               then plain_pdfplumber_text pdf_bytes
               else if basic_pypdf2_accepts pdf_bytes
               then plain_pdfplumber_text pdf_bytes
                    ++ plain_pypdf2_text pdf_bytes
               else Basic.raw_text pdf_bytes) /\
       (pdfplumber_failure false pdf_bytes <> None ->
        pypdf2_failure pdf_bytes <> None ->
        text = Basic.raw_text pdf_bytes)) /\
    raw_bytes_accepts [] = false /\
    Basic.raw_text [] = [].
Proof.
  intros U L pdf_bytes. split; [|split; [|split]].
  - destruct (extract_text_from_pdf_outcome pdf_bytes)
      as (text & meta & E & O).
    exists text, meta. split; [exact E|].
    assert (HQ : (Advanced.extraction_quality meta = "failed"
                  <-> pymupdf_accepts pdf_bytes = false /\
                      pdfplumber_accepts pdf_bytes = false /\
                      pypdf2_accepts pdf_bytes = false /\
                      raw_bytes_accepts pdf_bytes = false) /\
                 (Advanced.extraction_quality meta = "failed" ->
                  text = [] /\ Advanced.successful_method meta = None) /\
                 (Advanced.extraction_quality meta <> "failed" ->
                  exists m, Advanced.successful_method meta = Some m)).
    { unfold extraction_outcome in O.
      destruct O as [O|[O|[O|[O|O]]]].
      - destruct O as (A1 & _ & S & Q & _). rewrite Q, A1.
        split; [|split].
        + split; [discriminate|]. intros [H _]. discriminate H.
        + discriminate.
        + intros _. eexists. exact S.
      - destruct O as (A1 & A2 & _ & S & Q & _). rewrite Q, A1, A2.
        split; [|split].
        + split; [discriminate|]. intros (_ & H & _). discriminate H.
        + discriminate.
        + intros _. eexists. exact S.
      - destruct O as (A1 & A2 & A3 & _ & S & Q & _). rewrite Q, A1, A2, A3.
        split; [|split].
        + split; [discriminate|]. intros (_ & _ & H & _). discriminate H.
        + discriminate.
        + intros _. eexists. exact S.
      - destruct O as (A1 & A2 & A3 & A4 & _ & S & Q & _).
        rewrite Q, A1, A2, A3, A4. split; [|split].
        + split; [discriminate|]. intros (_ & _ & _ & H). discriminate H.
        + discriminate.
        + intros _. eexists. exact S.
      - destruct O as (A1 & A2 & A3 & A4 & _ & S & Q & _ & T).
        rewrite Q, A1, A2, A3, A4. split; [|split].
        + split; auto.
        + intros _. auto.
        + intros H. contradiction H. reflexivity. }
    destruct HQ as (H1 & H2 & H3).
    split; [exact H1|]. split; [exact H2|]. split; [exact H3|].
    intros F1 F2 F3 W.
    assert (Q : Advanced.extraction_quality meta = "failed").
    { apply H1. unfold pymupdf_accepts, pdfplumber_accepts, pypdf2_accepts,
        raw_bytes_accepts, accepts.
      destruct (pymupdf_failure pdf_bytes); [|contradiction F1; reflexivity].
      destruct (pdfplumber_failure true pdf_bytes);
        [|contradiction F2; reflexivity].
      destruct (pypdf2_failure pdf_bytes); [|contradiction F3; reflexivity].
      repeat split. apply Nat.ltb_ge. exact W. }
    split; [exact Q|]. apply H2. exact Q.
  - destruct (basic_extract_text_from_pdf_outcome pdf_bytes) as (text & E & O).
    exists text. split; [exact E|].
    assert (HT : text = (if basic_pdfplumber_accepts pdf_bytes
                         then plain_pdfplumber_text pdf_bytes
                         else if basic_pypdf2_accepts pdf_bytes
                         then plain_pdfplumber_text pdf_bytes
                              ++ plain_pypdf2_text pdf_bytes
                         else Basic.raw_text pdf_bytes)).
    { destruct O as [[A T]|[(A1 & A2 & T)|(A1 & A2 & T)]].
      - rewrite A. exact T.
      - rewrite A1, A2. exact T.
      - rewrite A1, A2. exact T. }
    split; [exact HT|]. intros F2 F3. rewrite HT.
    unfold basic_pdfplumber_accepts, basic_pypdf2_accepts, accepts.
    destruct (pdfplumber_failure false pdf_bytes);
      [|contradiction F2; reflexivity].
    destruct (pypdf2_failure pdf_bytes); [|contradiction F3; reflexivity].
    reflexivity.
  - reflexivity.
  - apply empty_buffer_raw.
Qed.

(** C3 at the empty buffer, with libraries that reject it. *)
Lemma C3_extract_never_raises_witness :
  (exists meta,
     @Advanced.extract_text_from_pdf AsciiUnicode rejecting_libs []
       = Ok ([], meta) /\
     Advanced.extraction_quality meta = "failed") /\
  @Basic.extract_text_from_pdf AsciiUnicode rejecting_libs [] = Ok [].
Proof.
  destruct (C3_extract_never_raises AsciiUnicode rejecting_libs [])
    as [(text & meta & E & _ & _ & _ & H) [(text' & E' & _ & H') [_ R]]].
  split.
  - destruct H as [Q T].
    + discriminate.
    + discriminate.
    + discriminate.
    + apply Nat.le_0_l.
    + exists meta. rewrite <- T. split; [exact E|exact Q].
  - rewrite E'. rewrite H'.
    + rewrite R. reflexivity.
    + discriminate.
    + discriminate.
Defined.

(** C4 (what the code does instead): the raw strategy of the advanced
    analyzer does not test the length of its text.  With libraries that
    reject the bytes, 51 words of three letters are accepted, with a text
    of 204 characters, and 300 digits are not, although their text is
    longer; no minimum length separates the two.  The last strategy of the
    real-time analyzer has no test at all: when PyPDF2 finds no page it
    returns the empty text as a success. *)
Lemma C4_raw_strategy_counts_words :
  let words := List.concat (repeat (bytes_of "abc ") 51) in
  let digits := List.concat (repeat (bytes_of "1") 300) in
  let extract := @Advanced.extract_text_from_pdf AsciiUnicode rejecting_libs in
  (exists text meta,
     extract words = Ok (text, meta) /\
     Advanced.successful_method meta = Some "raw_bytes" /\
     Advanced.extraction_quality meta = "poor" /\
     List.length text = 204) /\
  (exists meta,
     extract digits = Ok ([], meta) /\
     Advanced.successful_method meta = None /\
     Advanced.extraction_quality meta = "failed") /\
  List.length (@Advanced.raw_cleaned_text AsciiUnicode digits) = 300 /\
  fst (@Realtime.extract_text_realtime no_page_libs [])
    = Ok ([], {| Realtime.method := "pypdf2"; Realtime.success := true;
                 Realtime.text_length := 0; Realtime.info_page_count := 0 |}).
Proof.
  cbv zeta. split; [|split; [|split]].
  - eexists. eexists. split; [vm_compute; reflexivity|].
    split; [reflexivity|]. split; reflexivity.
  - eexists. split; [vm_compute; reflexivity|]. split; reflexivity.
  - vm_compute. reflexivity.
  - vm_compute. reflexivity.
Qed.

(** C4 (amended): the advanced [extract_text_from_pdf] tries pymupdf,
    pdfplumber, pypdf2 and raw_bytes in this order and returns at the first
    that passes its own test, every earlier one having run and not passed;
    it records that strategy as the successful method, with its quality
    label.  The tests: no failure and more than 200 characters of stripped
    text for pymupdf ('excellent') and for pdfplumber ('good'), no failure
    and more than 100 for pypdf2 ('basic'), where the text is what the
    strategies so far have read, and more than 50 readable words for
    raw_bytes ('poor'), whose text is the cleaned bytes; when none passes,
    the quality is 'failed' and the text is empty.  The errors are the
    messages of the strategies that have run and failed, in order, so a
    failure stops nothing.  The real-time [extract_text_realtime] tries
    pymupdf, pdfplumber and pypdf2 in this order: the first two return
    when they do not fail and have more than 100 characters of stripped
    text of their own, the third whenever it does not fail; the failures
    are logged, and when the third fails the result is the empty text
    without success. *)
Theorem C4_strategies_in_order :
  forall (U : Unicode) (L : PdfLibs) (pdf_bytes : bytes),
    (exists text meta,
       Advanced.extract_text_from_pdf pdf_bytes = Ok (text, meta) /\
       extraction_outcome pdf_bytes text meta) /\
    (exists text info logged,
       Realtime.extract_text_realtime pdf_bytes = (Ok (text, info), logged) /\
       rt_extraction_outcome pdf_bytes text info logged) /\
    (forall fail threshold text,
       accepts fail threshold text = true
       <-> fail = None /\ threshold < List.length (strip text)) /\
    (raw_bytes_accepts pdf_bytes = true
     <-> 50 < List.length
               (Advanced.readable_words (Advanced.raw_cleaned_text pdf_bytes))).
Proof.
  intros U L pdf_bytes. split; [|split; [|split]].
  - apply extract_text_from_pdf_outcome.
  - apply extract_text_realtime_outcome.
  - apply accepts_true.
  - unfold raw_bytes_accepts. apply Nat.ltb_lt.
Qed.

(* ================================================================= *)
(** ** The analysis entry points *)
(* ================================================================= *)

Lemma bind_ok {S A B} (c : M S A) (f : A -> M S B) (s s1 : S) (a : A) :
  c s = (Ok a, s1) -> bind c f s = f a s1.
Proof. intros H. unfold bind. rewrite H. reflexivity. Qed.

Lemma bind_raised {S A B} (c : M S A) (f : A -> M S B) (s s1 : S) (e : exn) :
  c s = (Raised e, s1) -> bind c f s = (Raised e, s1).
Proof. intros H. unfold bind. rewrite H. reflexivity. Qed.

Lemma try_except_raised {S A} (c : M S A) (h : exn -> M S A) (s s1 : S)
    (e : exn) :
  c s = (Raised e, s1) -> try_except c h s = h e s1.
Proof. intros H. unfold try_except. rewrite H. reflexivity. Qed.

(** One statement that returns: evaluate it, go on with the rest. *)
Ltac run_ok :=
  lazymatch goal with
  | |- bind ?c ?f ?s = _ =>
      let r := eval vm_compute in (c s) in
      lazymatch r with
      | (Ok ?a, ?s1) =>
          transitivity (f a s1);
          [ apply (bind_ok c f s s1 a); vm_compute; reflexivity | cbv beta iota ]
      end
  end.

Section AdvancedAnalysisFacts.
Context {U : Unicode} {L : PdfLibs}.
Variables preprocessing_info suggestion question : Type.
Variable preprocess_text : pystr -> result (pystr * preprocessing_info).
Variable generate_improvement_suggestions :
  pystr -> Advanced.skills_analysis -> Advanced.experience_analysis ->
  result (list suggestion).
Variable generate_interview_questions :
  Advanced.skills_analysis -> Advanced.experience_analysis ->
  result (list question).

Lemma advanced_short_text (pdf_bytes : bytes) (filename text : pystr)
    (meta : Advanced.extraction_metadata) :
  Advanced.extract_text_from_pdf pdf_bytes = Ok (text, meta) ->
  List.length (strip text) < 50 ->
  Advanced.analyze_resume preprocessing_info suggestion question
    preprocess_text generate_improvement_suggestions
    generate_interview_questions pdf_bytes filename
  = (Raised (Exn "ValueError"
               (py "Could not extract meaningful text from PDF")),
     ["extract_text_from_pdf"]).
Proof.
  intros E Hlen. apply Nat.ltb_lt in Hlen.
  unfold Advanced.analyze_resume, Advanced.analyze_body.
  erewrite bind_ok by reflexivity.
  erewrite try_except_raised; cycle 1.
  - apply bind_raised. unfold Advanced.analyze_block. rewrite E.
    run_ok. run_ok.
    apply bind_raised. rewrite Hlen. reflexivity.
  - reflexivity.
Qed.

End AdvancedAnalysisFacts.

Section BasicAnalysisFacts.
Context {U : Unicode} {L : PdfLibs}.
Variables suggestion question score : Type.
Variable preprocess_text : pystr -> result pystr.
Variable generate_improvement_suggestions :
  pystr -> Basic.skills -> result (list suggestion).
Variable generate_interview_questions :
  Basic.skills -> Basic.level -> result (list question).
Variable calculate_overall_score :
  Basic.skills -> Basic.level -> pystr -> result score.

Lemma basic_short_text (pdf_bytes : bytes) (filename text : pystr) :
  Basic.extract_text_from_pdf pdf_bytes = Ok text ->
  List.length (strip text) < 50 ->
  Basic.analyze_resume suggestion question score
    preprocess_text generate_improvement_suggestions
    generate_interview_questions calculate_overall_score pdf_bytes filename
  = (Raised (Exn "ValueError"
               (py "Could not extract meaningful text from PDF")),
     ["extract_text_from_pdf"]).
Proof.
  intros E Hlen. apply Nat.ltb_lt in Hlen.
  unfold Basic.analyze_resume, Basic.analyze_body.
  erewrite try_except_raised; cycle 1.
  - apply bind_raised. unfold Basic.analyze_block. rewrite E.
    run_ok. run_ok.
    apply bind_raised. rewrite Hlen. reflexivity.
  - reflexivity.
Qed.

End BasicAnalysisFacts.

(** C5: when the text [extract_text_from_pdf] returns has, stripped, fewer
    than 50 characters, [analyze_resume] raises
    [ValueError("Could not extract meaningful text from PDF")], in the
    advanced and in the basic analyzer, whatever the later stages would do;
    the only method it has called is [extract_text_from_pdf], so neither
    [calculate_overall_score] nor any other stage is reached. *)
Theorem C5_short_text_aborts :
  forall (U : Unicode) (L : PdfLibs) (pdf_bytes : bytes) (filename : pystr),
    (forall (preprocessing_info suggestion question : Type)
            preprocess_text generate_improvement_suggestions
            generate_interview_questions text meta,
        Advanced.extract_text_from_pdf pdf_bytes = Ok (text, meta) ->
        List.length (strip text) < 50 ->
        Advanced.analyze_resume preprocessing_info suggestion question
          preprocess_text generate_improvement_suggestions
          generate_interview_questions pdf_bytes filename
        = (Raised (Exn "ValueError"
                     (py "Could not extract meaningful text from PDF")),
           ["extract_text_from_pdf"])) /\
    (forall (suggestion question score : Type)
            preprocess_text generate_improvement_suggestions
            generate_interview_questions calculate_overall_score text,
        Basic.extract_text_from_pdf pdf_bytes = Ok text ->
        List.length (strip text) < 50 ->
        Basic.analyze_resume suggestion question score
          preprocess_text generate_improvement_suggestions
          generate_interview_questions calculate_overall_score
          pdf_bytes filename
        = (Raised (Exn "ValueError"
                     (py "Could not extract meaningful text from PDF")),
           ["extract_text_from_pdf"])).
Proof.
  intros U L pdf_bytes filename. split.
  - intros. apply advanced_short_text with (text := text) (meta := meta);
      assumption.
  - intros. apply basic_short_text with (text := text); assumption.
Qed.

(** C5 at an input of 30 characters that the libraries reject. *)
Lemma C5_short_text_aborts_witness :
  let input := bytes_of "thirty characters of a resume." in
  let error :=
    Exn "ValueError" (py "Could not extract meaningful text from PDF") in
  List.length input = 30 /\
  @Advanced.analyze_resume AsciiUnicode rejecting_libs unit unit unit
    (fun text => Ok (text, tt)) (fun _ _ _ => Ok []) (fun _ _ => Ok [])
    input (py "resume.pdf")
  = (Raised error, ["extract_text_from_pdf"]) /\
  @Basic.analyze_resume AsciiUnicode rejecting_libs unit unit unit
    (fun text => Ok text) (fun _ _ => Ok []) (fun _ _ => Ok [])
    (fun _ _ _ => Ok tt)
    input (py "resume.pdf")
  = (Raised error, ["extract_text_from_pdf"]).
Proof.
  cbv zeta. split; [reflexivity|]. split.
  - eapply (proj1 (C5_short_text_aborts AsciiUnicode rejecting_libs
                     (bytes_of "thirty characters of a resume.")
                     (py "resume.pdf"))).
    + vm_compute. reflexivity.
    + vm_compute. repeat constructor.
  - eapply (proj2 (C5_short_text_aborts AsciiUnicode rejecting_libs
                     (bytes_of "thirty characters of a resume.")
                     (py "resume.pdf"))).
    + vm_compute. reflexivity.
    + vm_compute. repeat constructor.
Defined.

(** A statement whose call returns the value [v]: forget what [v] is. *)
Ltac forget_value :=
  lazymatch goal with
  | |- bind (call_stmt _ _ _ _ (Ok ?v)) _ _ = _ =>
      tryif is_var v then idtac
      else (let x := fresh "v" in generalize v; intro x)
  | |- bind (assign_stmt _ _ _ ?v) _ _ = _ =>
      tryif is_var v then idtac
      else (let x := fresh "v" in generalize v; intro x)
  | _ => idtac
  end.

Section RealtimeAnalysisFacts.
Context {U : Unicode} {L : PdfLibs}.

(** The name [score_breakdown] is bound nowhere: reading it raises. *)
Lemma score_breakdown_unbound (fr : frame) :
  load Realtime.analyze_code "score_breakdown" fr
  = (Raised (Exn "NameError" (py "name 'score_breakdown' is not defined")), fr).
Proof. reflexivity. Qed.

Lemma realtime_rejected (pdf_bytes : bytes) (filename text : pystr)
    (info : Realtime.extraction_info) :
  fst (Realtime.extract_text_realtime pdf_bytes) = Ok (text, info) ->
  negb (Realtime.success info) || (List.length (strip text) <? 50) = true ->
  Realtime.analyze_resume_realtime pdf_bytes filename
  = (Ok (Realtime.Failed (py "Could not extract meaningful text from PDF")),
     ["extract_text_realtime"]).
Proof.
  intros E Hv.
  unfold Realtime.analyze_resume_realtime, Realtime.analyze_body.
  erewrite bind_ok by reflexivity.
  erewrite try_except_raised; cycle 1.
  - apply bind_raised. unfold Realtime.analyze_block. rewrite E.
    run_ok. run_ok.
    apply bind_raised. rewrite Hv. reflexivity.
  - reflexivity.
Qed.

Lemma realtime_accepted (pdf_bytes : bytes) (filename text : pystr)
    (info : Realtime.extraction_info) :
  fst (Realtime.extract_text_realtime pdf_bytes) = Ok (text, info) ->
  negb (Realtime.success info) || (List.length (strip text) <? 50) = false ->
  Realtime.analyze_resume_realtime pdf_bytes filename
  = (Ok (Realtime.Failed (py "name 'score_breakdown' is not defined")),
     [ "extract_text_realtime"; "clean_text_fast"; "extract_skills_realtime";
       "analyze_experience_realtime"; "generate_job_matches_realtime";
       "calculate_resume_score_realtime";
       "generate_improvement_suggestions_realtime" ]).
Proof.
  intros E Hv.
  unfold Realtime.analyze_resume_realtime, Realtime.analyze_body.
  erewrite bind_ok by reflexivity.
  erewrite try_except_raised; cycle 1.
  - apply bind_raised. unfold Realtime.analyze_block. rewrite E.
    run_ok. run_ok. rewrite Hv. run_ok.
    do 7 (forget_value; run_ok).
    reflexivity.
  - reflexivity.
Qed.

Lemma realtime_extraction_raised (pdf_bytes : bytes) (filename : pystr)
    (e : exn) :
  fst (Realtime.extract_text_realtime pdf_bytes) = Raised e ->
  Realtime.analyze_resume_realtime pdf_bytes filename
  = (Ok (Realtime.Failed (exn_str e)), ["extract_text_realtime"]).
Proof.
  intros E.
  unfold Realtime.analyze_resume_realtime, Realtime.analyze_body.
  erewrite bind_ok by reflexivity.
  erewrite try_except_raised; cycle 1.
  - apply bind_raised. unfold Realtime.analyze_block. rewrite E.
    apply bind_raised. reflexivity.
  - reflexivity.
Qed.

End RealtimeAnalysisFacts.

(** C9: in [analyze_resume_realtime] the name [score_breakdown] is neither
    assigned in the function nor bound in the module or the builtins, so
    reading it raises [NameError].  So the function never returns a
    completed report: it returns the failure result with an error, for
    every input.  When the extraction succeeds with at least 50 characters
    of stripped text, all seven stages run, the compilation of the result
    raises, and the error returned is "name 'score_breakdown' is not
    defined". *)
Theorem C9_realtime_never_completes :
  forall (U : Unicode) (L : PdfLibs) (pdf_bytes : bytes) (filename : pystr),
    (forall fr,
        exists e, load Realtime.analyze_code "score_breakdown" fr = (Raised e, fr) /\
                  exn_class e = "NameError") /\
    (exists error called,
        Realtime.analyze_resume_realtime pdf_bytes filename
        = (Ok (Realtime.Failed error), called)) /\
    (forall report called,
        Realtime.analyze_resume_realtime pdf_bytes filename
        <> (Ok (Realtime.Completed report), called)) /\
    (forall text info,
        fst (Realtime.extract_text_realtime pdf_bytes) = Ok (text, info) ->
        Realtime.success info = true ->
        50 <= List.length (strip text) ->
        Realtime.analyze_resume_realtime pdf_bytes filename
        = (Ok (Realtime.Failed (py "name 'score_breakdown' is not defined")),
           [ "extract_text_realtime"; "clean_text_fast";
             "extract_skills_realtime"; "analyze_experience_realtime";
             "generate_job_matches_realtime";
             "calculate_resume_score_realtime";
             "generate_improvement_suggestions_realtime" ])).
Proof.
  intros U L pdf_bytes filename.
  assert (Hfail : exists error called,
             Realtime.analyze_resume_realtime pdf_bytes filename
             = (Ok (Realtime.Failed error), called)).
  { destruct (fst (Realtime.extract_text_realtime pdf_bytes))
      as [[text info]|e] eqn:E.
    - destruct (negb (Realtime.success info)
                || (List.length (strip text) <? 50)) eqn:Hv.
      + do 2 eexists. apply realtime_rejected with (text := text) (info := info);
          assumption.
      + do 2 eexists. apply realtime_accepted with (text := text) (info := info);
          assumption.
    - do 2 eexists. apply realtime_extraction_raised. exact E. }
  split; [|split; [|split]].
  - intros fr. eexists. split; [apply score_breakdown_unbound|reflexivity].
  - exact Hfail.
  - intros report called H. destruct Hfail as (error & called' & Hf).
    rewrite Hf in H. discriminate.
  - intros text info E Hs Hlen.
    apply realtime_accepted with (text := text) (info := info); [exact E|].
    rewrite Hs. apply Nat.ltb_ge in Hlen. rewrite Hlen. reflexivity.
Qed.

(** C9 at a resume of one page that the three libraries read. *)
Lemma C9_realtime_never_completes_witness :
  let page :=
    py "Senior software engineer with ten years of python, django and aws; led a team of five engineers and reduced costs by 30%." in
  @Realtime.analyze_resume_realtime AsciiUnicode (one_page_libs page)
    (bytes_of "%PDF-1.4") (py "resume.pdf")
  = (Ok (Realtime.Failed (py "name 'score_breakdown' is not defined")),
     [ "extract_text_realtime"; "clean_text_fast";
       "extract_skills_realtime"; "analyze_experience_realtime";
       "generate_job_matches_realtime";
       "calculate_resume_score_realtime";
       "generate_improvement_suggestions_realtime" ]).
Proof.
  cbv zeta.
  eapply (proj2 (proj2 (proj2
            (C9_realtime_never_completes AsciiUnicode (one_page_libs _)
               (bytes_of "%PDF-1.4") (py "resume.pdf"))))).
  - vm_compute. reflexivity.
  - reflexivity.
  - vm_compute. repeat constructor.
Defined.

(* ================================================================= *)
(** ** The patterns *)
(* ================================================================= *)

(** Every pattern of the tables of the three analyzers, and every pattern
    built from a keyword of the skill database, is inside the supported
    syntax. *)
Lemma patterns_compile :
  forallb (fun p => Re.compiled (Re.compile p))
    (Advanced.year_patterns ++ Advanced.leadership_patterns
     ++ Advanced.achievement_patterns ++ Advanced.link_patterns
     ++ Basic.year_patterns
     ++ Realtime.years_indicators ++ Realtime.senior_indicators
     ++ Realtime.mid_indicators ++ Realtime.leadership_patterns
     ++ flat_map snd (rt_skills_of Realtime.skill_patterns)) = true /\
  forallb (fun skill =>
             forallb Re.compiled (Advanced.skill_patterns (py skill))
             && forallb Re.compiled (Advanced.experience_patterns (py skill)))
    (keywords_of Advanced.skill_database) = true /\
  Re.compiled Realtime.kept_characters = true.
Proof. vm_compute. repeat split. Qed.

(* ================================================================= *)
(** * Further properties of the advanced analyzer *)
(* ================================================================= *)

(** ** Match percentage and primary stack *)

(** The match percentage of any list of required skills: 65 for the empty
    list (the quotient is not computed), between 65 and 95 always, 65 when
    no required skill is found and 95 when all are. *)
Theorem match_percentage_any_required :
  forall (U : Unicode) (sa : Advanced.skills_analysis)
         (required : list string),
    (Advanced.calculate_match_percentage sa [] == 65)%Q /\
    (65 <= Advanced.calculate_match_percentage sa required <= 95)%Q /\
    (Advanced.matched_required sa required = 0 ->
     (Advanced.calculate_match_percentage sa required == 65)%Q) /\
    (required <> [] ->
     Advanced.matched_required sa required = List.length required ->
     (Advanced.calculate_match_percentage sa required == 95)%Q).
Proof.
  intros U sa required. split; [reflexivity|]. split; [|split].
  - destruct required as [|r0 rest].
    + unfold Advanced.calculate_match_percentage. split.
      * apply Q.min_glb; lra.
      * apply Q.le_min_r.
    + rewrite calculate_match_percentage_formula by discriminate.
      apply match_formula_range.
      * simpl. lia.
      * apply matched_required_le.
  - intros H0. unfold Advanced.calculate_match_percentage. rewrite H0.
    destruct required as [|r0 rest].
    + reflexivity.
    + cbv zeta. rewrite Q.min_l.
      * unfold Qdiv. change (inject_Z (Z.of_nat 0)) with 0%Q. lra.
      * unfold Qdiv. change (inject_Z (Z.of_nat 0)) with 0%Q. lra.
  - intros Hne Hall. unfold Advanced.calculate_match_percentage.
    rewrite Hall. destruct required as [|r0 rest]; [contradiction|].
    cbv zeta.
    set (n := inject_Z (Z.of_nat (List.length (r0 :: rest)))).
    assert (Hn : ~ (n == 0)%Q).
    { unfold n, Qeq, inject_Z. simpl. lia. }
    assert (H1 : (n / n == 1)%Q) by (field; exact Hn).
    rewrite H1. apply Q.min_r. lra.
Qed.

Section PrimaryStack.
Context {U : Unicode}.
Import Advanced.

(** [max(d, key=d.get)] over a first entry and four more returns one of the
    five keys; an entry with the value 0 is returned only if it is the
    first. *)
Lemma first_max_cases (k0 k1 k2 k3 k4 : string) (n0 n1 n2 n3 : nat) :
  let r := first_max (k0, n0) [(k1, n1); (k2, n2); (k3, n3); (k4, 0)] in
  (r = k0 /\ n1 <= n0 /\ n2 <= n0 /\ n3 <= n0) \/
  (r = k1 /\ n0 < n1 /\ n2 <= n1 /\ n3 <= n1) \/
  (r = k2 /\ n0 < n2 /\ n1 < n2 /\ n3 <= n2) \/
  (r = k3 /\ n0 < n3 /\ n1 < n3 /\ n2 < n3).
Proof.
  cbn [first_max fst snd].
  destruct (n0 <? n1) eqn:E1; cbn [snd];
    [ destruct (n1 <? n2) eqn:E2 | destruct (n0 <? n2) eqn:E2 ]; cbn [snd];
    [ destruct (n2 <? n3) eqn:E3 | destruct (n1 <? n3) eqn:E3
    | destruct (n2 <? n3) eqn:E3 | destruct (n0 <? n3) eqn:E3 ]; cbn [snd];
    match goal with
    | |- context [?n <? 0] => replace (n <? 0) with false
        by (symmetry; apply Nat.ltb_ge; lia)
    end; cbn [fst];
    repeat match goal with
    | H : (_ <? _) = true |- _ => apply Nat.ltb_lt in H
    | H : (_ <? _) = false |- _ => apply Nat.ltb_ge in H
    end;
    first [ left; repeat split; first [reflexivity | lia]
          | right; left; repeat split; first [reflexivity | lia]
          | right; right; left; repeat split; first [reflexivity | lia]
          | right; right; right; repeat split; first [reflexivity | lia] ].
Qed.

End PrimaryStack.

(** The primary stack is the first of web_fullstack, data_science, mobile
    and devops with the greatest number of indicator skills; 'security' is
    a key of the scores but is never counted, so it is never the result;
    without any indicator skill the result is 'web_fullstack'. *)
Theorem primary_stack_first_greatest :
  forall (U : Unicode) (sa : Advanced.skills_analysis),
    let stack := Advanced.determine_primary_stack sa in
    let web := Advanced.stack_score sa
      ["javascript"; "react"; "angular"; "vue"; "node.js"; "html"; "css"] in
    let data := Advanced.stack_score sa
      ["python"; "pandas"; "numpy"; "scikit-learn"; "tensorflow"; "pytorch"; "r"] in
    let mobile := Advanced.stack_score sa
      ["react native"; "flutter"; "swift"; "kotlin"; "ios"; "android"] in
    let devops := Advanced.stack_score sa
      ["docker"; "kubernetes"; "jenkins"; "terraform"; "ansible"; "aws"; "azure"] in
    ((stack = "web_fullstack" /\ data <= web /\ mobile <= web /\ devops <= web) \/
     (stack = "data_science" /\ web < data /\ mobile <= data /\ devops <= data) \/
     (stack = "mobile" /\ web < mobile /\ data < mobile /\ devops <= mobile) \/
     (stack = "devops" /\ web < devops /\ data < devops /\ mobile < devops)) /\
    stack <> "security" /\
    (Advanced.technical_skills sa = [] -> stack = "web_fullstack").
Proof.
  intros U sa stack web data mobile devops.
  pose proof (first_max_cases "web_fullstack" "data_science" "mobile" "devops"
                "security" web data mobile devops) as H.
  cbv zeta in H.
  assert (Hs : stack =
               Advanced.first_max ("web_fullstack", web)
                 [("data_science", data); ("mobile", mobile);
                  ("devops", devops); ("security", 0)]) by reflexivity.
  rewrite <- Hs in H. clear Hs.
  split; [exact H|]. split.
  - destruct H as [[E _]|[[E _]|[[E _]|[E _]]]]; rewrite E; discriminate.
  - intros Hts.
    assert (Hz : forall l, Advanced.stack_score sa l = 0).
    { intros l. unfold Advanced.stack_score. rewrite Hts. simpl.
      induction l; [reflexivity|exact IHl]. }
    unfold data, mobile, devops, web in H. rewrite !Hz in H.
    destruct H as [[E _]|[[_ [F _]]|[[_ [F _]]|[_ [F _]]]]];
      [exact E | lia | lia | lia].
Qed.

(** ** The recommendations as a whole *)

Lemma Permutation_filter_length {A} (f : A -> bool) (l l' : list A) :
  Permutation l l' ->
  List.length (filter f l) = List.length (filter f l').
Proof.
  induction 1 as [|x l l' _ IH|x y l|l l' l'' _ IH1 _ IH2]; simpl.
  - reflexivity.
  - destruct (f x); simpl; congruence.
  - destruct (f x), (f y); reflexivity.
  - congruence.
Qed.

Section AdvancedRoles.
Context {U : Unicode}.
Import Advanced.

(** The result holds all the generated roles: eight are never exceeded. *)
Lemma recommendations_perm (sa : skills_analysis) (ea : experience_analysis) :
  Permutation (generate_detailed_job_recommendations sa ea)
              (generated_roles sa ea).
Proof.
  unfold generate_detailed_job_recommendations.
  rewrite firstn_all2.
  - apply sort_desc_perm.
  - rewrite sort_desc_length. apply generated_roles_length.
Qed.

Local Abbreviation is_engineering :=
  (fun r : role => String.eqb (category r) "Software Engineering").

Ltac by_cases :=
  repeat match goal with
  | |- context [match ?x with _ => _ end] => destruct x
  | |- context [if ?x then _ else _] => destruct x
  end.

(** The first generator returns one role whatever the skills, and no other
    generator returns a role of its category. *)
Lemma generated_engineering (sa : skills_analysis) (ea : experience_analysis) :
  List.length (filter is_engineering (generated_roles sa ea)) = 1.
Proof.
  unfold generated_roles, role_generators. cbn [flat_map].
  rewrite !filter_app, !length_app.
  assert (H1 : List.length (filter is_engineering
                 (generate_software_engineer_roles sa (exp_level ea)
                    (determine_primary_stack sa))) = 1).
  { unfold generate_software_engineer_roles. destruct (exp_level ea); reflexivity. }
  assert (H2 : List.length (filter is_engineering
                 (generate_data_scientist_roles sa (exp_level ea)
                    (determine_primary_stack sa))) = 0).
  { unfold generate_data_scientist_roles. by_cases; reflexivity. }
  assert (H3 : List.length (filter is_engineering
                 (generate_devops_roles sa (exp_level ea)
                    (determine_primary_stack sa))) = 0).
  { unfold generate_devops_roles. by_cases; reflexivity. }
  assert (H4 : List.length (filter is_engineering
                 (generate_frontend_roles sa (exp_level ea)
                    (determine_primary_stack sa))) = 0).
  { unfold generate_frontend_roles. by_cases; reflexivity. }
  assert (H5 : List.length (filter is_engineering
                 (generate_backend_roles sa (exp_level ea)
                    (determine_primary_stack sa))) = 0).
  { unfold generate_backend_roles. by_cases; reflexivity. }
  assert (H6 : List.length (filter is_engineering
                 (generate_fullstack_roles sa (exp_level ea)
                    (determine_primary_stack sa))) = 0).
  { unfold generate_fullstack_roles. by_cases; reflexivity. }
  assert (H7 : List.length (filter is_engineering
                 (generate_mobile_roles sa (exp_level ea)
                    (determine_primary_stack sa))) = 0).
  { unfold generate_mobile_roles. by_cases; reflexivity. }
  assert (H8 : List.length (filter is_engineering
                 (generate_security_roles sa (exp_level ea)
                    (determine_primary_stack sa))) = 0).
  { unfold generate_security_roles. by_cases; reflexivity. }
  rewrite H1, H2, H3, H4, H5, H6, H7, H8. reflexivity.
Qed.

(** The categories a level is never offered. *)
Lemma generated_categories (sa : skills_analysis) (ea : experience_analysis)
    (r : role) :
  In r (generated_roles sa ea) ->
  match exp_level ea with
  | junior => category r <> "DevOps/Infrastructure" /\
              category r <> "Cybersecurity"
  | _ => category r <> "Data Science"
  end.
Proof.
  unfold generated_roles, role_generators. cbn [flat_map].
  rewrite !in_app_iff.
  intros [H|[H|[H|[H|[H|[H|[H|[H|[]]]]]]]]].
  - unfold generate_software_engineer_roles in H.
    destruct (exp_level ea); destruct H as [<- | []]; cbn [category];
      try split; discriminate.
  - unfold generate_data_scientist_roles in H.
    destruct (negb _); [destruct H|].
    destruct (exp_level ea); [|destruct H|destruct H].
    destruct H as [<- | []]. cbn [category]. split; discriminate.
  - unfold generate_devops_roles in H.
    destruct (_ ++ _); [destruct H|].
    destruct (exp_level ea); [destruct H| |];
      destruct H as [<- | []]; cbn [category]; discriminate.
  - unfold generate_frontend_roles in H.
    destruct (negb _); [destruct H|].
    destruct H as [<- | []]; cbn [category].
    destruct (exp_level ea); try split; discriminate.
  - unfold generate_backend_roles in H.
    destruct (_ ++ _); [destruct H|].
    destruct H as [<- | []]; cbn [category].
    destruct (exp_level ea); try split; discriminate.
  - unfold generate_fullstack_roles in H.
    destruct (negb _); [destruct H|].
    destruct H as [<- | []]; cbn [category].
    destruct (exp_level ea); try split; discriminate.
  - unfold generate_mobile_roles in H.
    destruct (negb _); [destruct H|].
    destruct H as [<- | []]; cbn [category].
    destruct (exp_level ea); try split; discriminate.
  - unfold generate_security_roles in H.
    destruct (_ ++ _); [destruct H|].
    destruct (exp_level ea); [destruct H| |];
      destruct H as [<- | []]; cbn [category]; discriminate.
Qed.

End AdvancedRoles.

(** Every analysis is recommended at least one role and at most eight, and
    exactly one of them is of the category 'Software Engineering', whatever
    the skills; a junior is never recommended a DevOps or a security role,
    and a mid-level or senior candidate never a data science role. *)
Theorem recommendations_always_one_engineering_role :
  forall (U : Unicode) (sa : Advanced.skills_analysis)
         (ea : Advanced.experience_analysis),
    let out := Advanced.generate_detailed_job_recommendations sa ea in
    1 <= List.length out <= 8 /\
    List.length
      (filter (fun r => String.eqb (Advanced.category r) "Software Engineering")
              out) = 1 /\
    (forall r, In r out ->
       match Advanced.exp_level ea with
       | Advanced.junior =>
           Advanced.category r <> "DevOps/Infrastructure" /\
           Advanced.category r <> "Cybersecurity"
       | _ => Advanced.category r <> "Data Science"
       end).
Proof.
  intros U sa ea out.
  pose proof (recommendations_perm sa ea) as P. fold out in P.
  assert (E : List.length
                (filter (fun r => String.eqb (Advanced.category r)
                                             "Software Engineering") out) = 1).
  { rewrite (Permutation_filter_length _ _ _ P).
    apply generated_engineering. }
  split; [|split].
  - split.
    + pose proof (filter_length_le
                    (fun r => String.eqb (Advanced.category r)
                                         "Software Engineering") out). lia.
    + rewrite (Permutation_length P). apply generated_roles_length.
  - exact E.
  - intros r Hr. apply (generated_categories sa).
    apply (Permutation_in _ P). exact Hr.
Qed.

(** ** The scores and their messages *)

Ltac leb_facts :=
  repeat match goal with
  | H : (_ <=? _) = true |- _ => apply Nat.leb_le in H
  | H : (_ <=? _) = false |- _ => apply Nat.leb_gt in H
  | H : (_ <=? _)%Z = true |- _ => apply Z.leb_le in H
  | H : (_ <=? _)%Z = false |- _ => apply Z.leb_gt in H
  end.

(** A message of one chunk is in no other chunk: the chunks hold different
    texts. *)
Ltac other_chunk H :=
  repeat match type of H with
  | context [if ?c then _ else _] => destruct c
  | context [match ?c with _ => _ end] => destruct c
  end;
  cbn [In] in H;
  repeat match type of H with
  | _ \/ _ => destruct H as [H|H]
  end;
  first [ discriminate H | contradiction ].

(** The advanced score: each sub-score stays within the points the source
    allots to it (30, 25, 20, 15, 10), the least possible values add up to
    30, and the sum never exceeds 100, so the total is the plain sum and
    lies between 30 and 100.  The messages agree with the technical
    sub-score: 'Excellent technical skill diversity' is a strength exactly
    when it is 30, and 'Limited technical skills listed' is an area for
    improvement exactly when it is 10. *)
Theorem advanced_score_ranges_and_messages :
  forall (U : Unicode) (sa : Advanced.skills_analysis)
         (ea : Advanced.experience_analysis) (text : pystr)
         (em : Advanced.extraction_metadata),
    let s := Advanced.calculate_overall_score sa ea text em in
    (In (Advanced.Score.technical_skills s) [30; 25; 20; 10] /\
     15 <= Advanced.Score.experience_quality s <= 25 /\
     0 <= Advanced.Score.content_structure s <= 20 /\
     In (Advanced.Score.achievements s) [15; 5] /\
     0 <= Advanced.Score.completeness s <= 10 /\
     Advanced.Score.total_score s =
       Advanced.Score.technical_skills s + Advanced.Score.experience_quality s
       + Advanced.Score.content_structure s + Advanced.Score.achievements s
       + Advanced.Score.completeness s /\
     30 <= Advanced.Score.total_score s <= 100)%Z /\
    (In "Excellent technical skill diversity" (Advanced.Score.strengths s) <->
     Advanced.Score.technical_skills s = 30%Z) /\
    (In "Limited technical skills listed"
        (Advanced.Score.areas_for_improvement s) <->
     Advanced.Score.technical_skills s = 10%Z).
Proof.
  intros U sa ea text em s.
  destruct (advanced_subscores sa ea text em) as (Ht & He & Hc & Ha & Hk & _).
  fold s in Ht, He, Hc, Ha, Hk.
  assert (Hsum : (Advanced.Score.total_score s =
            Z.min (Advanced.Score.technical_skills s
                   + Advanced.Score.experience_quality s
                   + Advanced.Score.content_structure s
                   + Advanced.Score.achievements s
                   + Advanced.Score.completeness s) 100)%Z) by reflexivity.
  cbn [In] in Ht, Ha.
  split; [|split].
  - split; [cbn [In]; tauto|]. split; [exact He|]. split; [exact Hc|].
    split; [cbn [In]; tauto|]. split; [exact Hk|].
    rewrite Hsum. split; lia.
  - unfold s, Advanced.calculate_overall_score.
    cbv beta iota zeta delta
        [Advanced.Score.technical_skills Advanced.Score.strengths].
    rewrite !in_app_iff.
    set (n := Advanced.total_technical_skills (Advanced.technical_skills sa)).
    destruct (15 <=? n) eqn:E15; destruct (10 <=? n) eqn:E10;
      destruct (5 <=? n) eqn:E5; leb_facts; (split; [|intros H]);
      first [ lia | discriminate H | left; left; reflexivity | reflexivity
            | intros [H|[H|[H|[H|H]]]];
              first [ destruct H as [H|[]]; discriminate H
                    | contradiction H | other_chunk H ] ].
  - unfold s, Advanced.calculate_overall_score.
    cbv beta iota zeta delta
        [Advanced.Score.technical_skills Advanced.Score.areas_for_improvement].
    rewrite !in_app_iff.
    set (n := Advanced.total_technical_skills (Advanced.technical_skills sa)).
    destruct (15 <=? n) eqn:E15; destruct (10 <=? n) eqn:E10;
      destruct (5 <=? n) eqn:E5; leb_facts; (split; [|intros H]);
      first [ lia | discriminate H | left; left; reflexivity | reflexivity
            | intros [H|[H|[H|[H|H]]]];
              first [ destruct H as [H|[]]; discriminate H
                    | contradiction H | other_chunk H ] ].
Qed.

(** The real-time score: each sub-score stays within the points the source
    allots to it (40, 30, 20, 10); the experience sub-score is at least 20
    and the content sub-score at least 10.  The first feedback message
    follows the technical sub-score: it asks for more technical skills
    exactly when that sub-score is below 20, that is, with fewer than 7
    skills. *)
Theorem realtime_score_ranges_and_feedback :
  forall (U : Unicode) (text : pystr) (skills : Realtime.skills_found)
         (experience : Realtime.experience_analysis),
    let s := Realtime.calculate_resume_score_realtime text skills experience in
    (0 <= Realtime.technical_skills s <= 40 /\
     20 <= Realtime.experience s <= 30 /\
     10 <= Realtime.content_quality s <= 20 /\
     0 <= Realtime.completeness s <= 10)%Z /\
    Realtime.technical_skills s
      = Z.min (Z.of_nat (Realtime.total_count skills) * 3) 40 /\
    (In "Consider adding more technical skills" (Realtime.feedback s) <->
     (Realtime.technical_skills s < 20)%Z) /\
    ((Realtime.technical_skills s < 20)%Z <-> Realtime.total_count skills < 7).
Proof.
  intros U text skills experience s.
  destruct (realtime_subscores text skills experience)
    as (Ht & He & Hc & Hk & _).
  fold s in Ht, He, Hc, Hk.
  assert (Etech : Realtime.technical_skills s
                  = Z.min (Z.of_nat (Realtime.total_count skills) * 3) 40).
  { unfold s, Realtime.calculate_resume_score_realtime.
    destruct (Re.search false _ (str_lower text)); reflexivity. }
  split; [auto|]. split; [exact Etech|]. split.
  - rewrite Etech.
    unfold s, Realtime.calculate_resume_score_realtime.
    set (m := Z.min (Z.of_nat (Realtime.total_count skills) * 3) 40).
    destruct (Re.search false _ (str_lower text));
      cbv beta iota zeta delta [Realtime.feedback];
      rewrite ?in_app_iff;
      destruct (30 <=? m)%Z eqn:E30; destruct (20 <=? m)%Z eqn:E20;
      leb_facts; cbn [In]; split; intros H;
      repeat match goal with
      | H : _ \/ _ |- _ => destruct H as [H|H]
      end;
      first [ lia | discriminate | contradiction | left; left; reflexivity
            | left; reflexivity ].
  - rewrite Etech. lia.
Qed.

(** ** Improvement suggestions *)

Ltac all_cases :=
  repeat match goal with
  | |- context [match ?x with _ => _ end] => destruct x
  | |- context [if ?x then _ else _] => destruct x
  end.

(** The advanced analyzer returns between one and six suggestions, ordered
    by priority: the 'High' ones, then the 'Medium' ones, then the 'Low'
    ones.  The ATS suggestion, which is appended for every resume, is
    returned unless the six suggestions before it all apply; then the limit
    of six cuts it off, with the soft-skills suggestion after it. *)
Theorem advanced_suggestions_by_priority :
  forall (U : Unicode) (text : pystr) (sa : Advanced.skills_analysis)
         (ea : Advanced.experience_analysis),
    let out := Advanced.generate_improvement_suggestions text sa ea in
    let priorities := map Advanced.sg_priority out in
    1 <= List.length out <= 6 /\
    priorities = filter (String.eqb "High") priorities
                 ++ filter (String.eqb "Medium") priorities
                 ++ filter (String.eqb "Low") priorities /\
    (In Advanced.ats_suggestion out \/
     priorities = ["High"; "High"; "High"; "Medium"; "Medium"; "Medium"]).
Proof.
  intros U text sa ea out priorities.
  unfold priorities, out, Advanced.generate_improvement_suggestions,
    Advanced.suggestion_candidates.
  all_cases; cbn [app firstn map List.length Advanced.sg_priority filter];
    (split; [lia|]); (split; [reflexivity|]);
    first [ right; reflexivity | left; cbn [In]; tauto ].
Qed.

(** The basic analyzer returns between one and five suggestions, and the
    last one is always the ATS suggestion: at most four come before it, so
    the limit of five never cuts it off. *)
Theorem basic_suggestions_end_with_ats :
  forall (U : Unicode) (text : pystr) (sk : Basic.skills),
    let out := Basic.generate_improvement_suggestions text sk in
    1 <= List.length out <= 5 /\
    hd_error (rev out) = Some Basic.ats_suggestion /\
    out = Basic.suggestion_candidates text sk.
Proof.
  intros U text sk out.
  unfold out, Basic.generate_improvement_suggestions,
    Basic.suggestion_candidates.
  all_cases; cbn [app firstn List.length rev hd_error];
    (split; [lia|]); split; reflexivity.
Qed.

(** The real-time analyzer returns at most five suggestions, each of
    priority 'High' or 'Medium', and none exactly when the resume has at
    least 8 skills, a cloud platform, a devops skill, a content sub-score
    of at least 15, and is not a junior one without leadership. *)
Theorem realtime_suggestions_conditions :
  forall (skills : Realtime.skills_found)
         (experience : Realtime.experience_analysis)
         (score : Realtime.score_breakdown),
    let out :=
      Realtime.generate_improvement_suggestions_realtime skills experience score in
    List.length out <= 5 /\
    Forall (fun s => Realtime.sg_priority s = "High"
                     \/ Realtime.sg_priority s = "Medium") out /\
    (out = [] <->
     8 <= Realtime.total_count skills /\
     Realtime.skills_of skills "cloud_platforms" <> [] /\
     Realtime.skills_of skills "devops" <> [] /\
     ~ (Realtime.exp_level experience = Realtime.junior /\
        Realtime.leadership_score experience = 0) /\
     (15 <= Realtime.content_quality score)%Z).
Proof.
  intros skills experience score out.
  unfold out, Realtime.generate_improvement_suggestions_realtime.
  destruct (Realtime.total_count skills <? 8) eqn:E8;
    destruct (Realtime.skills_of skills "cloud_platforms") eqn:Ec;
    destruct (Realtime.skills_of skills "devops") eqn:Ed;
    destruct (Realtime.exp_level experience) eqn:El;
    destruct (Realtime.leadership_score experience) eqn:Es;
    destruct (Realtime.content_quality score <? 15)%Z eqn:Eq;
    cbn [app firstn List.length];
    (split; [lia|]);
    (split; [repeat (apply Forall_cons;
                    [cbn [Realtime.sg_priority]; tauto|]);
            apply Forall_nil|]);
    first [apply Nat.ltb_lt in E8 | apply Nat.ltb_ge in E8];
    first [apply Z.ltb_lt in Eq | apply Z.ltb_ge in Eq];
    (split;
     [ intros H; try discriminate H;
       repeat split; try lia; try discriminate;
       intros [H1 H2]; discriminate
     | intros (H1 & H2 & H3 & H4 & H5);
       first [ reflexivity | lia | congruence
             | exfalso; apply H4; split; reflexivity ] ]).
Qed.

(* ================================================================= *)
(** * Further properties of the basic analyzer *)
(* ================================================================= *)

(** ** Interview questions and score *)

(** The basic analyzer asks the seven standard questions of every
    candidate, in order, after a question on the first technical skill if
    there is one: seven or eight questions, so the limit of eight cuts
    nothing off.  Only the application question changes with the level: it
    is 'hard' for a senior and 'medium' otherwise. *)
Theorem basic_questions_standard_seven :
  forall (U : Unicode) (sk : Basic.skills) (lvl : Basic.level),
    let out := Basic.generate_interview_questions sk lvl in
    (Basic.technical sk = [] ->
     out = Basic.standard_questions lvl) /\
    (forall primary rest, Basic.technical sk = primary :: rest ->
       List.length out = 8 /\
       tl out = Basic.standard_questions lvl /\
       map Basic.q_question (firstn 1 out) =
         [py "Explain your experience with " ++ primary
          ++ py " and how you've used it in projects."]) /\
    7 <= List.length out <= 8 /\
    (In "hard" (map Basic.q_difficulty out) <-> lvl = Basic.senior).
Proof.
  intros U sk lvl out. unfold out, Basic.generate_interview_questions.
  split; [|split; [|split]].
  - intros E. rewrite E. reflexivity.
  - intros primary rest E. rewrite E. repeat split.
  - destruct (Basic.technical sk); cbn [app firstn List.length Basic.standard_questions];
      lia.
  - destruct (Basic.technical sk), lvl;
      cbn [app firstn map Basic.standard_questions Basic.q_difficulty In];
      split; intros H;
      repeat match goal with
      | H : _ \/ _ |- _ => destruct H as [H|H]
      end;
      first [ discriminate | contradiction | reflexivity | tauto ].
Qed.

(** The basic score starts from 70 and only adds to it: it lies between 70
    and 100 for every resume; for the same skills and text it does not
    decrease from junior to mid-level to senior; and every senior resume
    with ten or more skills in all scores 100, whatever its text. *)
Theorem basic_score_between_70_and_100 :
  forall (U : Unicode) (sk : Basic.skills) (lvl : Basic.level) (text : pystr),
    (70 <= Basic.calculate_overall_score sk lvl text <= 100)%Q /\
    (Basic.calculate_overall_score sk Basic.junior text
     <= Basic.calculate_overall_score sk Basic.mid text)%Q /\
    (Basic.calculate_overall_score sk Basic.mid text
     <= Basic.calculate_overall_score sk Basic.senior text)%Q /\
    (10 <= List.length (Basic.technical sk) + List.length (Basic.soft sk)
           + List.length (Basic.industry sk) ->
     (Basic.calculate_overall_score sk Basic.senior text == 100)%Q).
Proof.
  intros U sk lvl text.
  unfold Basic.calculate_overall_score. cbv zeta.
  set (n := List.length (Basic.technical sk) + List.length (Basic.soft sk)
            + List.length (Basic.industry sk)).
  set (q := List.length (filter _ Basic.quality_indicators)).
  assert (Hb : (0 <= Qmin (inject_Z (Z.of_nat n) * (3 # 2)) 25 <= 25)%Q).
  { split; [|apply Q.le_min_r].
    apply Q.min_glb; [|lra].
    assert (H0 : (0 <= inject_Z (Z.of_nat n))%Q)
      by (unfold Qle, inject_Z; simpl; lia).
    nra. }
  assert (Hq : (0 <= inject_Z (Z.min (Z.of_nat q * 2) 15) <= 15)%Q).
  { unfold Qle, inject_Z; simpl. lia. }
  set (b := Qmin (inject_Z (Z.of_nat n) * (3 # 2)) 25) in *.
  set (c := inject_Z (Z.min (Z.of_nat q * 2) 15)) in *.
  split; [|split; [|split]].
  - split.
    + apply Q.min_glb; [|lra].
      eapply Qle_trans; [|apply Q.le_max_l].
      destruct lvl; lra.
    + apply Q.le_min_r.
  - apply Q.min_le_compat_r. apply Q.max_le_compat_r. lra.
  - apply Q.min_le_compat_r. apply Q.max_le_compat_r. lra.
  - intros Hn. fold n in Hn.
    assert (H15 : (15 <= b)%Q).
    { unfold b. apply Q.min_glb; [|lra].
      assert (H10 : (10 <= inject_Z (Z.of_nat n))%Q)
        by (unfold Qle, inject_Z; simpl; lia).
      nra. }
    rewrite Q.min_r; [reflexivity|].
    eapply Qle_trans; [|apply Q.le_max_l]. lra.
Qed.

(** ** Skills of the basic analyzer *)

Lemma distinct_NoDup (l : list pystr) : distinct l = true -> NoDup l.
Proof.
  induction l as [|x t IH]; simpl; intros H; constructor.
  - apply andb_true_iff in H. destruct H as [H _].
    apply negb_true_iff in H. apply str_in_false. exact H.
  - apply andb_true_iff in H. apply IH. apply H.
Qed.

Lemma NoDup_firstn {A} (n : nat) (l : list A) : NoDup l -> NoDup (firstn n l).
Proof.
  intros H. rewrite <- (firstn_skipn n l) in H.
  eapply NoDup_app_remove_r. exact H.
Qed.

Lemma NoDup_map_filter {A B} (g : A -> B) (f : A -> bool) (l : list A) :
  NoDup (map g l) -> NoDup (map g (filter f l)).
Proof.
  induction l as [|x t IH]; simpl; intros H; [constructor|].
  inversion H as [|? ? Hx Ht]; subst.
  destruct (f x); simpl; [constructor|]; auto.
  intros Hin. apply Hx. apply in_map_iff in Hin.
  destruct Hin as [y [E Hy]]. apply filter_In in Hy.
  apply in_map_iff. exists y. tauto.
Qed.

Section BasicSkills.
Context {U : Unicode}.
Import Basic.

(** The loop over the technical skills appends a name only if it is new,
    and only the display name of a skill of the table. *)
Lemma basic_scan_skill_ok (text_lower : pystr) (skills : list string)
    (found : list pystr) (skill : string) :
  In skill skills ->
  NoDup found /\
  (forall name, In name found ->
     exists s, In s skills /\ name = format_skill_name (py s)) ->
  NoDup (scan_skill text_lower found skill) /\
  (forall name, In name (scan_skill text_lower found skill) ->
     exists s, In s skills /\ name = format_skill_name (py s)).
Proof.
  intros Hs [Hn Hf]. unfold scan_skill. cbv zeta.
  destruct (existsb _ _); [|split; assumption].
  destruct (str_in _ found) eqn:E; [split; assumption|].
  apply str_in_false in E. split.
  - apply NoDup_snoc; assumption.
  - intros name Hin. apply in_app_iff in Hin. destruct Hin as [Hin|[<-|[]]].
    + apply Hf. exact Hin.
    + exists skill. split; [exact Hs|reflexivity].
Qed.

Lemma basic_found_technical_ok (text_lower : pystr) (skills done : list string)
    (found : list pystr) :
  (forall s, In s done -> In s skills) ->
  NoDup found /\
  (forall name, In name found ->
     exists s, In s skills /\ name = format_skill_name (py s)) ->
  NoDup (fold_left (scan_skill text_lower) done found) /\
  (forall name, In name (fold_left (scan_skill text_lower) done found) ->
     exists s, In s skills /\ name = format_skill_name (py s)).
Proof.
  revert found. induction done as [|x t IH]; intros found Hsub H; [exact H|].
  cbn [fold_left]. apply IH.
  - intros s Hs. apply Hsub. right. exact Hs.
  - apply basic_scan_skill_ok; [apply Hsub; left; reflexivity|exact H].
Qed.

Lemma basic_found_soft_ok (text_lower : pystr) (l : list string)
    (found : list pystr) :
  NoDup found ->
  NoDup (fold_left
           (fun found skill =>
              if contains (py skill) text_lower
              then let formatted_skill := Py.title (py skill) in
                   if str_in formatted_skill found then found
                   else found ++ [formatted_skill]
              else found) l found).
Proof.
  revert found. induction l as [|x t IH]; intros found H; [exact H|].
  cbn [fold_left]. apply IH.
  destruct (contains _ _); [|exact H]. cbv zeta.
  destruct (str_in _ found) eqn:E; [exact H|].
  apply str_in_false in E. apply NoDup_snoc; assumption.
Qed.

End BasicSkills.

(** The basic [extract_skills] returns at most 15 technical, 10 soft and 8
    industry skills, none of them twice, and every technical skill is the
    display name of a skill of the table. *)
Theorem basic_skills_bounded_distinct :
  forall (U : Unicode) (text : pystr),
    let sk := Basic.extract_skills text in
    List.length (Basic.technical sk) <= 15 /\
    List.length (Basic.soft sk) <= 10 /\
    List.length (Basic.industry sk) <= 8 /\
    NoDup (Basic.technical sk) /\
    NoDup (Basic.soft sk) /\
    NoDup (Basic.industry sk) /\
    (forall name, In name (Basic.technical sk) ->
       exists skill,
         In skill (flat_map snd Basic.technical_skills_table) /\
         name = Basic.format_skill_name (py skill)).
Proof.
  intros U text sk. unfold sk, Basic.extract_skills. cbv zeta.
  cbn [Basic.technical Basic.soft Basic.industry].
  destruct (basic_found_technical_ok (str_lower text)
              (flat_map snd Basic.technical_skills_table)
              (flat_map snd Basic.technical_skills_table) [])
    as [Hn Hf].
  { auto. }
  { split; [constructor|intros name []]. }
  split; [apply firstn_le_length|].
  split; [apply firstn_le_length|].
  split; [apply firstn_le_length|].
  split; [apply NoDup_firstn; exact Hn|].
  split; [apply NoDup_firstn; apply basic_found_soft_ok; constructor|].
  split.
  - apply NoDup_firstn. unfold Basic.extract_industry_skills.
    apply NoDup_map_filter. apply distinct_NoDup. vm_compute. reflexivity.
  - intros name Hin. apply Hf. eapply In_firstn. exact Hin.
Qed.

(* ================================================================= *)
(** * Further properties of the real-time analyzer *)
(* ================================================================= *)

(** ** Skills *)

Section RealtimeKeys.
Context {U : Unicode}.
Import Realtime.

(** The loop over the categories enters every category once, found skills
    or not, and sets the two dictionaries together. *)
Lemma rt_scan_skill_keys (text text_lower : pystr) (st : skill_state)
    (skill : string * list string) :
  dict_keys (st_confidence st) = dict_keys (st_contexts st) ->
  dict_keys (st_confidence (scan_skill text text_lower st skill))
  = dict_keys (st_contexts (scan_skill text text_lower st skill)).
Proof.
  intros H. unfold scan_skill. destruct skill as [skill_name patterns].
  destruct (_ =? 0); [exact H|].
  cbn [st_confidence st_contexts]. rewrite !dict_set_keys, H. reflexivity.
Qed.

Lemma rt_scan_categories_keys (text text_lower : pystr)
    (cats : sdict (sdict (list string)))
    (acc : sdict (list pystr) * skill_state) :
  dict_keys (st_confidence (snd acc)) = dict_keys (st_contexts (snd acc)) ->
  let out := fold_left (scan_category text text_lower) cats acc in
  map fst (fst out) = map fst (fst acc) ++ map fst cats /\
  dict_keys (st_confidence (snd out)) = dict_keys (st_contexts (snd out)).
Proof.
  revert acc. induction cats as [|cat cats IH]; intros [found st] H.
  - cbn. rewrite app_nil_r. auto.
  - cbn [fold_left]. cbv zeta.
    specialize (IH (scan_category text text_lower (found, st) cat)).
    unfold scan_category at 2 3 4 5 in IH. unfold scan_category at 1 2.
    cbn [fst snd] in *.
    destruct IH as [IH1 IH2].
    + apply (fold_left_invariant
               (fun s => dict_keys (st_confidence s) = dict_keys (st_contexts s))).
      * exact H.
      * intros a b Ha _. apply rt_scan_skill_keys. exact Ha.
    + split; [|exact IH2].
      rewrite IH1. rewrite map_app. cbn [map fst]. rewrite <- app_assoc.
      reflexivity.
Qed.

End RealtimeKeys.

(** [extract_skills_realtime] enters all six categories in its result,
    found skills or not, so reading any of them from the result cannot
    fail; the total count is the sum of the lengths of the six lists; and a
    skill has a confidence score exactly when it has a list of contexts. *)
Theorem realtime_skills_all_categories :
  forall (U : Unicode) (text : pystr),
    let s := Realtime.extract_skills_realtime text in
    map fst (Realtime.by_category s)
      = [ "programming_languages"; "frameworks"; "databases";
          "cloud_platforms"; "devops"; "tools" ] /\
    Realtime.total_count s
      = list_sum (map (fun c => List.length (snd c)) (Realtime.by_category s)) /\
    dict_keys (Realtime.confidence_scores s)
      = dict_keys (Realtime.skill_contexts s).
Proof.
  intros U text s. unfold s, Realtime.extract_skills_realtime. cbv zeta.
  set (init := ([], {| Realtime.category_skills := [];
                       Realtime.st_confidence := [];
                       Realtime.st_contexts := [] |})
               : sdict (list pystr) * Realtime.skill_state).
  destruct (rt_scan_categories_keys text (str_lower text)
              Realtime.skill_patterns init eq_refl) as [H1 H2].
  destruct (fold_left _ Realtime.skill_patterns init) as [found st].
  cbn [fst snd] in H1, H2.
  cbn [Realtime.by_category Realtime.total_count Realtime.confidence_scores
       Realtime.skill_contexts].
  split; [exact H1|]. split; [reflexivity|exact H2].
Qed.
